(** * A shallow embedding of [dbt/adapters/fabricspark/livysession.py]

    The module drives a remote Livy session over HTTP: it caches a bearer
    token, finds or creates a session, submits statements, polls for their
    results and exposes them through a pyodbc-like cursor.

    The embedding keeps the Python control flow: module globals and the
    objects the code mutates live in a [World], every method is a
    computation over it that may return, raise a Python exception or never
    come back, and the remote service is a script of replies consumed one
    per HTTP request. *)

From Stdlib Require Import ZArith List String Ascii Bool Lia.
From Stdlib Require Import DecimalString.
From Stdlib Require Import Floats.SpecFloat.
Import ListNotations.
Local Open Scope string_scope.
Local Open Scope Z_scope.

(** ** Python strings *)

Definition chr (n : nat) : ascii := ascii_of_nat n.
Definition ord (c : ascii) : nat := nat_of_ascii c.

Definition str1 (c : ascii) : string := String c EmptyString.

Definition NL : string := str1 (chr 10).

(** A Python [str] is a sequence of Unicode characters; a [string] here is
    its UTF-8 encoding, one [ascii] per byte. Substring tests, prefixes,
    suffixes and concatenation are the same on the encoding as on the
    characters.

    [str.isspace] and the [\s] of [re] hold of the same characters. Below
    128 they are tab, line feed, vertical tab, form feed, carriage return,
    the four separators 0x1c-0x1f and space, one byte each. *)
Definition isspace (c : ascii) : bool :=
  let n := ord c in
  ((9 <=? n) && (n <=? 13) || (28 <=? n) && (n <=? 32))%nat.

(** U+0085 and U+00A0, encoded as 0xc2 0x85 and 0xc2 0xa0. *)
Definition isspace2 (c1 c2 : ascii) : bool :=
  ((ord c1 =? 194) && ((ord c2 =? 133) || (ord c2 =? 160)))%nat.

(** U+1680 (0xe1 0x9a 0x80), U+2000 to U+200A, U+2028, U+2029 and U+202F
    (0xe2 0x80 followed by 0x80-0x8a, 0xa8, 0xa9, 0xaf), U+205F (0xe2 0x81
    0x9f) and U+3000 (0xe3 0x80 0x80): with the ones above, all the white
    space of Unicode. *)
Definition isspace3 (c1 c2 c3 : ascii) : bool :=
  let n1 := ord c1 in
  let n2 := ord c2 in
  let n3 := ord c3 in
  ((n1 =? 225) && (n2 =? 154) && (n3 =? 128)
   || (n1 =? 226) && (n2 =? 128)
      && ((128 <=? n3) && (n3 <=? 138) || (n3 =? 168) || (n3 =? 169) || (n3 =? 175))
   || (n1 =? 226) && (n2 =? 129) && (n3 =? 159)
   || (n1 =? 227) && (n2 =? 128) && (n3 =? 128))%nat.

(** Drop the white space characters at the head of [s]. With [back] the
    bytes of [s] come last byte first, those of each character too. *)
Fixpoint strip_left (back : bool) (s : string) : string :=
  match s with
  | EmptyString => EmptyString
  | String c1 r1 =>
      if isspace c1 then strip_left back r1
      else
        match r1 with
        | EmptyString => s
        | String c2 r2 =>
            if (if back then isspace2 c2 c1 else isspace2 c1 c2) then strip_left back r2
            else
              match r2 with
              | EmptyString => s
              | String c3 r3 =>
                  if (if back then isspace3 c3 c2 c1 else isspace3 c1 c2 c3)
                  then strip_left back r3
                  else s
              end
        end
  end.

(** [s.lstrip()], and the [\s*] of a pattern before something that is not
    white space. *)
Definition lstrip (s : string) : string := strip_left false s.

Fixpoint rev_string (acc s : string) : string :=
  match s with
  | EmptyString => acc
  | String c r => rev_string (String c acc) r
  end.

(** [s.rstrip()] *)
Definition rstrip (s : string) : string :=
  rev_string EmptyString (strip_left true (rev_string EmptyString s)).

(** [s.strip()] *)
Definition strip (s : string) : string := rstrip (lstrip s).

(** [pat in s] for two strings. *)
Fixpoint contains (pat s : string) : bool :=
  String.prefix pat s ||
  match s with
  | EmptyString => false
  | String _ r => contains pat r
  end.

Definition lower_char (c : ascii) : ascii :=
  let n := ord c in
  if ((65 <=? n) && (n <=? 90))%nat then chr (n + 32) else c.

(** [s.lower()] for the comparison the module makes with it: the ASCII
    capitals are lowered and the bytes of other characters are left as they
    are. The result is compared with "cli", which no string with a
    non-ASCII character lowers to. *)
Fixpoint lower (s : string) : string :=
  match s with
  | EmptyString => EmptyString
  | String c r => String (lower_char c) (lower r)
  end.

(** [s.endswith(suffix)] *)
Definition endswith (s suffix : string) : bool :=
  String.prefix (rev_string EmptyString suffix) (rev_string EmptyString s).

(** [s[:-n]] *)
Definition drop_last (n : nat) (s : string) : string :=
  String.substring 0 (String.length s - n) s.

Fixpoint join (sep : string) (l : list string) : string :=
  match l with
  | [] => EmptyString
  | [x] => x
  | x :: r => x ++ sep ++ join sep r
  end.

(** [str(n)] for an int. *)
Definition str_of_Z (n : Z) : string := NilZero.string_of_int (Z.to_int n).

(** ** JSON values, as [json.loads] and [Response.json()] produce them

    A dictionary is the list of its items; keys are distinct, as in a Python
    dict. A float carries the text of its [repr]. [JNull] is [None]. *)

#[local] Set Warnings "-register-all".

Inductive json : Type :=
| JNull
| JBool (b : bool)
| JNum (n : Z)
| JFloat (repr : string)
| JStr (s : string)
| JArr (items : list json)
| JObj (items : list (string * json)).

Fixpoint assoc (k : string) (kv : list (string * json)) : option json :=
  match kv with
  | [] => None
  | (k', v) :: r => if String.eqb k k' then Some v else assoc k r
  end.

(** [j == s] for a string literal [s]. *)
Definition json_eq_str (j : json) (s : string) : bool :=
  match j with
  | JStr s' => String.eqb s' s
  | _ => false
  end.

(** [j in [s1, s2, ...]] for a list of string literals. *)
Definition json_in_strs (j : json) (l : list string) : bool :=
  existsb (json_eq_str j) l.

Definition hex_digit (n : nat) : ascii :=
  if (n <? 10)%nat then chr (48 + n) else chr (87 + n).

(** One character of [repr(str)], quoted with [q]. Bytes from 128 on are
    copied: they encode characters taken to be printable, which [repr]
    leaves as they are. *)
Definition repr_char (q : ascii) (c : ascii) : string :=
  let n := ord c in
  if Ascii.eqb c "\" then "\\"
  else if Ascii.eqb c q then String "\" (str1 c)
  else if (n =? 10)%nat then "\n"
  else if (n =? 13)%nat then "\r"
  else if (n =? 9)%nat then "\t"
  else if ((n <? 32) || (n =? 127))%nat
       then "\x" ++ String (hex_digit (n / 16)) (str1 (hex_digit (n mod 16)))
  else str1 c.

Fixpoint repr_chars (q : ascii) (s : string) : string :=
  match s with
  | EmptyString => EmptyString
  | String c r => repr_char q c ++ repr_chars q r
  end.

(** [repr(s)]: single quotes, unless the text has a single quote and no
    double quote. *)
Definition repr_str (s : string) : string :=
  let sq := "'"%char in
  let dq := chr 34 in
  let q := if contains (str1 sq) s && negb (contains (str1 dq) s) then dq else sq in
  String q (repr_chars q s ++ str1 q).

(** [repr(j)] *)
Fixpoint py_repr (j : json) : string :=
  match j with
  | JNull => "None"
  | JBool true => "True"
  | JBool false => "False"
  | JNum n => str_of_Z n
  | JFloat r => r
  | JStr s => repr_str s
  | JArr l => "[" ++ join ", " (map py_repr l) ++ "]"
  | JObj kv =>
      "{" ++ join ", " (map (fun p => repr_str (fst p) ++ ": " ++ py_repr (snd p)) kv) ++ "}"
  end.

(** [str(j)] *)
Definition py_str (j : json) : string :=
  match j with
  | JStr s => s
  | _ => py_repr j
  end.

(** ** Exceptions *)

Inductive RequestsError : Type :=
| ConnectionError
| Timeout
| RequestException.

Inductive exn : Type :=
| KeyError (key : string)
| TypeError
| ValueError
| AttributeError
| OverflowError
| Requests (e : RequestsError)
| HTTPError
| JSONDecodeError
| PyException (msg : string)
| DbtDatabaseError (msg : string).

Definition is_DbtDatabaseError (e : exn) : bool :=
  match e with
  | DbtDatabaseError _ => true
  | _ => false
  end.

(** ** The remote service and the process state *)

Record Response : Type := mkResponse {
  status_code : Z;
  body : option json   (* [None]: the body is not JSON, [.json()] raises *)
}.

(** What one HTTP call comes back with: an exception of [requests], or a
    response. *)
Inductive Reply : Type :=
| Failure (e : RequestsError)
| Answer (r : Response).

Inductive Method : Type := GET | POST | DELETE.

Inductive Event : Type :=
| Request (m : Method) (url : string) (data : option json)
| Sleep (seconds : Z)
| CreateShortcuts (token workspaceid lakehouseid path : string).

Record AccessToken : Type := mkAccessToken {
  token : string;
  expires_on : Z
}.

Inductive Credential : Type :=
| AzureCliCredential
| ClientSecretCredential (tenant_id client_id client_secret : string).

Record SparkCredentials : Type := mkSparkCredentials {
  authentication : option string;
  tenant_id : option string;
  client_id : option string;
  client_secret : option string;
  lakehouse_endpoint : string;
  livy_session_name : option string;
  livy_session_parameters : json;
  keep_session : bool;
  shortcuts_json_path : option string;
  workspaceid : string;
  lakehouseid : string
}.

Record LivySession : Type := mkLivySession {
  ls_credential : SparkCredentials;
  ls_connect_url : string;
  ls_session_id : json;
  is_new_session_required : bool
}.

Record LivyCursor : Type := mkLivyCursor {
  _rows : json;
  _schema : json;
  cur_credential : SparkCredentials;
  cur_connect_url : string;
  cur_session_id : json
}.

(** The process: the scripted remote, the clock, the module global
    [accessToken], the class attribute [livy_global_session] and the cursor
    under study. [utcoffset] is the time zone of the process: the seconds
    local time is ahead of UTC at a POSIX timestamp. [LivySession] objects are built only by
    [LivySessionManager.connect], which never rebinds the class attribute
    once it is set, so [self] of every session method and the cursor's
    [livy_session] are that one object. *)
Record World : Type := mkWorld {
  remote : list Reply;
  get_token : Credential -> Z -> AccessToken;
  utcoffset : Z -> Z;
  now : Z;
  trace : list Event;
  accessToken : option AccessToken;
  token_fetches : list Credential;
  livy_global_session : option LivySession;
  cursor : LivyCursor
}.

Definition set_remote (rs : list Reply) (w : World) : World :=
  mkWorld rs (get_token w) (utcoffset w) (now w) (trace w) (accessToken w) (token_fetches w)
          (livy_global_session w) (cursor w).

Definition set_now (t : Z) (w : World) : World :=
  mkWorld (remote w) (get_token w) (utcoffset w) t (trace w) (accessToken w) (token_fetches w)
          (livy_global_session w) (cursor w).

Definition log (e : Event) (w : World) : World :=
  mkWorld (remote w) (get_token w) (utcoffset w) (now w) (trace w ++ [e]) (accessToken w)
          (token_fetches w) (livy_global_session w) (cursor w).

Definition set_livy_global_session (s : option LivySession) (w : World) : World :=
  mkWorld (remote w) (get_token w) (utcoffset w) (now w) (trace w) (accessToken w)
          (token_fetches w) s (cursor w).

Definition set_cursor (c : LivyCursor) (w : World) : World :=
  mkWorld (remote w) (get_token w) (utcoffset w) (now w) (trace w) (accessToken w)
          (token_fetches w) (livy_global_session w) c.

(** ** Computations *)

Inductive Outcome (A : Type) : Type :=
| Ok (a : A) (w : World)
| Raise (e : exn) (w : World)
| Stuck.   (* no result: the remote has no further reply *)

Arguments Ok {A} a w.
Arguments Raise {A} e w.
Arguments Stuck {A}.

Definition M (A : Type) : Type := World -> Outcome A.

Definition ret {A} (a : A) : M A := fun w => Ok a w.

Definition raise {A} (e : exn) : M A := fun w => Raise e w.

Definition bind {A B} (m : M A) (k : A -> M B) : M B :=
  fun w =>
    match m w with
    | Ok a w' => k a w'
    | Raise e w' => Raise e w'
    | Stuck => Stuck
    end.

Declare Scope py_scope.
Delimit Scope py_scope with py.
Notation "x <- c ;; k" := (bind c (fun x => k))
  (at level 61, c at next level, right associativity) : py_scope.
Notation "c ;;; k" := (bind c (fun _ => k))
  (at level 61, right associativity) : py_scope.
Local Open Scope py_scope.

Definition gets {A} (f : World -> A) : M A := fun w => Ok (f w) w.

Definition modify (f : World -> World) : M unit := fun w => Ok tt (f w).

(** A Python expression that may raise. *)
Definition lift {A} (r : exn + A) : M A :=
  match r with
  | inl e => raise e
  | inr a => ret a
  end.

(** [while True:] with a loop-carried state. The body says whether to go
    round again or to leave with a value. *)
Inductive Ctl (S A : Type) : Type :=
| Continue (s : S)
| Break (a : A).

Arguments Continue {S A} s.
Arguments Break {S A} a.

Fixpoint while_true {S A} (fuel : nat) (body : S -> M (Ctl S A)) (s : S) : M A :=
  fun w =>
    match fuel with
    | O => Stuck
    | Datatypes.S fuel' =>
        match body s w with
        | Ok (Continue s') w' => while_true fuel' body s' w'
        | Ok (Break a) w' => Ok a w'
        | Raise e w' => Raise e w'
        | Stuck => Stuck
        end
    end.

(** Every [while True] of the module sends at least one request per round,
    so a loop entered with [n] replies left goes round at most [n] times
    before the remote falls silent. *)
Definition loop {S A} (body : S -> M (Ctl S A)) (s : S) : M A :=
  fun w => while_true (Datatypes.S (List.length (remote w))) body s w.

(** [time.sleep(seconds)] *)
Definition sleep (seconds : Z) : M unit :=
  modify (fun w => log (Sleep seconds) (set_now (now w + seconds) w)).

(** One HTTP call: the request goes out and the next scripted reply comes
    back. *)
Definition send (m : Method) (url : string) (data : option json) : M Reply :=
  fun w =>
    match remote w with
    | [] => Stuck
    | r :: rs => Ok r (log (Request m url data) (set_remote rs w))
    end.

(** ** Python operations on JSON values *)

(** [j[k]] *)
Definition getitem (j : json) (k : string) : exn + json :=
  match j with
  | JObj kv =>
      match assoc k kv with
      | Some v => inr v
      | None => inl (KeyError k)
      end
  | _ => inl TypeError
  end.

(** [len(j)]; of a string, the length of its encoding, which is 0 when the
    string is empty and at least 1 otherwise. *)
Definition py_len (j : json) : exn + nat :=
  match j with
  | JStr s => inr (String.length s)
  | JArr l => inr (List.length l)
  | JObj kv => inr (List.length kv)
  | _ => inl TypeError
  end.

Fixpoint chars (s : string) : list json :=
  match s with
  | EmptyString => []
  | String c r => JStr (str1 c) :: chars r
  end.

(** The elements [for x in j] visits; for a string, one string per byte of
    its encoding, strings like the characters the loop visits. *)
Definition py_iter (j : json) : exn + list json :=
  match j with
  | JStr s => inr (chars s)
  | JArr l => inr l
  | JObj kv => inr (map (fun p => JStr (fst p)) kv)
  | _ => inl TypeError
  end.

(** [s + j] with [s] a string *)
Definition str_add (s : string) (j : json) : exn + string :=
  match j with
  | JStr t => inr (s ++ t)
  | _ => inl TypeError
  end.

(** [pat in j] *)
Definition py_in (pat : string) (j : json) : exn + bool :=
  match j with
  | JStr s => inr (contains pat s)
  | JArr l => inr (existsb (fun x => json_eq_str x pat) l)
  | JObj kv => inr (existsb (fun p => String.eqb (fst p) pat) kv)
  | _ => inl TypeError
  end.

(** [response.json()] *)
Definition response_json (r : Response) : exn + json :=
  match body r with
  | Some j => inr j
  | None => inl JSONDecodeError
  end.

(** [requests.get(...).json()] and the like: a transport failure is raised,
    no status is looked at. *)
Definition reply_json (r : Reply) : exn + json :=
  match r with
  | Failure e => inl (Requests e)
  | Answer resp => response_json resp
  end.

(** [response.raise_for_status()] *)
Definition raise_for_status (r : Response) : option exn :=
  if (400 <=? status_code r) && (status_code r <? 600) then Some HTTPError else None.

Definition ebind {A B} (r : exn + A) (k : A -> exn + B) : exn + B :=
  match r with
  | inl e => inl e
  | inr a => k a
  end.

Notation "x <~ c ;; k" := (ebind c (fun x => k))
  (at level 61, c at next level, right associativity) : py_scope.

(** ** Module constants *)

Definition DEFAULT_POLL_WAIT : Z := 45.
Definition DEFAULT_POLL_STATEMENT_WAIT : Z := 5.
Definition DEFAULT_EXECUTE_RETRIES_TIME : Z := 5.
Definition DEFAULT_EXECUTE_RETRIES_WAIT : Z := 10.
Definition EXECUTE_RETRIES_PATTERNS : list string :=
  ["Request failed: HTTP/1.1 403 Forbidden ClientRequestId"].

(** ** Retry conditions *)

(** The [for pattern in EXECUTE_RETRIES_PATTERNS] of
    [check_retry_condition_when_execute]. *)
Fixpoint any_pattern_in (patterns : list string) (res : json) : exn + bool :=
  match patterns with
  | [] => inr false
  | pattern :: rest =>
      output <~ getitem res "output" ;;
      evalue <~ getitem output "evalue" ;;
      found <~ py_in pattern evalue ;;
      if found then inr true else any_pattern_in rest res
  end.

Definition check_retry_condition_when_execute (res : json) : exn + bool :=
  output <~ getitem res "output" ;;
  status <~ getitem output "status" ;;
  if json_eq_str status "error"
  then any_pattern_in EXECUTE_RETRIES_PATTERNS res
  else inr false.

Definition check_retry_condition_when_submit_code (res : json) : exn + bool :=
  state <~ getitem res "state" ;;
  if json_eq_str state "error" then inr true else inr false.

(** ** The token cache *)

(** [datetime.fromtimestamp(t)] for whole seconds [t]: the naive datetime
    of local time, counted in seconds as the timestamp is, so that the
    [timedelta] between two of them is the difference of the counts. Python
    has datetimes for the years 1 to 9999 and raises outside them;
    [fromtimestamp_accepts] below says where it does not, and what is
    stated of the token cache is stated there. *)
Definition datetime_fromtimestamp (t : Z) : M Z :=
  offset <- gets utcoffset ;;
  ret (t + offset t).

(** [now] is the clock in whole seconds: the current time goes through
    [time.localtime], which drops the fraction, and [time.mktime] takes the
    struct back to the timestamp. [expires_on] is an int. Both are turned
    into naive local datetimes and subtracted as such, so a change of UTC
    offset between now and the expiry counts as time.
    [int(difference.total_seconds() / 60)] divides and truncates towards
    zero, which on whole seconds is [Z.quot]. *)
Definition is_token_refresh_necessary (unixTimestamp : Z) : M bool :=
  (* Convert to datetime object *)
  dt_object <- datetime_fromtimestamp unixTimestamp ;;
  (* Convert to local time *)
  local_time <- gets now ;;
  (* Calculate difference *)
  current <- datetime_fromtimestamp local_time ;;
  let difference := dt_object - current in
  if Z.quot difference 60 <? 5 then ret true else ret false.

(** [Credential.get_token(AZURE_CREDENTIAL_SCOPE)] of azure.identity. *)
Definition azure_get_token (c : Credential) : M AccessToken :=
  fun w =>
    Ok (get_token w c (now w))
       (mkWorld (remote w) (get_token w) (utcoffset w) (now w) (trace w) (accessToken w)
                (token_fetches w ++ [c]) (livy_global_session w) (cursor w)).

Definition set_accessToken (t : AccessToken) (w : World) : World :=
  mkWorld (remote w) (get_token w) (utcoffset w) (now w) (trace w) (Some t)
          (token_fetches w) (livy_global_session w) (cursor w).

(** [str(x)] of an optional string. *)
Definition str_opt (x : option string) : string :=
  match x with
  | Some s => s
  | None => "None"
  end.

Definition get_cli_access_token (credentials : SparkCredentials) : M AccessToken :=
  azure_get_token AzureCliCredential.

Definition get_sp_access_token (credentials : SparkCredentials) : M AccessToken :=
  azure_get_token
    (ClientSecretCredential (str_opt (tenant_id credentials))
                            (str_opt (client_id credentials))
                            (str_opt (client_secret credentials))).

(** [credentials.authentication and credentials.authentication.lower() == "cli"] *)
Definition uses_cli (credentials : SparkCredentials) : bool :=
  match authentication credentials with
  | None => false
  | Some a => negb (String.eqb a EmptyString) && String.eqb (lower a) "cli"
  end.

Definition Headers : Type := list (string * string).

Definition get_headers (credentials : SparkCredentials) (tokenPrint : bool) : M Headers :=
  cached <- gets accessToken ;;
  refresh <- match cached with
             | None => ret true
             | Some t => is_token_refresh_necessary (expires_on t)
             end ;;
  (if refresh
   then
     if uses_cli credentials
     then t <- get_cli_access_token credentials ;; modify (set_accessToken t)
     else t <- get_sp_access_token credentials ;; modify (set_accessToken t)
   else ret tt) ;;;
  current <- gets accessToken ;;
  match current with
  | Some t =>
      ret [("Content-Type", "application/json");
           ("Authorization", "Bearer " ++ token t)]
  | None => raise AttributeError
  end.

(** ** LivySession

    [self] is the object bound to [LivySessionManager.livy_global_session]. *)

Definition self_session : M LivySession :=
  s <- gets livy_global_session ;;
  match s with
  | Some s => ret s
  | None => raise AttributeError
  end.

Definition update_session (f : LivySession -> LivySession) : M unit :=
  modify (fun w => set_livy_global_session (option_map f (livy_global_session w)) w).

Definition with_session_id (id : json) (s : LivySession) : LivySession :=
  mkLivySession (ls_credential s) (ls_connect_url s) id (is_new_session_required s).

Definition with_new_session_required (b : bool) (s : LivySession) : LivySession :=
  mkLivySession (ls_credential s) (ls_connect_url s) (ls_session_id s) b.

Fixpoint for_each {A} (l : list A) (body : A -> M unit) : M unit :=
  match l with
  | [] => ret tt
  | x :: r => body x ;;; for_each r body
  end.

(** [dbt.exceptions.FailedToConnectException(msg)]. The module imports
    [dbt.adapters.events] and [dbt_common], which came with dbt-core 1.8;
    [dbt.exceptions] of 1.8 and later has no attribute of that name (the
    class is [dbt.adapters.exceptions.FailedToConnectError] there), so
    looking it up raises [AttributeError] and no exception object is made
    for the [raise]. *)
Definition dbt_exceptions_FailedToConnectException (msg : string) : exn + exn :=
  inl AttributeError.

Module LivySession.

Definition __init__ (credentials : SparkCredentials) : LivySession :=
  mkLivySession credentials (lakehouse_endpoint credentials) JNull true.

(** One round of the [while True] of [create_session]. *)
Definition create_session_poll (_ : unit) : M (Ctl unit unit) :=
  self <- self_session ;;
  url <- lift (str_add (ls_connect_url self ++ "/sessions/") (ls_session_id self)) ;;
  _ <- get_headers (ls_credential self) false ;;
  reply <- send GET url None ;;
  res <- lift (reply_json reply) ;;
  state <- lift (getitem res "state") ;;
  if json_eq_str state "starting" || json_eq_str state "not_started"
  then sleep DEFAULT_POLL_WAIT ;;; ret (Continue tt)
  else
    livyInfo <- lift (getitem res "livyInfo") ;;
    currentState <- lift (getitem livyInfo "currentState") ;;
    if json_eq_str currentState "idle"
    then update_session (with_new_session_required false) ;;; ret (Break tt)
    else if json_eq_str currentState "dead"
    then
      e <- lift (dbt_exceptions_FailedToConnectException "failed to connect") ;;
      raise e
    else ret (Continue tt).

Definition create_session (data : json) : M json :=
  self <- self_session ;;
  (* try: response = requests.post(...); response.raise_for_status()
     except ConnectionError / HTTPError / Timeout / RequestException: print *)
  _ <- get_headers (ls_credential self) true ;;
  reply <- send POST (ls_connect_url self ++ "/sessions") (Some data) ;;
  let response :=
    match reply with
    | Failure _ => None            (* the call raised, nothing was assigned *)
    | Answer r =>
        match raise_for_status r with
        | Some _ => Some r         (* HTTPError caught, [response] stays bound *)
        | None => Some r
        end
    end in
  match response with
  | None => raise (PyException "Invalid response from livy server")
  | Some response =>
      update_session (with_session_id JNull) ;;;
      id <- match response_json response with
            | inl JSONDecodeError => raise (PyException "Json decode error to get session_id")
            | inl e => raise e
            | inr j => lift (getitem j "id")
            end ;;
      update_session (with_session_id (JStr (py_str id))) ;;;
      (* Wait for started state *)
      loop create_session_poll tt ;;;
      self <- self_session ;;
      ret (ls_session_id self)
  end.

Definition delete_session : M unit :=
  self <- self_session ;;
  (* everything below runs under [try: ... except Exception: logger.error] *)
  match str_add (ls_connect_url self ++ "/sessions/") (ls_session_id self) with
  | inl _ => ret tt
  | inr url =>
      _ <- get_headers (ls_credential self) false ;;
      reply <- send DELETE url None ;;
      match reply with
      | Failure _ => ret tt
      | Answer r =>
          if status_code r =? 200
          then ret tt
          else ret tt   (* [response] is the module urllib.response here:
                           AttributeError, caught like the rest *)
      end
  end.

Definition invalid_states : list string := ["dead"; "shutting_down"; "killed"].

Definition is_valid_session : M bool :=
  self <- self_session ;;
  url <- lift (str_add (ls_connect_url self ++ "/sessions/") (ls_session_id self)) ;;
  _ <- get_headers (ls_credential self) false ;;
  reply <- send GET url None ;;
  res <- lift (reply_json reply) ;;
  livyInfo <- lift (getitem res "livyInfo") ;;
  currentState <- lift (getitem livyInfo "currentState") ;;
  ret (negb (json_in_strs currentState invalid_states)).

(** One round of the [while True] of [get_exist_session], for the listed
    [session]. *)
Definition get_exist_session_poll (session : json) (_ : unit) : M (Ctl unit unit) :=
  self <- self_session ;;
  id <- lift (getitem session "id") ;;
  url <- lift (str_add (ls_connect_url self ++ "/sessions/") id) ;;
  _ <- get_headers (ls_credential self) false ;;
  reply <- send GET url None ;;
  res <- lift (reply_json reply) ;;
  state <- lift (getitem res "state") ;;
  if json_eq_str state "starting" || json_eq_str state "not_started"
  then sleep DEFAULT_POLL_WAIT ;;; ret (Continue tt)
  else
    livyInfo <- lift (getitem res "livyInfo") ;;
    currentState <- lift (getitem livyInfo "currentState") ;;
    if json_eq_str currentState "idle"
    then
      id <- lift (getitem session "id") ;;
      update_session (with_session_id id) ;;;
      ret (Break tt)
    else ret (Continue tt).

(** The body of [for session in res["items"]]. The [break] leaves the
    inner [while True] only. *)
Definition get_exist_session_body (livy_session_name : string) (session : json) : M unit :=
  name <- lift (getitem session "name") ;;
  if json_eq_str name livy_session_name
  then
    livyState <- lift (getitem session "livyState") ;;
    if json_in_strs livyState ["dead"; "shutting_down"; "killed"]
    then ret tt
    else loop (get_exist_session_poll session) tt
  else ret tt.

Definition get_exist_session : M json :=
  self <- self_session ;;
  match livy_session_name (ls_credential self) with
  | None => ret JNull
  | Some livy_session_name =>
      _ <- get_headers (ls_credential self) true ;;
      reply <- send GET (ls_connect_url self ++ "/sessions") None ;;
      res <- lift (reply_json reply) ;;
      items <- lift (getitem res "items") ;;
      sessions <- lift (py_iter items) ;;
      for_each sessions (get_exist_session_body livy_session_name) ;;;
      self <- self_session ;;
      ret (ls_session_id self)
  end.

Definition get_exist_session_or_create (data : json) : M json :=
  session_id <- get_exist_session ;;
  match session_id with
  | JNull => create_session data
  | _ => ret session_id
  end.

Definition is_keeping_session : M bool :=
  self <- self_session ;;
  ret (keep_session (ls_credential self)).

End LivySession.

(** ** Cursor and connection objects *)

Record LivyConnection : Type := mkLivyConnection {
  con_credential : SparkCredentials;
  con_connect_url : string;
  con_session_id : json;
  livy_session_parameters_of : json;
  _cursor : LivyCursor
}.

Definition LivyCursor__init__ (credential : SparkCredentials) (livy_session : LivySession)
  : LivyCursor :=
  mkLivyCursor JNull JNull credential (lakehouse_endpoint credential)
               (ls_session_id livy_session).

Definition LivyConnection__init__ (credentials : SparkCredentials) (livy_session : LivySession)
  : LivyConnection :=
  mkLivyConnection credentials (lakehouse_endpoint credentials)
                   (ls_session_id livy_session)
                   (livy_session_parameters credentials)
                   (LivyCursor__init__ credentials livy_session).

(** Modelled from the spec: [ShortcutClient] lives in
    [dbt/adapters/fabricspark/shortcuts.py], which is not part of the source
    at hand. The spec treats shortcut provisioning as fire-and-forget, called
    once per new session with the token, the workspace id, the lakehouse id
    and the path; here it leaves one event in the trace. *)
Definition create_shortcuts (token workspaceid lakehouseid path : string) : M unit :=
  modify (log (CreateShortcuts token workspaceid lakehouseid path)).

Module LivySessionManager.

Definition connect (credentials : SparkCredentials) : M LivyConnection :=
  let data :=
    JObj [("kind", JStr "sql");
          ("conf", livy_session_parameters credentials);
          ("name", match livy_session_name credentials with
                   | Some n => JStr n
                   | None => JNull
                   end)] in
  global <- gets livy_global_session ;;
  match global with
  | None =>
      modify (set_livy_global_session (Some (LivySession.__init__ credentials))) ;;;
      _ <- LivySession.get_exist_session_or_create data ;;
      update_session (with_new_session_required false) ;;;
      match shortcuts_json_path credentials with
      | None => ret tt
      | Some path =>
          if String.eqb path EmptyString
          then ret tt
          else
            t <- gets accessToken ;;
            match t with
            | None => raise AttributeError
            | Some t =>
                create_shortcuts (token t) (workspaceid credentials)
                                 (lakehouseid credentials) path
            end
      end
  | Some _ =>
      valid <- LivySession.is_valid_session ;;
      if negb valid
      then
        LivySession.delete_session ;;;
        _ <- LivySession.create_session data ;;
        update_session (with_new_session_required false)
      else
        self <- self_session ;;
        if is_new_session_required self
        then
          _ <- LivySession.create_session data ;;
          update_session (with_new_session_required false)
        else ret tt
  end ;;;
  self <- self_session ;;
  ret (LivyConnection__init__ credentials self).

Definition disconnect : M unit :=
  valid <- LivySession.is_valid_session ;;
  keeping <- (if valid then LivySession.is_keeping_session else ret false) ;;
  if valid && negb keeping
  then
    LivySession.delete_session ;;;
    update_session (with_new_session_required true)
  else ret tt.

End LivySessionManager.

(** ** [re.sub(r"\s*/\*(.|\n)*?\*/\s*", "\n", sql, re.DOTALL)]

    The pattern is: white space, the opener, as few characters as possible
    (line feeds included, through the alternative), the closer, white
    space. White space is never a slash, so the greedy first part has one way
    to match; the lazy middle stops at the first closer. *)

(** The text after the first [*/] of [s]. *)
Fixpoint find_close (s : string) : option string :=
  match s with
  | EmptyString => None
  | String c r =>
      match r with
      | EmptyString => None
      | String c' r' =>
          if Ascii.eqb c "*" && Ascii.eqb c' "/" then Some r' else find_close r
      end
  end.

(** The text after a match of the pattern at the start of [s]. *)
Definition match_comment (s : string) : option string :=
  match lstrip s with
  | String "/" (String "*" r) => option_map lstrip (find_close r)
  | _ => None
  end.

(** Left to right: replace a match and go on after it, or copy a character.
    [limit] is the number of replacements still allowed, if bounded. *)
Fixpoint re_sub_loop (fuel : nat) (repl : string) (limit : option nat) (s : string)
  : string :=
  match fuel with
  | O => s
  | Datatypes.S fuel' =>
      match limit with
      | Some O => s
      | _ =>
          match match_comment s with
          | Some rest => repl ++ re_sub_loop fuel' repl (option_map Nat.pred limit) rest
          | None =>
              match s with
              | EmptyString => EmptyString
              | String c r => String c (re_sub_loop fuel' repl limit r)
              end
          end
      end
  end.

(** [re.sub(pattern, repl, s, count)]: [count = 0] replaces every match. *)
Definition re_sub_comment (repl s : string) (count : nat) : string :=
  re_sub_loop (Datatypes.S (String.length s)) repl
              (if (count =? 0)%nat then None else Some count) s.

(** [re.DOTALL], the flag's integer value. *)
Definition re_DOTALL : nat := 16.

(** ** Bindings *)

Inductive Binding : Type :=
| BFloat (f : spec_float)
| BStr (s : string).

Inductive FormatError : Type := FormatTypeError | FormatValueError.

(** Library functions the cursor calls and the model takes as given:
    [textwrap.dedent] and the [%] operator of [str]. *)
Record PyLib : Type := mkPyLib {
  textwrap_dedent : string -> string;
  str_mod : string -> list Binding -> FormatError + string
}.

Definition format_exn (e : FormatError) : exn :=
  match e with
  | FormatTypeError => TypeError
  | FormatValueError => ValueError
  end.

(** ** LivyCursor *)

Definition update_cursor (f : LivyCursor -> LivyCursor) : M unit :=
  modify (fun w => set_cursor (f (cursor w)) w).

Definition with_rows (rows : json) (c : LivyCursor) : LivyCursor :=
  mkLivyCursor rows (_schema c) (cur_credential c) (cur_connect_url c) (cur_session_id c).

Definition with_schema (schema : json) (c : LivyCursor) : LivyCursor :=
  mkLivyCursor (_rows c) schema (cur_credential c) (cur_connect_url c) (cur_session_id c).

Definition with_cur_session_id (id : json) (c : LivyCursor) : LivyCursor :=
  mkLivyCursor (_rows c) (_schema c) (cur_credential c) (cur_connect_url c) id.

(** One entry of [description]:
    [(name, type, None, None, None, None, nullable)]. *)
Definition Descriptor : Type := (json * json * json * json * json * json * json)%type.

Fixpoint mapM {A B} (f : A -> exn + B) (l : list A) : exn + list B :=
  match l with
  | [] => inr []
  | x :: r => y <~ f x ;; ys <~ mapM f r ;; inr (y :: ys)
  end.

Module LivyCursor.

Definition description : M (list Descriptor) :=
  self <- gets cursor ;;
  match _schema self with
  | JNull => ret []
  | schema =>
      fields <- lift (py_iter schema) ;;
      lift (mapM (fun field =>
                    name <~ getitem field "name" ;;
                    type <~ getitem field "type" ;;
                    nullable <~ getitem field "nullable" ;;
                    inr (name, type, JNull, JNull, JNull, JNull, nullable))
                 fields)
  end.


(** The statement URL, [connect_url + "/sessions/" + session_id + "/statements"]. *)
Definition statements_url (self : LivyCursor) : exn + string :=
  u <~ str_add (cur_connect_url self ++ "/sessions/") (cur_session_id self) ;;
  inr (u ++ "/statements").

(** One round of the [while True] of [_submitLivyCode]. *)
Definition _submitLivyCode_body (self : LivyCursor) (data : json) (retries_time : Z)
  : M (Ctl Z Response) :=
  url <- lift (statements_url self) ;;
  _ <- get_headers (cur_credential self) false ;;
  reply <- send POST url (Some data) ;;
  match reply with
  | Failure e => raise (Requests e)
  | Answer res =>
      res_json <- lift (response_json res) ;;
      retry <- lift (check_retry_condition_when_submit_code res_json) ;;
      if retry
      then
        if retries_time <? DEFAULT_EXECUTE_RETRIES_TIME
        then
          sleep (retries_time * DEFAULT_EXECUTE_RETRIES_WAIT + DEFAULT_EXECUTE_RETRIES_WAIT) ;;;
          ret (Continue (retries_time + 1))
        else ret (Break res)
      else ret (Break res)
  end.

Definition _submitLivyCode (code language : string) : M Response :=
  self <- gets cursor ;;
  livy_session <- self_session ;;
  (if is_new_session_required livy_session
   then
     _ <- LivySessionManager.connect (cur_credential self) ;;
     livy_session <- self_session ;;
     update_cursor (with_cur_session_id (ls_session_id livy_session))
   else ret tt) ;;;
  (* Submit code. Enable pyspark tasks. *)
  let data := JObj [("code", JStr code); ("kind", JStr language)] in
  self <- gets cursor ;;
  _ <- lift (statements_url self) ;;      (* the f-string of logger.debug *)
  loop (_submitLivyCode_body self data) 0.

Definition _getLivySQL (sql : string) : string :=
  strip (re_sub_comment NL sql re_DOTALL).

(** One round of the [while True] of [_getLivyResult]. *)
Definition _getLivyResult_body (self : LivyCursor) (id : json) (_ : unit)
  : M (Ctl unit json) :=
  u <- lift (str_add (cur_connect_url self ++ "/sessions/") (cur_session_id self)) ;;
  let url := u ++ "/statements/" ++ py_repr id in
  _ <- get_headers (cur_credential self) false ;;
  reply <- send GET url None ;;
  res <- lift (reply_json reply) ;;
  state <- lift (getitem res "state") ;;
  if json_eq_str state "available"
  then ret (Break res)
  else sleep DEFAULT_POLL_STATEMENT_WAIT ;;; ret (Continue tt).

Definition _getLivyResult (res_obj : Response) : M json :=
  self <- gets cursor ;;
  json_res <- lift (response_json res_obj) ;;
  id <- lift (getitem json_res "id") ;;
  loop (_getLivyResult_body self id) tt.

(** One round of the [while True] of [execute]. *)
Definition execute_body (final_code language : string) (retries_time : Z)
  : M (Ctl Z json) :=
  submitted <- _submitLivyCode final_code language ;;
  res <- _getLivyResult submitted ;;
  state <- lift (getitem res "state") ;;
  if json_eq_str state "available"
  then
    retry <- lift (check_retry_condition_when_execute res) ;;
    if retry
    then
      if retries_time <? DEFAULT_EXECUTE_RETRIES_TIME
      then
        sleep (retries_time * DEFAULT_EXECUTE_RETRIES_WAIT + DEFAULT_EXECUTE_RETRIES_WAIT) ;;;
        ret (Continue (retries_time + 1))
      else ret (Break res)
    else ret (Break res)
  else ret (Continue retries_time).

(** What [execute] does with the result once the loop is left. *)
Definition execute_result (res : json) : M unit :=
  output <- lift (getitem res "output") ;;
  status <- lift (getitem output "status") ;;
  if json_eq_str status "ok"
  then
    data <- lift (getitem output "data") ;;
    values <- lift (getitem data "application/json") ;;
    n <- lift (py_len values) ;;
    if (1 <=? n)%nat
    then
      rows <- lift (getitem values "data") ;;
      update_cursor (with_rows rows) ;;;
      schema <- lift (getitem values "schema") ;;
      fields <- lift (getitem schema "fields") ;;
      update_cursor (with_schema fields)
    else
      update_cursor (with_rows (JArr [])) ;;;
      update_cursor (with_schema (JArr []))
  else
    update_cursor (with_rows JNull) ;;;
    update_cursor (with_schema JNull) ;;;
    evalue <- lift (getitem output "evalue") ;;
    message <- lift (str_add "Error while executing query: " evalue) ;;
    raise (DbtDatabaseError message).

Section WithPyLib.

Variable py : PyLib.

(** Trim any common leading whitespace in Python codes. *)
Definition _getLivyPyspark (code : string) : string :=
  textwrap_dedent py code.

Definition execute (code language : string) (parameters : list Binding) : M unit :=
  code <- match parameters with
          | [] => ret code
          | _ =>
              match str_mod py code parameters with
              | inl e => raise (format_exn e)
              | inr c => ret c
              end
          end ;;
  (* final process for submition *)
  let final_code :=
    if String.eqb language "pyspark" then _getLivyPyspark code else _getLivySQL code in
  res <- loop (execute_body final_code language) 0 ;;
  execute_result res.

End WithPyLib.

Definition fetchall : M json :=
  self <- gets cursor ;;
  ret (_rows self).

Definition fetchone : M json :=
  self <- gets cursor ;;
  match _rows self with
  | JNull => ret JNull
  | JArr [] => ret JNull
  | JArr (row :: rest) => update_cursor (with_rows (JArr rest)) ;;; ret row
  | JStr s => if String.eqb s EmptyString then ret JNull else raise AttributeError
  | JObj [] => ret JNull
  | JObj _ => raise (KeyError "0")       (* dict.pop(0): JSON keys are strings *)
  | JBool _ | JNum _ | JFloat _ => raise TypeError   (* len() of a number *)
  end.

End LivyCursor.

(** ** LivySessionConnectionWrapper *)

(** A value handed over as a binding. A float and a [Decimal] come with the
    text of their [str]; a [Decimal] also with the float [float()] makes of
    it, which is none for a signalling NaN, where [float()] raises
    [ValueError]; a [datetime] with the text of
    [strftime('%Y-%m-%d %H:%M:%S.%f')]; any other object with what
    formatting it in an f-string gives, the text or the exception its
    [__format__] raises. *)
Inductive PyValue : Type :=
| PBool (b : bool)
| PInt (n : Z)
| PFloat (f : spec_float) (str : string)
| PDecimal (as_float : option spec_float) (str : string)
| PDatetime (strftime : string)
| PNone
| PStr (s : string)
| PObject (format : exn + string).

(** [isinstance(value, NUMBERS)], with [NUMBERS = DECIMALS + (int, float)]:
    [bool] is a subclass of [int]. *)
Definition isinstance_NUMBERS (value : PyValue) : bool :=
  match value with
  | PBool _ | PInt _ | PFloat _ _ | PDecimal _ _ => true
  | _ => false
  end.

Definition isinstance_datetime (value : PyValue) : bool :=
  match value with
  | PDatetime _ => true
  | _ => false
  end.

(** [float(n)] for an int: the nearest double, ties to even; too large an
    int raises. *)
Definition float_of_Z (n : Z) : exn + spec_float :=
  match binary_normalize 53 1024 n 0 false with
  | S754_infinity _ => inl OverflowError
  | f => inr f
  end.

(** [float(value)] for a value that passed [isinstance(value, NUMBERS)]. *)
Definition py_float (value : PyValue) : exn + spec_float :=
  match value with
  | PBool b => float_of_Z (if b then 1 else 0)
  | PInt n => float_of_Z n
  | PFloat f _ => inr f
  | PDecimal (Some f) _ => inr f
  | PDecimal None _ => inl ValueError
  | _ => inl TypeError
  end.

(** [f"{value}"]. A datetime never gets here, [_fix_binding] formats it
    before; its entry is the [strftime] text. *)
Definition format_value (value : PyValue) : exn + string :=
  match value with
  | PBool true => inr "True"
  | PBool false => inr "False"
  | PInt n => inr (str_of_Z n)
  | PFloat _ s => inr s
  | PDecimal _ s => inr s
  | PDatetime s => inr s
  | PNone => inr "None"
  | PStr s => inr s
  | PObject r => r
  end.

Module LivySessionConnectionWrapper.

Definition _fix_binding (value : PyValue) : exn + Binding :=
  if isinstance_NUMBERS value
  then f <~ py_float value ;; inr (BFloat f)
  else if isinstance_datetime value
  then
    match value with
    | PDatetime text => inr (BStr ("'" ++ drop_last 3 text ++ "'"))
    | _ => inl AttributeError
    end
  else
    match value with
    | PNone => inr (BStr "''")
    | _ => text <~ format_value value ;; inr (BStr ("'" ++ text ++ "'"))
    end.

(** [execute] on a wrapper whose [cursor()] has been called. *)
Definition execute (py : PyLib) (sql language : string) (bindings : option (list PyValue))
  : M unit :=
  let language :=
    if String.eqb language "sql" || String.eqb language "pyspark" then language else "sql" in
  let language :=
    if contains "def model(dbt, session):" sql then "pyspark" else language in
  let sql := if endswith (strip sql) ";" then drop_last 1 (strip sql) else sql in
  match bindings with
  | None => LivyCursor.execute py sql language []
  | Some bindings =>
      fixed <- lift (mapM _fix_binding bindings) ;;
      LivyCursor.execute py sql language fixed
  end.

End LivySessionConnectionWrapper.

(** ** Specification vocabulary *)

(** The headers [get_headers] builds from a token. *)
Definition bearer (t : AccessToken) : Headers :=
  [("Content-Type", "application/json"); ("Authorization", "Bearer " ++ token t)].

(** The credential [get_headers] asks for a token. *)
Definition credential_for (credentials : SparkCredentials) : Credential :=
  if uses_cli credentials
  then AzureCliCredential
  else ClientSecretCredential (str_opt (tenant_id credentials))
                              (str_opt (client_id credentials))
                              (str_opt (client_secret credentials)).

(** The world after a token was fetched with [c] and cached. *)
Definition fetched (c : Credential) (w : World) : World :=
  mkWorld (remote w) (get_token w) (utcoffset w) (now w) (trace w)
          (Some (get_token w c (now w))) (token_fetches w ++ [c])
          (livy_global_session w) (cursor w).

(** The last second of [datetime.max], 9999-12-31 23:59:59, counted from
    the epoch. *)
Definition datetime_max : Z := 253402300799.

(** Where [datetime.fromtimestamp] succeeds on a POSIX platform: from the
    epoch on, with a local time that is still in the year 9999. *)
Definition fromtimestamp_accepts (w : World) (t : Z) : bool :=
  (0 <=? t) && (t + utcoffset w t <=? datetime_max).

(** The clock and the expiry of [t] are timestamps
    [is_token_refresh_necessary] can convert. *)
Definition convertible (w : World) (t : AccessToken) : Prop :=
  fromtimestamp_accepts w (expires_on t) = true
  /\ fromtimestamp_accepts w (now w) = true.

(** The seconds [is_token_refresh_necessary] finds between now and the
    expiry of [t]: those between the two local wall-clock times. *)
Definition wall_clock_left (w : World) (t : AccessToken) : Z :=
  (expires_on t + utcoffset w (expires_on t)) - (now w + utcoffset w (now w)).

(** Whether [get_headers] fetches. *)
Definition stale (w : World) : bool :=
  match accessToken w with
  | None => true
  | Some t => wall_clock_left w t <? 300
  end.

(** The token [get_headers] ends up with, and the world it leaves. *)
Definition token_after (credentials : SparkCredentials) (w : World) : AccessToken :=
  match accessToken w with
  | None => get_token w (credential_for credentials) (now w)
  | Some t =>
      if wall_clock_left w t <? 300
      then get_token w (credential_for credentials) (now w)
      else t
  end.

Definition refreshed (credentials : SparkCredentials) (w : World) : World :=
  mkWorld (remote w) (get_token w) (utcoffset w) (now w) (trace w)
          (Some (token_after credentials w))
          (if stale w then token_fetches w ++ [credential_for credentials]
           else token_fetches w)
          (livy_global_session w) (cursor w).



(** The cursor is bound to a session that is up: the global session does not
    ask for a new one and the cursor holds its id, a string. *)
Definition session_ready (w : World) (sid : string) : Prop :=
  (exists s, livy_global_session w = Some s /\ is_new_session_required s = false)
  /\ cur_session_id (cursor w) = JStr sid.

(** The top-level ["state"] of a response body. *)
Definition state_of (r : Response) : option json :=
  match body r with
  | Some j =>
      match getitem j "state" with
      | inr st => Some st
      | inl _ => None
      end
  | None => None
  end.

(** The remote rejected the submission: top-level state ["error"]. *)
Definition submit_error (r : Response) : Prop :=
  state_of r = Some (JStr "error").

(** The remote took the statement: a state other than ["error"]. *)
Definition submit_accepted (r : Response) : Prop :=
  exists st, state_of r = Some st /\ st <> JStr "error".

(** The statement id the poll loop asks for. *)
Definition statement_id (r : Response) : option json :=
  match body r with
  | Some j =>
      match getitem j "id" with
      | inr id => Some id
      | inl _ => None
      end
  | None => None
  end.

(** A poll reply that keeps the poll loop waiting: a JSON body whose state is
    not ["available"]. *)
Definition pending (r : Reply) : Prop :=
  exists resp st, r = Answer resp /\ state_of resp = Some st /\ st <> JStr "available".

(** A poll reply that ends the poll loop with [res]. *)
Definition available (r : Reply) (res : json) : Prop :=
  exists resp, r = Answer resp /\ body resp = Some res
               /\ getitem res "state" = inr (JStr "available").

(** [res] has [output.status == "error"] and the error text [evalue]. *)
Definition error_output (res : json) (evalue : string) : Prop :=
  exists output,
    getitem res "output" = inr output
    /\ getitem output "status" = inr (JStr "error")
    /\ getitem output "evalue" = inr (JStr evalue).

(** The error text matches one of the transient patterns. *)
Definition transient (evalue : string) : bool :=
  existsb (fun pattern => contains pattern evalue) EXECUTE_RETRIES_PATTERNS.

(** [res] has [output.status == "ok"] with rows and schema fields. *)
Definition ok_output (res rows fields : json) : Prop :=
  exists output data values schema,
    getitem res "output" = inr output
    /\ getitem output "status" = inr (JStr "ok")
    /\ getitem output "data" = inr data
    /\ getitem data "application/json" = inr values
    /\ getitem values "data" = inr rows
    /\ getitem values "schema" = inr schema
    /\ getitem schema "fields" = inr fields.

(** The URLs of a cursor bound to session [sid]. *)
Definition submit_url (self : LivyCursor) (sid : string) : string :=
  ((cur_connect_url self ++ "/sessions/") ++ sid) ++ "/statements".

Definition poll_url (self : LivyCursor) (sid : string) (id : json) : string :=
  ((cur_connect_url self ++ "/sessions/") ++ sid) ++ "/statements/" ++ py_repr id.

Definition statement (code language : string) : json :=
  JObj [("code", JStr code); ("kind", JStr language)].

(** What polling leaves in the trace: a GET and a 5 second sleep for each
    pending reply, then the GET that finds the result. *)
Fixpoint poll_trace (url : string) (waits : nat) : list Event :=
  match waits with
  | O => [Request GET url None]
  | Datatypes.S n => Request GET url None :: Sleep DEFAULT_POLL_STATEMENT_WAIT :: poll_trace url n
  end.

(** One submit-and-poll cycle without submit retries. *)
Definition cycle_trace (self : LivyCursor) (sid code language : string) (id : json)
    (waits : nat) : list Event :=
  Request POST (submit_url self sid) (Some (statement code language))
  :: poll_trace (poll_url self sid id) waits.

(** Number of statement submissions in a trace. *)
Definition is_submit (e : Event) : bool :=
  match e with
  | Request POST _ (Some (JObj (("code", _) :: _))) => true
  | _ => false
  end.

Definition submits (t : list Event) : nat := List.length (filter is_submit t).

(** The world after a request went out with the headers of [credentials]
    and the reply was taken from the script, and after a sleep. *)
Definition after_request (credentials : SparkCredentials) (m : Method) (url : string)
    (data : option json) (rest : list Reply) (w : World) : World :=
  log (Request m url data) (set_remote rest (refreshed credentials w)).

Definition after_sleep (seconds : Z) (w : World) : World :=
  log (Sleep seconds) (set_now (now w + seconds) w).

(** From [w] to [w']: the script went down to [rest], [events] were added
    to the trace, the session object and the cursor are as they were. *)
Definition steps (w w' : World) (rest : list Reply) (events : list Event) : Prop :=
  remote w' = rest
  /\ trace w' = (trace w ++ events)%list
  /\ livy_global_session w' = livy_global_session w
  /\ cursor w' = cursor w.

(** The code [execute] submits for [code]. *)
Definition final_code (py : PyLib) (code language : string) : string :=
  if String.eqb language "pyspark"
  then LivyCursor._getLivyPyspark py code
  else LivyCursor._getLivySQL code.

(** The replies of one submit-and-poll cycle: the submission is taken and
    gets statement id [id], the polls in [pend] find the statement not yet
    available, the poll [a] finds the result [res]. *)
Definition one_cycle (s : Response) (id : json) (pend : list Reply) (a : Reply) (res : json)
  : Prop :=
  submit_accepted s /\ statement_id s = Some id /\ Forall pending pend /\ available a res.

(** A computation, or an expression, that never raises [DbtDatabaseError]. *)
Definition quiet {A} (m : M A) : Prop :=
  forall w e w', m w = Raise e w' -> is_DbtDatabaseError e = false.

Definition quiet_value {A} (r : exn + A) : Prop :=
  forall e, r = inl e -> is_DbtDatabaseError e = false.

(** A computation that, whenever it returns, has taken at least [k] replies
    from the script. *)
Definition spends (k : nat) {A} (m : M A) : Prop :=
  forall w a w', m w = Ok a w' -> (List.length (remote w') + k <= List.length (remote w))%nat.

(** [n] calls of [fetchone] in a row, with the values they return. *)
Fixpoint fetch_n (n : nat) : M (list json) :=
  match n with
  | O => ret []
  | Datatypes.S k =>
      row <- LivyCursor.fetchone ;;
      rows <- fetch_n k ;;
      ret (row :: rows)
  end.

(** [d] is the entry [description] makes of the schema field [field]. *)
Definition describes (field : json) (d : Descriptor) : Prop :=
  exists name type nullable,
    getitem field "name" = inr name
    /\ getitem field "type" = inr type
    /\ getitem field "nullable" = inr nullable
    /\ d = (name, type, JNull, JNull, JNull, JNull, nullable).

(** The first of the three keys [description] reads is missing from [field],
    with the exception the lookup raises. *)
Definition undescribable (field : json) (e : exn) : Prop :=
  getitem field "name" = inl e
  \/ (exists name, getitem field "name" = inr name /\ getitem field "type" = inl e)
  \/ (exists name type,
        getitem field "name" = inr name /\ getitem field "type" = inr type
        /\ getitem field "nullable" = inl e).

(** The URL of session [sid] as the session object builds it. *)
Definition session_url (s : LivySession) (sid : string) : string :=
  (ls_connect_url s ++ "/sessions/") ++ sid.

(** The reply carries a JSON body whose [livyInfo.currentState] is [st]. *)
Definition current_state (r : Reply) (st : json) : Prop :=
  exists resp j livyInfo,
    r = Answer resp /\ body resp = Some j
    /\ getitem j "livyInfo" = inr livyInfo
    /\ getitem livyInfo "currentState" = inr st.

(** A session poll that finds the session starting: top-level state
    ["starting"] or ["not_started"]. *)
Definition session_starting (r : Reply) : Prop :=
  exists resp, r = Answer resp
               /\ (state_of resp = Some (JStr "starting")
                   \/ state_of resp = Some (JStr "not_started")).

(** A session poll past starting, with [livyInfo.currentState] [cs]. *)
Definition session_settled (r : Reply) (cs : json) : Prop :=
  (exists resp st, r = Answer resp /\ state_of resp = Some st
                   /\ st <> JStr "starting" /\ st <> JStr "not_started")
  /\ current_state r cs.

(** A poll reply after which a session poll loop goes round again, and
    whether it sleeps first: a starting session is waited for, a settled one
    that is not idle (and, where [dead_ends], not dead) is asked again at
    once. *)
Definition polls_again (dead_ends : bool) (p : bool * Reply) : Prop :=
  if fst p
  then session_starting (snd p)
  else exists cs, session_settled (snd p) cs /\ cs <> JStr "idle"
                  /\ (dead_ends = true -> cs <> JStr "dead").

(** What a session poll loop leaves in the trace. *)
Fixpoint session_poll_trace (url : string) (pend : list (bool * Reply)) : list Event :=
  match pend with
  | [] => [Request GET url None]
  | (sleeps, _) :: rest =>
      (Request GET url None :: (if sleeps then [Sleep DEFAULT_POLL_WAIT] else []))
      ++ session_poll_trace url rest
  end.

(** The body a new session is requested with. *)
Definition session_data (credentials : SparkCredentials) : json :=
  JObj [("kind", JStr "sql");
        ("conf", livy_session_parameters credentials);
        ("name", match livy_session_name credentials with
                 | Some n => JStr n
                 | None => JNull
                 end)].

(** The reply to the session listing carries the list [sessions] under
    ["items"]. *)
Definition listing (r : Reply) (sessions : list json) : Prop :=
  exists resp j, r = Answer resp /\ body resp = Some j
                 /\ getitem j "items" = inr (JArr sessions).

(** A listed session [get_exist_session] passes over: it has another name,
    or the name asked for and a [livyState] among dead, shutting_down and
    killed. *)
Definition skipped (name : string) (session : json) : Prop :=
  (exists n, getitem session "name" = inr n /\ n <> JStr name)
  \/ (getitem session "name" = inr (JStr name)
      /\ exists livyState, getitem session "livyState" = inr livyState
                           /\ json_in_strs livyState ["dead"; "shutting_down"; "killed"] = true).

(** A listed session [get_exist_session] polls: the name asked for and a
    [livyState] that is none of the three. *)
Definition live_match (name : string) (session : json) : Prop :=
  getitem session "name" = inr (JStr name)
  /\ exists livyState, getitem session "livyState" = inr livyState
                       /\ json_in_strs livyState ["dead"; "shutting_down"; "killed"] = false.

(** The answer to the session-creation POST gives no session id: its body
    is not JSON, or the ["id"] lookup in it raises [e]. *)
Definition no_session_id (r : Response) (e : exn) : Prop :=
  (body r = None /\ e = PyException "Json decode error to get session_id")
  \/ (exists j, body r = Some j /\ getitem j "id" = inl e).

(** A computation that, whenever it returns, leaves a session object as [P]
    wants it if it found one so. *)
Definition holds (P : option LivySession -> Prop) {A} (m : M A) : Prop :=
  forall w a w', P (livy_global_session w) -> m w = Ok a w' -> P (livy_global_session w').

(** The session id of the session object is [id0] or the id of a live match
    among [sessions]. *)
Definition prior_or_live_match (name : string) (sessions : list json) (id0 : json)
    (g : option LivySession) : Prop :=
  exists s, g = Some s
            /\ (ls_session_id s = id0
                \/ exists session, In session sessions /\ live_match name session
                                   /\ getitem session "id" = inr (ls_session_id s)).

(** The replies of one submit-and-poll cycle, bundled: the answer to the
    submission, the statement id in it, the polls that find the statement
    not yet available, the poll that finds the result, and the result. *)
Record Cycle : Type := mkCycle {
  cy_submit : Response;
  cy_id : json;
  cy_polls : list Reply;
  cy_last : Reply;
  cy_result : json
}.

Definition cycle_replies (c : Cycle) : list Reply :=
  (Answer (cy_submit c) :: cy_polls c ++ [cy_last c])%list.

Definition cycle_runs (c : Cycle) : Prop :=
  one_cycle (cy_submit c) (cy_id c) (cy_polls c) (cy_last c) (cy_result c).

(** A cycle that ends on an error output with a transient error text. *)
Definition transient_cycle (c : Cycle) : Prop :=
  cycle_runs c /\ exists evalue, error_output (cy_result c) evalue /\ transient evalue = true.

(** What retried cycles leave in the trace, from retry count
    [retries_time]: each cycle, then the sleep before the next. *)
Fixpoint retried_trace (self : LivyCursor) (sid code language : string)
    (retries_time : Z) (cs : list Cycle) : list Event :=
  match cs with
  | [] => []
  | c :: rest =>
      (cycle_trace self sid code language (cy_id c) (List.length (cy_polls c))
       ++ Sleep (retries_time * 10 + 10)
       :: retried_trace self sid code language (retries_time + 1) rest)%list
  end.

(** [res] has [output.status == "ok"] and, under
    [output.data["application/json"]], the value [values]. *)
Definition ok_values (res values : json) : Prop :=
  exists output data,
    getitem res "output" = inr output
    /\ getitem output "status" = inr (JStr "ok")
    /\ getitem output "data" = inr data
    /\ getitem data "application/json" = inr values.

(** [values] has rows under ["data"] but the lookup of the schema fields
    raises [e]: ["schema"] is missing, or ["fields"] in it. *)
Definition schema_missing (values rows : json) (e : exn) : Prop :=
  getitem values "data" = inr rows
  /\ (getitem values "schema" = inl e
      \/ exists schema, getitem values "schema" = inr schema
                        /\ getitem schema "fields" = inl e).

(** [res] has an output whose status is [status]. *)
Definition output_status (res output status : json) : Prop :=
  getitem res "output" = inr output /\ getitem output "status" = inr status.

(** A reply to a statement submission that makes [_submitLivyCode] raise
    [e]: the request itself fails, the body is not JSON, or the body has no
    ["state"]. *)
Definition submit_broken (r : Reply) (e : exn) : Prop :=
  match r with
  | Failure k => e = Requests k
  | Answer resp =>
      match body resp with
      | None => e = JSONDecodeError
      | Some j => getitem j "state" = inl e
      end
  end.

(** The same for a poll of the statement. *)
Definition poll_broken (r : Reply) (e : exn) : Prop := submit_broken r e.

(** ** Fixtures *)

Module Fixture.

Definition credentials : SparkCredentials :=
  mkSparkCredentials (Some "CLI") None None None "https://fabric/livy"
                     (Some "dbt") (JObj []) false None "ws" "lh".

Definition issue (c : Credential) (t : Z) : AccessToken :=
  mkAccessToken "fresh" (t + 3600).

(** U+00A0, no-break space, and U+2003, em space. *)
Definition nbsp : string := String (chr 194) (str1 (chr 160)).
Definition em_space : string := String (chr 226) (String (chr 128) (str1 (chr 131))).

(** A process whose local time is UTC. *)
Definition utc (t : Z) : Z := 0.


Definition session (id : json) (new_required : bool) : LivySession :=
  mkLivySession credentials "https://fabric/livy" id new_required.

Definition a_cursor (id : json) : LivyCursor :=
  mkLivyCursor (JArr [JArr [JNum 1]])
               (JArr [JObj [("name", JStr "a"); ("type", JStr "int"); ("nullable", JBool true)]])
               credentials "https://fabric/livy" id.

(** A process with a fresh session object and no token yet. *)
Definition fresh (script : list Reply) : World :=
  mkWorld script issue utc 1000 [] None [] (Some (session JNull true)) (a_cursor JNull).

(** A process whose cursor is bound to session ["s1"], with rows left
    over from an earlier statement. *)
Definition ready (script : list Reply) : World :=
  mkWorld script issue utc 1000 [] (Some (mkAccessToken "cached" 5000)) []
          (Some (session (JStr "s1") false)) (a_cursor (JStr "s1")).

Definition py : PyLib := mkPyLib (fun s => s) (fun s _ => inr s).

Definition reply (status : Z) (j : json) : Reply := Answer (mkResponse status (Some j)).

Definition session_state (state current : string) : json :=
  JObj [("state", JStr state); ("livyInfo", JObj [("currentState", JStr current)])].

Definition listed (id name livyState : string) : json :=
  JObj [("id", JStr id); ("name", JStr name); ("livyState", JStr livyState)].

Definition submitted (id : Z) (state : string) : Response :=
  mkResponse 200 (Some (JObj [("id", JNum id); ("state", JStr state)])).

Definition failed (evalue : string) : json :=
  JObj [("state", JStr "available");
        ("output", JObj [("status", JStr "error"); ("evalue", JStr evalue)])].

Definition succeeded (rows fields : json) : json :=
  JObj [("state", JStr "available");
        ("output",
         JObj [("status", JStr "ok");
               ("data", JObj [("application/json",
                               JObj [("data", rows);
                                     ("schema", JObj [("fields", fields)])])])])].

Definition forbidden : string :=
  "Request failed: HTTP/1.1 403 Forbidden ClientRequestId 42".

(** Seventeen block comments. *)
Definition sql17 : string :=
  "SELECT c1 /*1*/, c2 /*2*/, c3 /*3*/, c4 /*4*/, c5 /*5*/, c6 /*6*/, c7 /*7*/, c8 /*8*/, c9 /*9*/, c10 /*10*/, c11 /*11*/, c12 /*12*/, c13 /*13*/, c14 /*14*/, c15 /*15*/, c16 /*16*/, c17 /*17*/ FROM t".

(** What [_getLivySQL] makes of [sql17]. *)
Definition sql17_submitted : string :=
  join NL ["SELECT c1"; ", c2"; ", c3"; ", c4"; ", c5"; ", c6"; ", c7"; ", c8"; ", c9";
           ", c10"; ", c11"; ", c12"; ", c13"; ", c14"; ", c15"; ", c16";
           ", c17 /*17*/ FROM t"].

End Fixture.

(** * Proofs *)

(** ** Running computations *)

Lemma minutes_under_5 (d : Z) : (Z.quot d 60 <? 5) = (d <? 300).
Proof.
  destruct (Z.ltb_spec d 300) as [Hlt | Hge].
  - apply Z.ltb_lt.
    destruct (Z.lt_ge_cases d 0) as [Hneg | Hpos].
    + assert (Z.quot d 60 <= 0) by (apply Z.quot_le_upper_bound; lia). lia.
    + rewrite Z.quot_div_nonneg by lia.
      apply Z.div_lt_upper_bound; lia.
  - apply Z.ltb_ge.
    rewrite Z.quot_div_nonneg by lia.
    apply Z.div_le_lower_bound; lia.
Qed.

Lemma get_headers_run (credentials : SparkCredentials) (tokenPrint : bool) (w : World) :
  get_headers credentials tokenPrint w
  = Ok (bearer (token_after credentials w)) (refreshed credentials w).
Proof.
  unfold get_headers, refreshed, token_after, stale, wall_clock_left, credential_for,
    is_token_refresh_necessary, datetime_fromtimestamp, get_cli_access_token,
    get_sp_access_token, azure_get_token, bind, gets, modify, ret, set_accessToken.
  destruct w as [rs gt off t tr [tok|] fs g c]; cbn.
  - rewrite minutes_under_5.
    destruct (expires_on tok + off (expires_on tok) - (t + off t) <? 300); cbn;
      [destruct (uses_cli credentials)|]; reflexivity.
  - destruct (uses_cli credentials); reflexivity.
Qed.

Lemma send_run (m : Method) (url : string) (data : option json) (w : World) r rs :
  remote w = r :: rs ->
  send m url data w = Ok r (log (Request m url data) (set_remote rs w)).
Proof. intros H. unfold send. rewrite H. reflexivity. Qed.

Lemma bind_Ok {A B} (m : M A) (k : A -> M B) (w w' : World) (a : A) :
  m w = Ok a w' -> bind m k w = k a w'.
Proof. intros H. unfold bind. rewrite H. reflexivity. Qed.

Lemma bind_run {A B} (m : M A) (k : A -> M B) (w : World) :
  bind m k w
  = match m w with
    | Ok a w' => k a w'
    | Raise e w' => Raise e w'
    | Stuck => Stuck
    end.
Proof. reflexivity. Qed.

Lemma bind_Raise {A B} (m : M A) (k : A -> M B) (w w' : World) (e : exn) :
  m w = Raise e w' -> bind m k w = Raise e w'.
Proof. intros H. unfold bind. rewrite H. reflexivity. Qed.

Lemma while_true_step {S A} (fuel : nat) (body : S -> M (Ctl S A)) (s : S) (w : World) :
  (0 < fuel)%nat ->
  while_true fuel body s w
  = match body s w with
    | Ok (Continue s') w' => while_true (Nat.pred fuel) body s' w'
    | Ok (Break a) w' => Ok a w'
    | Raise e w' => Raise e w'
    | Stuck => Stuck
    end.
Proof. destruct fuel; [lia | reflexivity]. Qed.

(** ** The token cache *)




(** ** Session creation and discovery *)

(** When the POST itself raises (connection error, timeout, any other
    exception of requests), nothing was assigned to [response] and
    [create_session] raises without looking for a session id. *)
Lemma create_session_without_response (data : json) (w : World) s e rest :
  livy_global_session w = Some s ->
  remote w = Failure e :: rest ->
  exists w',
    LivySession.create_session data w
    = Raise (PyException "Invalid response from livy server") w'
    /\ remote w' = rest
    /\ trace w' = (trace w ++ [Request POST (ls_connect_url s ++ "/sessions") (Some data)])%list
    /\ livy_global_session w' = Some s.
Proof.
  intros Hs Hr. unfold LivySession.create_session.
  rewrite (bind_Ok _ _ w w s) by (unfold self_session, bind, gets; rewrite Hs; reflexivity).
  rewrite (bind_Ok _ _ _ _ _ (get_headers_run _ _ _)).
  rewrite (bind_Ok _ _ _ _ _ (send_run POST _ _ (refreshed _ w) _ _ Hr)).
  eexists. split; [reflexivity|]. cbn. rewrite Hs. auto.
Qed.

(** A response with an error status is still parsed: with a body that is
    not JSON, the exception is the one of the id parser. *)
Lemma create_session_parses_error_response (data : json) (w : World) s status rest :
  livy_global_session w = Some s ->
  remote w = Answer (mkResponse status None) :: rest ->
  400 <= status < 600 ->
  exists w',
    raise_for_status (mkResponse status None) = Some HTTPError
    /\ LivySession.create_session data w
       = Raise (PyException "Json decode error to get session_id") w'.
Proof.
  intros Hs Hr Hstatus. unfold LivySession.create_session.
  rewrite (bind_Ok self_session _ w w s)
    by (unfold self_session, bind, gets; rewrite Hs; reflexivity).
  rewrite bind_run, get_headers_run.
  rewrite bind_run, (send_run POST _ _ (refreshed _ w) _ _ Hr).
  eexists. split.
  - unfold raise_for_status. cbn [status_code].
    replace (400 <=? status) with true by (symmetry; apply Z.leb_le; lia).
    replace (status <? 600) with true by (symmetry; apply Z.ltb_lt; lia).
    reflexivity.
  - cbv zeta. destruct (raise_for_status (mkResponse status None)); reflexivity.
Qed.

(** C1 at an input where it fails: the POST is answered with status 500 and
    a JSON body. [raise_for_status] raises, the handler prints, [response]
    is still bound, and [create_session] parses the id of the failed
    response, polls that session and returns the id. *)
Theorem create_session_parses_id_of_http_error_response :
  let data := JObj [("kind", JStr "sql")] in
  let w := Fixture.fresh [Fixture.reply 500 (JObj [("id", JNum 7)]);
                          Fixture.reply 200 (Fixture.session_state "idle" "idle")] in
  exists w',
    LivySession.create_session data w = Ok (JStr "7") w'
    /\ trace w' = [Request POST "https://fabric/livy/sessions" (Some data);
                   Request GET "https://fabric/livy/sessions/7" None].
Proof.
  eexists. split.
  - vm_compute. reflexivity.
  - reflexivity.
Qed.

(** A listed session in an invalid state is passed over: no request, no
    change. *)
Lemma get_exist_session_skips_invalid (name : string) (session livyState : json) (w : World) :
  getitem session "name" = inr (JStr name) ->
  getitem session "livyState" = inr livyState ->
  json_in_strs livyState ["dead"; "shutting_down"; "killed"] = true ->
  LivySession.get_exist_session_body name session w = Ok tt w.
Proof.
  intros Hn Hl Hinv. unfold LivySession.get_exist_session_body.
  rewrite Hn. cbn [lift]. rewrite bind_run. cbn [ret json_eq_str].
  rewrite String.eqb_refl.
  rewrite Hl. cbn [lift]. rewrite bind_run. cbn [ret].
  rewrite Hinv. reflexivity.
Qed.

(** C2 at an input where it fails: two sessions carry the configured name
    and are alive. The [break] leaves the polling loop only, the [for] goes
    on, and the id returned is that of the second match. *)
Theorem get_exist_session_returns_last_match :
  let w := Fixture.fresh
             [Fixture.reply 200 (JObj [("items", JArr [Fixture.listed "A" "dbt" "idle";
                                                       Fixture.listed "B" "dbt" "idle"])]);
              Fixture.reply 200 (Fixture.session_state "idle" "idle");
              Fixture.reply 200 (Fixture.session_state "idle" "idle")] in
  exists w',
    LivySession.get_exist_session w = Ok (JStr "B") w'
    /\ trace w' = [Request GET "https://fabric/livy/sessions" None;
                   Request GET "https://fabric/livy/sessions/A" None;
                   Request GET "https://fabric/livy/sessions/B" None].
Proof.
  eexists. split.
  - vm_compute. reflexivity.
  - reflexivity.
Qed.

(** ** Block comments *)

Lemma strip_left_suffix (back : bool) (n : nat) :
  forall s, (String.length s <= n)%nat -> exists p, s = (p ++ strip_left back s)%string.
Proof.
  induction n as [|n IH]; intros s Hn.
  - destruct s; [exists EmptyString; reflexivity | cbn in Hn; lia].
  - destruct s as [|c1 r1]; [exists EmptyString; reflexivity|].
    cbn [strip_left]. cbn [String.length] in Hn.
    destruct (isspace c1).
    { destruct (IH r1 ltac:(lia)) as [p Hp].
      exists (String c1 p). cbn [String.append]. rewrite <- Hp. reflexivity. }
    destruct r1 as [|c2 r2]; [exists EmptyString; reflexivity|].
    cbn [String.length] in Hn.
    destruct (if back then isspace2 c2 c1 else isspace2 c1 c2).
    { destruct (IH r2 ltac:(lia)) as [p Hp].
      exists (String c1 (String c2 p)). cbn [String.append]. rewrite <- Hp. reflexivity. }
    destruct r2 as [|c3 r3]; [exists EmptyString; reflexivity|].
    cbn [String.length] in Hn.
    destruct (if back then isspace3 c3 c2 c1 else isspace3 c1 c2 c3);
      [|exists EmptyString; reflexivity].
    destruct (IH r3 ltac:(lia)) as [p Hp].
    exists (String c1 (String c2 (String c3 p))). cbn [String.append].
    rewrite <- Hp. reflexivity.
Qed.

Lemma lstrip_suffix (s : string) : exists p, s = (p ++ lstrip s)%string.
Proof. exact (strip_left_suffix false (String.length s) s (Nat.le_refl _)). Qed.

Lemma length_append (p s : string) :
  String.length (p ++ s) = (String.length p + String.length s)%nat.
Proof. induction p as [|c p IH]; cbn; [reflexivity | rewrite IH; reflexivity]. Qed.

Lemma lstrip_length (s : string) : (String.length (lstrip s) <= String.length s)%nat.
Proof.
  destruct (lstrip_suffix s) as [p Hp]. rewrite Hp at 2.
  rewrite length_append. lia.
Qed.

Lemma find_close_length (s rest : string) :
  find_close s = Some rest -> (String.length rest < String.length s)%nat.
Proof.
  revert rest. induction s as [|c r IH]; intros rest H; [discriminate H|].
  cbn [find_close] in H. destruct r as [|c' r']; [discriminate H|].
  destruct (Ascii.eqb c "*" && Ascii.eqb c' "/").
  - inversion H; subst. cbn [String.length]. lia.
  - apply IH in H. cbn [String.length] in *. lia.
Qed.

(** A match is never empty. *)
Lemma match_comment_length (s rest : string) :
  match_comment s = Some rest -> (String.length rest < String.length s)%nat.
Proof.
  unfold match_comment. intros H. assert (Hl := lstrip_length s).
  destruct (lstrip s) as [|c1 t]; [discriminate H|].
  destruct c1 as [[] [] [] [] [] [] [] []]; try discriminate H.
  destruct t as [|c2 r]; [discriminate H|].
  destruct c2 as [[] [] [] [] [] [] [] []]; try discriminate H.
  destruct (find_close r) as [r'|] eqn:E; [|discriminate H].
  inversion H; subst. apply find_close_length in E.
  assert (Hl' := lstrip_length r'). cbn [String.length] in Hl. lia.
Qed.

(** The scan ends before its fuel does: any fuel above the length of the
    text gives the same result. *)
Lemma re_sub_loop_fuel (repl : string) (n : nat) :
  forall (m : nat) (limit : option nat) (s : string),
    (String.length s < n)%nat -> (String.length s < m)%nat ->
    re_sub_loop n repl limit s = re_sub_loop m repl limit s.
Proof.
  induction n as [|n IH]; intros m limit s Hn Hm; [lia|].
  destruct m as [|m]; [lia|]. cbn [re_sub_loop].
  destruct limit as [[|k]|].
  - reflexivity.
  - destruct (match_comment s) as [rest|] eqn:E.
    + apply match_comment_length in E. f_equal. apply IH; lia.
    + destruct s as [|c r]; [reflexivity|]. cbn [String.length] in *.
      f_equal. apply IH; lia.
  - destruct (match_comment s) as [rest|] eqn:E.
    + apply match_comment_length in E. f_equal. apply IH; lia.
    + destruct s as [|c r]; [reflexivity|]. cbn [String.length] in *.
      f_equal. apply IH; lia.
Qed.

(** Up to sixteen comments all go, with the white space around them. *)
Lemma getLivySQL_removes_two_comments :
  LivyCursor._getLivySQL ("SELECT 1 /* a */ , 2 /* b" ++ NL ++ " c */ FROM t  ")
  = join NL ["SELECT 1"; ", 2"; "FROM t"].
Proof. vm_compute. reflexivity. Qed.

(** C8 at an input where it fails: [re.DOTALL] sits in the [count] position
    of [re.sub], so 16 comments are replaced and the seventeenth reaches the
    remote in the submitted code. *)
Theorem execute_submits_seventeenth_comment :
  LivyCursor._getLivySQL Fixture.sql17 = Fixture.sql17_submitted
  /\ contains "/*17*/" Fixture.sql17_submitted = true
  /\ exists w',
       LivyCursor.execute Fixture.py Fixture.sql17 "sql" []
         (Fixture.ready [Answer (Fixture.submitted 0 "waiting");
                         Fixture.reply 200 (Fixture.succeeded (JArr []) (JArr []))])
       = Ok tt w'
       /\ trace w' = [Request POST "https://fabric/livy/sessions/s1/statements"
                        (Some (statement Fixture.sql17_submitted "sql"));
                      Request GET "https://fabric/livy/sessions/s1/statements/0" None].
Proof.
  split; [vm_compute; reflexivity|].
  split; [vm_compute; reflexivity|].
  eexists. split.
  - vm_compute. reflexivity.
  - reflexivity.
Qed.

(** ** Bindings *)

(** C10: a bool binding passes [isinstance(value, NUMBERS)], so it takes
    the numeric branch and comes out as [float(value)], 1.0 for [True] and
    0.0 for [False], a float and not the quoted string the last branch would
    make. *)
Theorem fix_binding_bool_is_float (b : bool) :
  isinstance_NUMBERS (PBool b) = true
  /\ LivySessionConnectionWrapper._fix_binding (PBool b)
     = inr (BFloat (if b then S754_finite false 4503599627370496 (-52)
                    else S754_zero false)).
Proof.
  destruct b; split; reflexivity.
Qed.

(** ** Statement submission *)

Lemma steps_trans (w w1 w2 : World) rest1 rest2 ev1 ev2 :
  steps w w1 rest1 ev1 -> steps w1 w2 rest2 ev2 -> steps w w2 rest2 (ev1 ++ ev2).
Proof.
  unfold steps. intros (_ & Ht1 & Hs1 & Hc1) (Hr2 & Ht2 & Hs2 & Hc2).
  rewrite Ht2, Ht1, Hs2, Hs1, Hc2, Hc1, app_assoc. auto.
Qed.

Lemma steps_request (credentials : SparkCredentials) m url data rest (w : World) :
  steps w (after_request credentials m url data rest w) rest [Request m url data].
Proof. unfold steps. cbn. auto. Qed.

Lemma steps_sleep (seconds : Z) (w : World) :
  steps w (after_sleep seconds w) (remote w) [Sleep seconds].
Proof. unfold steps. cbn. auto. Qed.

Lemma session_ready_steps (w w' : World) sid rest events :
  steps w w' rest events -> session_ready w sid -> session_ready w' sid.
Proof.
  unfold steps, session_ready. intros (_ & _ & Hs & Hc). rewrite Hs, Hc. auto.
Qed.

Lemma state_of_inv (r : Response) (st : json) :
  state_of r = Some st ->
  exists j, response_json r = inr j /\ getitem j "state" = inr st.
Proof.
  unfold state_of, response_json. destruct (body r) as [j|]; [|discriminate].
  destruct (getitem j "state") as [e|st'] eqn:E; [discriminate|].
  intros H. inversion H; subst. eauto.
Qed.

Lemma json_eq_str_false (st : json) (s : string) :
  st <> JStr s -> json_eq_str st s = false.
Proof.
  destruct st; try reflexivity. cbn. intros H.
  destruct (String.eqb_spec s0 s); [subst; congruence | reflexivity].
Qed.

(** A round of the submit loop on a rejected submission, retries left: sleep
    [10 * (retries_time + 1)] seconds and go round again. *)
Lemma submit_body_error (self : LivyCursor) (data : json) (retries_time : Z)
    (w : World) sid r rest :
  cur_session_id self = JStr sid ->
  remote w = Answer r :: rest ->
  submit_error r ->
  retries_time < 5 ->
  LivyCursor._submitLivyCode_body self data retries_time w
  = Ok (Continue (retries_time + 1))
       (after_sleep (retries_time * 10 + 10)
          (after_request (cur_credential self) POST (submit_url self sid)
             (Some data) rest w)).
Proof.
  intros Hsid Hr He Hlt.
  destruct (state_of_inv _ _ He) as (j & Hj & Hst).
  unfold LivyCursor._submitLivyCode_body, LivyCursor.statements_url.
  rewrite Hsid. cbn [str_add ebind lift].
  rewrite (bind_Ok _ _ w w _ eq_refl).
  rewrite (bind_Ok _ _ _ _ _ (get_headers_run _ _ _)).
  rewrite (bind_Ok _ _ _ _ _ (send_run POST _ _ (refreshed _ w) _ _ Hr)).
  rewrite Hj. cbn [lift]. rewrite (bind_Ok _ _ _ _ _ eq_refl).
  unfold check_retry_condition_when_submit_code. rewrite Hst. cbn [ebind json_eq_str].
  cbn [String.eqb Ascii.eqb Bool.eqb lift]. rewrite (bind_Ok _ _ _ _ _ eq_refl).
  unfold DEFAULT_EXECUTE_RETRIES_TIME, DEFAULT_EXECUTE_RETRIES_WAIT.
  replace (retries_time <? 5) with true by (symmetry; apply Z.ltb_lt; lia).
  reflexivity.
Qed.

(** A round on a submission the remote took: leave with the response. *)
Lemma submit_body_accepted (self : LivyCursor) (data : json) (retries_time : Z)
    (w : World) sid r rest :
  cur_session_id self = JStr sid ->
  remote w = Answer r :: rest ->
  submit_accepted r ->
  LivyCursor._submitLivyCode_body self data retries_time w
  = Ok (Break r)
       (after_request (cur_credential self) POST (submit_url self sid) (Some data) rest w).
Proof.
  intros Hsid Hr (st & Hs & Hne).
  destruct (state_of_inv _ _ Hs) as (j & Hj & Hst).
  unfold LivyCursor._submitLivyCode_body, LivyCursor.statements_url.
  rewrite Hsid. cbn [str_add ebind lift].
  rewrite (bind_Ok _ _ w w _ eq_refl).
  rewrite (bind_Ok _ _ _ _ _ (get_headers_run _ _ _)).
  rewrite (bind_Ok _ _ _ _ _ (send_run POST _ _ (refreshed _ w) _ _ Hr)).
  rewrite Hj. cbn [lift]. rewrite (bind_Ok _ _ _ _ _ eq_refl).
  unfold check_retry_condition_when_submit_code. rewrite Hst. cbn [ebind].
  rewrite (json_eq_str_false _ _ Hne). reflexivity.
Qed.

(** A round on a rejected submission with the retries used up: leave with
    the rejected response. *)
Lemma submit_body_exhausted (self : LivyCursor) (data : json) (retries_time : Z)
    (w : World) sid r rest :
  cur_session_id self = JStr sid ->
  remote w = Answer r :: rest ->
  submit_error r ->
  5 <= retries_time ->
  LivyCursor._submitLivyCode_body self data retries_time w
  = Ok (Break r)
       (after_request (cur_credential self) POST (submit_url self sid) (Some data) rest w).
Proof.
  intros Hsid Hr He Hge.
  destruct (state_of_inv _ _ He) as (j & Hj & Hst).
  unfold LivyCursor._submitLivyCode_body, LivyCursor.statements_url.
  rewrite Hsid. cbn [str_add ebind lift].
  rewrite (bind_Ok _ _ w w _ eq_refl).
  rewrite (bind_Ok _ _ _ _ _ (get_headers_run _ _ _)).
  rewrite (bind_Ok _ _ _ _ _ (send_run POST _ _ (refreshed _ w) _ _ Hr)).
  rewrite Hj. cbn [lift]. rewrite (bind_Ok _ _ _ _ _ eq_refl).
  unfold check_retry_condition_when_submit_code. rewrite Hst. cbn [ebind json_eq_str].
  cbn [String.eqb Ascii.eqb Bool.eqb lift]. rewrite (bind_Ok _ _ _ _ _ eq_refl).
  unfold DEFAULT_EXECUTE_RETRIES_TIME.
  replace (retries_time <? 5) with false by (symmetry; apply Z.ltb_ge; lia).
  reflexivity.
Qed.

(** With the session up, [_submitLivyCode] goes straight to its loop. *)
Lemma submit_on_ready_session (code language : string) (w : World) sid :
  session_ready w sid ->
  LivyCursor._submitLivyCode code language w
  = loop (LivyCursor._submitLivyCode_body (cursor w) (statement code language)) 0 w.
Proof.
  intros [(s & Hs & Hflag) Hsid].
  unfold LivyCursor._submitLivyCode.
  rewrite bind_run. cbn [gets].
  rewrite (bind_Ok self_session _ w w s)
    by (unfold self_session, bind, gets; rewrite Hs; reflexivity).
  rewrite Hflag. rewrite bind_run. cbn [ret].
  rewrite bind_run. cbn [gets].
  unfold LivyCursor.statements_url. rewrite Hsid. cbn [str_add ebind lift].
  rewrite bind_run. reflexivity.
Qed.

Ltac submit_round :=
  cbn [while_true];
  first
    [ erewrite submit_body_error; [ | eassumption | reflexivity | eassumption | lia ]
    | erewrite submit_body_accepted; [ | eassumption | reflexivity | eassumption ]
    | erewrite submit_body_exhausted; [ | eassumption | reflexivity | eassumption | lia ] ].

(** The submit loop on three rejections and an acceptance. *)
Lemma submit_three_errors (code language : string) (w : World) (sid : string)
    (e1 e2 e3 ok : Response) (rest : list Reply) :
  session_ready w sid ->
  remote w = Answer e1 :: Answer e2 :: Answer e3 :: Answer ok :: rest ->
  submit_error e1 -> submit_error e2 -> submit_error e3 ->
  submit_accepted ok ->
  let submit := Request POST (submit_url (cursor w) sid) (Some (statement code language)) in
  exists w',
    LivyCursor._submitLivyCode code language w = Ok ok w'
    /\ steps w w' rest [submit; Sleep 10; submit; Sleep 20; submit; Sleep 30; submit].
Proof.
  intros Hready Hr H1 H2 H3 Hok submit.
  rewrite (submit_on_ready_session _ _ _ _ Hready).
  destruct Hready as [_ Hsid].
  unfold loop. rewrite Hr. cbn [List.length].
  erewrite while_true_step by lia.
  erewrite submit_body_error; [ | eassumption | eassumption | eassumption | lia ].
  cbn [Nat.pred].
  do 3 submit_round.
  eexists. split; [reflexivity|].
  unfold steps. cbn. rewrite <- !app_assoc. cbn. auto.
Qed.

(** ** Polling for the result *)

Lemma poll_body_pending (self : LivyCursor) (id : json) (w : World) sid r rest :
  cur_session_id self = JStr sid ->
  remote w = r :: rest ->
  pending r ->
  LivyCursor._getLivyResult_body self id tt w
  = Ok (Continue tt)
       (after_sleep 5
          (after_request (cur_credential self) GET (poll_url self sid id) None rest w)).
Proof.
  intros Hsid Hr (resp & st & -> & Hs & Hne).
  destruct (state_of_inv _ _ Hs) as (j & Hj & Hst).
  unfold LivyCursor._getLivyResult_body. rewrite Hsid. cbn [str_add lift].
  rewrite bind_run. cbn [ret].
  rewrite bind_run, get_headers_run.
  rewrite bind_run, (send_run GET _ _ (refreshed _ w) _ _ Hr).
  cbn [reply_json]. rewrite Hj. cbn [lift]. rewrite bind_run. cbn [ret].
  rewrite Hst. cbn [lift]. rewrite bind_run. cbn [ret].
  rewrite (json_eq_str_false _ _ Hne). reflexivity.
Qed.

Lemma poll_body_available (self : LivyCursor) (id : json) (w : World) sid r res rest :
  cur_session_id self = JStr sid ->
  remote w = r :: rest ->
  available r res ->
  LivyCursor._getLivyResult_body self id tt w
  = Ok (Break res)
       (after_request (cur_credential self) GET (poll_url self sid id) None rest w).
Proof.
  intros Hsid Hr (resp & -> & Hb & Hst).
  unfold LivyCursor._getLivyResult_body. rewrite Hsid. cbn [str_add lift].
  rewrite bind_run. cbn [ret].
  rewrite bind_run, get_headers_run.
  rewrite bind_run, (send_run GET _ _ (refreshed _ w) _ _ Hr).
  cbn [reply_json]. unfold response_json. rewrite Hb. cbn [lift].
  rewrite bind_run. cbn [ret].
  rewrite Hst. cbn [lift]. rewrite bind_run. cbn [ret].
  reflexivity.
Qed.

(** The poll loop waits through the pending replies and leaves with the
    first available result. *)
Lemma poll_loop_run (self : LivyCursor) (id : json) sid a res rest (pend : list Reply) :
  cur_session_id self = JStr sid ->
  available a res ->
  Forall pending pend ->
  forall (fuel : nat) (w : World),
    (List.length pend < fuel)%nat ->
    remote w = (pend ++ a :: rest)%list ->
    exists w',
      while_true fuel (LivyCursor._getLivyResult_body self id) tt w = Ok res w'
      /\ steps w w' rest (poll_trace (poll_url self sid id) (List.length pend)).
Proof.
  intros Hsid Ha Hpend. induction Hpend as [|r pend Hr Hpend IH]; intros fuel w Hfuel Hw.
  - rewrite while_true_step by lia.
    rewrite (poll_body_available _ _ _ _ _ _ _ Hsid Hw Ha).
    eexists. split; [reflexivity|]. apply steps_request.
  - cbn [List.length] in Hfuel. rewrite while_true_step by lia.
    rewrite (poll_body_pending _ _ _ _ _ _ Hsid Hw Hr).
    destruct (IH (Nat.pred fuel)
                 (after_sleep 5 (after_request (cur_credential self) GET
                                   (poll_url self sid id) None (pend ++ a :: rest) w)))
      as (w' & Hrun & Hsteps); [lia | reflexivity |].
    exists w'. split; [exact Hrun|].
    cbn [List.length poll_trace].
    change (Request GET (poll_url self sid id) None
            :: Sleep DEFAULT_POLL_STATEMENT_WAIT
            :: poll_trace (poll_url self sid id) (List.length pend))
      with (([Request GET (poll_url self sid id) None] ++ [Sleep 5])
            ++ poll_trace (poll_url self sid id) (List.length pend))%list.
    eapply steps_trans; [|exact Hsteps].
    eapply steps_trans; [apply steps_request | apply steps_sleep].
Qed.

Lemma statement_id_inv (r : Response) (id : json) :
  statement_id r = Some id ->
  exists j, response_json r = inr j /\ getitem j "id" = inr id.
Proof.
  unfold statement_id, response_json. destruct (body r) as [j|]; [|discriminate].
  destruct (getitem j "id") as [e|id'] eqn:E; [discriminate|].
  intros H. inversion H; subst. eauto.
Qed.

Lemma getLivyResult_run (submitted : Response) (id : json) (w : World) sid a res rest pend :
  cur_session_id (cursor w) = JStr sid ->
  statement_id submitted = Some id ->
  remote w = (pend ++ a :: rest)%list ->
  Forall pending pend ->
  available a res ->
  exists w',
    LivyCursor._getLivyResult submitted w = Ok res w'
    /\ steps w w' rest (poll_trace (poll_url (cursor w) sid id) (List.length pend)).
Proof.
  intros Hsid Hid Hr Hpend Ha.
  destruct (statement_id_inv _ _ Hid) as (j & Hj & Hjid).
  unfold LivyCursor._getLivyResult.
  rewrite bind_run. cbn [gets].
  rewrite Hj. cbn [lift]. rewrite bind_run. cbn [ret].
  rewrite Hjid. cbn [lift]. rewrite bind_run. cbn [ret].
  unfold loop.
  apply (poll_loop_run _ _ _ _ _ _ _ Hsid Ha Hpend); [|exact Hr].
  rewrite Hr, length_app. cbn. lia.
Qed.

(** ** The execute loop *)

Lemma submit_one_accepted (code language : string) (w : World) sid s rest :
  session_ready w sid ->
  remote w = Answer s :: rest ->
  submit_accepted s ->
  exists w',
    LivyCursor._submitLivyCode code language w = Ok s w'
    /\ steps w w' rest
         [Request POST (submit_url (cursor w) sid) (Some (statement code language))].
Proof.
  intros Hready Hr Hs.
  rewrite (submit_on_ready_session _ _ _ _ Hready).
  destruct Hready as [_ Hsid].
  unfold loop. rewrite while_true_step by lia.
  rewrite (submit_body_accepted _ _ _ _ _ _ _ Hsid Hr Hs).
  eexists. split; [reflexivity | apply steps_request].
Qed.

Lemma check_retry_error_output (res : json) (evalue : string) :
  error_output res evalue ->
  check_retry_condition_when_execute res = inr (transient evalue).
Proof.
  intros (output & Ho & Hs & He).
  unfold check_retry_condition_when_execute, transient, EXECUTE_RETRIES_PATTERNS.
  rewrite Ho. cbn [ebind]. rewrite Hs. cbn [ebind json_eq_str].
  cbn [String.eqb Ascii.eqb Bool.eqb any_pattern_in existsb].
  rewrite Ho. cbn [ebind]. rewrite He. cbn [ebind py_in].
  rewrite orb_false_r. destruct (contains _ evalue); reflexivity.
Qed.

Lemma check_retry_ok_output (res rows fields : json) :
  ok_output res rows fields ->
  check_retry_condition_when_execute res = inr false.
Proof.
  intros (output & data & values & schema & Ho & Hs & _).
  unfold check_retry_condition_when_execute.
  rewrite Ho. cbn [ebind]. rewrite Hs. reflexivity.
Qed.

(** One round of the execute loop, from a submit phase that ended with the
    response [s]: poll, then retry or leave as the retry condition [b] and
    the retry count say. *)
Lemma execute_body_after_submit (code language : string) (retries_time : Z)
    (w w0 : World) sid s id pend a res rest events (b : bool) :
  LivyCursor._submitLivyCode code language w = Ok s w0 ->
  steps w w0 (pend ++ a :: rest) events ->
  cur_session_id (cursor w) = JStr sid ->
  statement_id s = Some id ->
  Forall pending pend ->
  available a res ->
  check_retry_condition_when_execute res = inr b ->
  exists w1,
    steps w w1 rest
          (events ++ poll_trace (poll_url (cursor w) sid id) (List.length pend))
    /\ LivyCursor.execute_body code language retries_time w
       = if b && (retries_time <? 5)
         then Ok (Continue (retries_time + 1)) (after_sleep (retries_time * 10 + 10) w1)
         else Ok (Break res) w1.
Proof.
  intros Hsub Hsteps Hsid Hid Hpend Ha Hb.
  assert (Hc : cursor w0 = cursor w) by apply Hsteps.
  destruct (getLivyResult_run s id w0 sid a res rest pend) as (w1 & Hpoll & Hsteps1);
    [rewrite Hc; exact Hsid | exact Hid | apply Hsteps | exact Hpend | exact Ha |].
  rewrite Hc in Hsteps1.
  exists w1. split; [eapply steps_trans; eassumption|].
  unfold LivyCursor.execute_body.
  rewrite (bind_Ok _ _ _ _ _ Hsub), (bind_Ok _ _ _ _ _ Hpoll).
  destruct Ha as (resp & _ & _ & Hst). rewrite Hst. cbn [lift].
  rewrite bind_run. cbn [ret json_eq_str String.eqb Ascii.eqb Bool.eqb].
  rewrite Hb. cbn [lift]. rewrite bind_run. cbn [ret].
  unfold DEFAULT_EXECUTE_RETRIES_TIME, DEFAULT_EXECUTE_RETRIES_WAIT.
  destruct b; [destruct (retries_time <? 5)|]; reflexivity.
Qed.

(** One round of the execute loop on the replies of one cycle. *)
Lemma execute_body_cycle (code language : string) (retries_time : Z)
    (w : World) sid s id pend a res rest (b : bool) :
  session_ready w sid ->
  remote w = Answer s :: (pend ++ a :: rest)%list ->
  one_cycle s id pend a res ->
  check_retry_condition_when_execute res = inr b ->
  exists w1,
    steps w w1 rest (cycle_trace (cursor w) sid code language id (List.length pend))
    /\ LivyCursor.execute_body code language retries_time w
       = if b && (retries_time <? 5)
         then Ok (Continue (retries_time + 1)) (after_sleep (retries_time * 10 + 10) w1)
         else Ok (Break res) w1.
Proof.
  intros Hready Hr (Hs & Hid & Hpend & Ha) Hb.
  destruct (submit_one_accepted code language w sid s _ Hready Hr Hs) as (w0 & Hsub & Hst).
  destruct Hready as [_ Hsid].
  apply (execute_body_after_submit code language retries_time w w0 sid s id pend a res rest
           _ b Hsub Hst Hsid Hid Hpend Ha Hb).
Qed.

Lemma getitem_nonempty (j : json) (k : string) (v : json) :
  getitem j k = inr v -> exists n, py_len j = inr (Datatypes.S n).
Proof.
  destruct j as [| | | | | |kv]; try discriminate. destruct kv as [|p kv]; [discriminate|].
  intros _. cbn. eauto.
Qed.

(** A result with an ok output fills the cursor. *)
Lemma execute_result_ok (res rows fields : json) (w : World) :
  ok_output res rows fields ->
  LivyCursor.execute_result res w
  = Ok tt (set_cursor (with_schema fields (with_rows rows (cursor w))) w).
Proof.
  intros (output & data & values & schema & Ho & Hs & Hd & Hv & Hrows & Hsch & Hf).
  destruct (getitem_nonempty _ _ _ Hrows) as (n & Hn).
  unfold LivyCursor.execute_result.
  rewrite Ho. cbn [lift]. rewrite bind_run. cbn [ret].
  rewrite Hs. cbn [lift]. rewrite bind_run. cbn [ret].
  cbn [json_eq_str String.eqb Ascii.eqb Bool.eqb].
  rewrite Hd. cbn [lift]. rewrite bind_run. cbn [ret].
  rewrite Hv. cbn [lift]. rewrite bind_run. cbn [ret].
  rewrite Hn. cbn [lift]. rewrite bind_run. cbn [ret Nat.leb].
  rewrite Hrows. cbn [lift]. rewrite bind_run. cbn [ret].
  rewrite bind_run. cbn [update_cursor modify].
  rewrite Hsch. cbn [lift]. rewrite bind_run. cbn [ret].
  rewrite Hf. cbn [lift]. rewrite bind_run. cbn [ret].
  reflexivity.
Qed.

(** A result with an error output empties the cursor and raises with the
    remote's error text. *)
Lemma execute_result_error (res : json) (evalue : string) (w : World) :
  error_output res evalue ->
  LivyCursor.execute_result res w
  = Raise (DbtDatabaseError ("Error while executing query: " ++ evalue))
          (set_cursor (with_schema JNull (with_rows JNull (cursor w))) w).
Proof.
  intros (output & Ho & Hs & He).
  unfold LivyCursor.execute_result.
  rewrite Ho. cbn [lift]. rewrite bind_run. cbn [ret].
  rewrite Hs. cbn [lift]. rewrite bind_run. cbn [ret].
  cbn [json_eq_str String.eqb Ascii.eqb Bool.eqb].
  rewrite bind_run. cbn [update_cursor modify].
  rewrite bind_run. cbn [update_cursor modify].
  rewrite He. cbn [lift]. rewrite bind_run. cbn [ret str_add lift].
  rewrite bind_run. cbn [ret raise].
  destruct w; reflexivity.
Qed.

Lemma execute_no_parameters (py : PyLib) (code language : string) (w : World) :
  LivyCursor.execute py code language [] w
  = bind (loop (LivyCursor.execute_body (final_code py code language) language) 0)
         LivyCursor.execute_result w.
Proof. reflexivity. Qed.

Lemma submits_app (t1 t2 : list Event) : submits (t1 ++ t2) = (submits t1 + submits t2)%nat.
Proof. unfold submits. rewrite filter_app, length_app. reflexivity. Qed.

Lemma submits_poll_trace (url : string) (n : nat) : submits (poll_trace url n) = 0%nat.
Proof. induction n; [reflexivity | exact IHn]. Qed.

Lemma submits_cycle_trace self sid code language id n :
  submits (cycle_trace self sid code language id n) = 1%nat.
Proof.
  unfold cycle_trace.
  change (submits (?x :: ?l)) with (submits ([x] ++ l)).
  rewrite submits_app, submits_poll_trace. reflexivity.
Qed.

Lemma steps_then_sleep (w w1 : World) rest events (seconds : Z) :
  steps w w1 rest events -> steps w (after_sleep seconds w1) rest (events ++ [Sleep seconds]).
Proof.
  intros H. eapply steps_trans; [exact H|].
  destruct H as (Hr & _). rewrite <- Hr. apply steps_sleep.
Qed.

Lemma execute_rounds (py : PyLib) (code language : string) (w : World) :
  LivyCursor.execute py code language [] w
  = bind (while_true (Datatypes.S (List.length (remote w)))
            (LivyCursor.execute_body (final_code py code language) language) 0)
         LivyCursor.execute_result w.
Proof. reflexivity. Qed.

(** C3: when the submission is rejected with state ["error"] three times and
    then taken, [_submitLivyCode] posts four times, each time the same code
    to the same URL, sleeps 10, 20 and 30 seconds in between, and returns
    the response that was not an error. Inside [execute], followed by polls
    that end on an ok result, these are all the submissions there are. *)
Theorem submit_retries_three_errors (py : PyLib) (code language : string) (w : World)
    (sid : string) (e1 e2 e3 ok : Response) (rest : list Reply) :
  session_ready w sid ->
  remote w = Answer e1 :: Answer e2 :: Answer e3 :: Answer ok :: rest ->
  submit_error e1 -> submit_error e2 -> submit_error e3 ->
  submit_accepted ok ->
  let calls (c : string) :=
    let submit := Request POST (submit_url (cursor w) sid) (Some (statement c language)) in
    [submit; Sleep 10; submit; Sleep 20; submit; Sleep 30; submit] in
  (exists w',
      LivyCursor._submitLivyCode code language w = Ok ok w'
      /\ steps w w' rest (calls code))
  /\ submits (calls code) = 4%nat
  /\ (forall id pend a res rest' rows fields,
         rest = (pend ++ a :: rest')%list ->
         statement_id ok = Some id ->
         Forall pending pend ->
         available a res ->
         ok_output res rows fields ->
         exists w',
           LivyCursor.execute py code language [] w = Ok tt w'
           /\ remote w' = rest'
           /\ trace w' = (trace w ++ calls (final_code py code language)
                          ++ poll_trace (poll_url (cursor w) sid id) (List.length pend))%list
           /\ _rows (cursor w') = rows
           /\ _schema (cursor w') = fields).
Proof.
  intros Hready Hr H1 H2 H3 Hok calls.
  split; [apply (submit_three_errors code language w sid e1 e2 e3 ok rest); assumption|].
  split; [reflexivity|].
  intros id pend a res rest' rows fields -> Hid Hpend Ha Hres.
  destruct (submit_three_errors (final_code py code language) language w sid e1 e2 e3 ok _
              Hready Hr H1 H2 H3 Hok) as (w0 & Hsub & Hsteps).
  destruct (execute_body_after_submit _ _ 0 w w0 sid ok id pend a res rest' _ false
              Hsub Hsteps (proj2 Hready) Hid Hpend Ha (check_retry_ok_output _ _ _ Hres))
    as (w1 & (Hr1 & Ht1 & _ & Hc1) & Hbody).
  rewrite execute_rounds, bind_run, while_true_step by lia.
  rewrite Hbody. cbn [andb]. rewrite (execute_result_ok _ _ _ _ Hres).
  eexists. split; [reflexivity|]. cbn. auto.
Qed.

Lemma submit_retries_three_errors_witness :
  exists w',
    LivyCursor._submitLivyCode "SELECT 1" "sql"
      (Fixture.ready [Answer (Fixture.submitted 0 "error");
                      Answer (Fixture.submitted 0 "error");
                      Answer (Fixture.submitted 0 "error");
                      Answer (Fixture.submitted 4 "waiting")])
    = Ok (Fixture.submitted 4 "waiting") w'
    /\ remote w' = [].
Proof.
  edestruct (submit_retries_three_errors Fixture.py "SELECT 1" "sql"
               (Fixture.ready [Answer (Fixture.submitted 0 "error");
                               Answer (Fixture.submitted 0 "error");
                               Answer (Fixture.submitted 0 "error");
                               Answer (Fixture.submitted 4 "waiting")])
               "s1") as [(w' & Hrun & Hsteps) _].
  - split; [eexists; split; reflexivity | reflexivity].
  - reflexivity.
  - reflexivity.
  - reflexivity.
  - reflexivity.
  - exists (JStr "waiting"). split; [reflexivity | discriminate].
  - exists w'. split; [exact Hrun | apply Hsteps].
Defined.

(** C6: when every submission is rejected with state ["error"], the submit
    loop posts six times, the first attempt and five retries with sleeps of
    10 to 50 seconds, then stops and returns the last rejected response;
    nothing is raised. *)
Theorem submit_returns_last_error_after_five_retries (code language : string) (w : World)
    (sid : string) (e0 e1 e2 e3 e4 e5 : Response) (rest : list Reply) :
  session_ready w sid ->
  remote w = Answer e0 :: Answer e1 :: Answer e2 :: Answer e3 :: Answer e4 :: Answer e5 :: rest ->
  submit_error e0 -> submit_error e1 -> submit_error e2 ->
  submit_error e3 -> submit_error e4 -> submit_error e5 ->
  let submit := Request POST (submit_url (cursor w) sid) (Some (statement code language)) in
  let calls := [submit; Sleep 10; submit; Sleep 20; submit; Sleep 30;
                submit; Sleep 40; submit; Sleep 50; submit] in
  (exists w',
      LivyCursor._submitLivyCode code language w = Ok e5 w'
      /\ steps w w' rest calls)
  /\ submits calls = 6%nat.
Proof.
  intros Hready Hr H0 H1 H2 H3 H4 H5 submit calls.
  split; [|reflexivity].
  rewrite (submit_on_ready_session _ _ _ _ Hready).
  destruct Hready as [_ Hsid].
  unfold loop. rewrite Hr. cbn [List.length].
  erewrite while_true_step by lia.
  erewrite submit_body_error; [ | eassumption | eassumption | eassumption | lia ].
  cbn [Nat.pred].
  do 5 submit_round.
  eexists. split; [reflexivity|].
  unfold steps. cbn. rewrite <- !app_assoc. cbn. auto.
Qed.

Lemma submit_returns_last_error_after_five_retries_witness :
  exists w',
    LivyCursor._submitLivyCode "SELECT 1" "sql"
      (Fixture.ready (repeat (Answer (Fixture.submitted 0 "error")) 6))
    = Ok (Fixture.submitted 0 "error") w'
    /\ remote w' = [].
Proof.
  edestruct (submit_returns_last_error_after_five_retries "SELECT 1" "sql"
               (Fixture.ready (repeat (Answer (Fixture.submitted 0 "error")) 6))
               "s1") as [(w' & Hrun & Hsteps) _].
  - split; [eexists; split; reflexivity | reflexivity].
  - reflexivity.
  - reflexivity.
  - reflexivity.
  - reflexivity.
  - reflexivity.
  - reflexivity.
  - reflexivity.
  - exists w'. split; [exact Hrun | apply Hsteps].
Defined.

(** C5: when the statement becomes available with output status ["error"]
    and an error text that matches no transient pattern, [execute] raises
    the database error with the remote's error text after one submit and the
    polls of that one cycle; nothing is retried and no further reply is
    consumed. *)
Theorem execute_raises_on_non_transient_error (py : PyLib) (code language : string)
    (w : World) (sid : string) (s : Response) (id : json) (pend : list Reply) (a : Reply)
    (res : json) (evalue : string) (rest : list Reply) :
  session_ready w sid ->
  remote w = Answer s :: (pend ++ a :: rest)%list ->
  one_cycle s id pend a res ->
  error_output res evalue ->
  transient evalue = false ->
  let events :=
    cycle_trace (cursor w) sid (final_code py code language) language id (List.length pend) in
  exists w',
    LivyCursor.execute py code language [] w
    = Raise (DbtDatabaseError ("Error while executing query: " ++ evalue)) w'
    /\ remote w' = rest
    /\ trace w' = (trace w ++ events)%list
    /\ submits events = 1%nat.
Proof.
  intros Hready Hr Hcycle Hout Hnt events.
  assert (Hb := check_retry_error_output _ _ Hout). rewrite Hnt in Hb.
  destruct (execute_body_cycle (final_code py code language) language 0 w sid s id pend a res
              rest false Hready Hr Hcycle Hb) as (w1 & (Hr1 & Ht1 & _) & Hbody).
  rewrite execute_rounds, bind_run, while_true_step by lia.
  rewrite Hbody. cbn [andb]. rewrite (execute_result_error _ _ _ Hout).
  eexists. split; [reflexivity|].
  split; [exact Hr1|]. split; [exact Ht1|]. apply submits_cycle_trace.
Qed.

Lemma execute_raises_on_non_transient_error_witness :
  exists w',
    LivyCursor.execute Fixture.py "SELECT x" "sql" []
      (Fixture.ready [Answer (Fixture.submitted 3 "waiting");
                      Fixture.reply 200 (Fixture.failed "no such column x")])
    = Raise (DbtDatabaseError "Error while executing query: no such column x") w'
    /\ remote w' = [].
Proof.
  edestruct (execute_raises_on_non_transient_error Fixture.py "SELECT x" "sql"
               (Fixture.ready [Answer (Fixture.submitted 3 "waiting");
                               Fixture.reply 200 (Fixture.failed "no such column x")])
               "s1" (Fixture.submitted 3 "waiting") (JNum 3) []
               (Fixture.reply 200 (Fixture.failed "no such column x"))
               (Fixture.failed "no such column x") "no such column x" [])
    as (w' & Hrun & Hrest & _).
  - split; [eexists; split; reflexivity | reflexivity].
  - reflexivity.
  - split; [exists (JStr "waiting"); split; [reflexivity | discriminate]|].
    split; [reflexivity|]. split; [constructor|].
    eexists. split; [reflexivity|]. split; reflexivity.
  - eexists. split; [reflexivity|]. split; reflexivity.
  - reflexivity.
  - exists w'. split; [exact Hrun | exact Hrest].
Defined.

(** C4: when the first two cycles end on an available result whose output
    status is ["error"] with a transient error text and the third ends on an
    ok result, [execute] runs the submit-and-poll cycle three times, with
    sleeps of 10 and 20 seconds in between, and returns with the rows of the
    third. *)
Theorem execute_retries_transient_error_twice (py : PyLib) (code language : string)
    (w : World) (sid : string)
    (s1 s2 s3 : Response) (id1 id2 id3 : json) (pend1 pend2 pend3 : list Reply)
    (a1 a2 a3 : Reply) (res1 res2 res3 : json) (evalue1 evalue2 : string)
    (rows fields : json) (rest : list Reply) :
  session_ready w sid ->
  remote w = (Answer s1 :: pend1 ++ a1 ::
              Answer s2 :: pend2 ++ a2 ::
              Answer s3 :: pend3 ++ a3 :: rest)%list ->
  one_cycle s1 id1 pend1 a1 res1 ->
  error_output res1 evalue1 -> transient evalue1 = true ->
  one_cycle s2 id2 pend2 a2 res2 ->
  error_output res2 evalue2 -> transient evalue2 = true ->
  one_cycle s3 id3 pend3 a3 res3 ->
  ok_output res3 rows fields ->
  let cycle id pend :=
    cycle_trace (cursor w) sid (final_code py code language) language id (List.length pend) in
  let events :=
    (cycle id1 pend1 ++ [Sleep 10] ++ cycle id2 pend2 ++ [Sleep 20] ++ cycle id3 pend3)%list in
  exists w',
    LivyCursor.execute py code language [] w = Ok tt w'
    /\ remote w' = rest
    /\ trace w' = (trace w ++ events)%list
    /\ submits events = 3%nat
    /\ _rows (cursor w') = rows
    /\ _schema (cursor w') = fields.
Proof.
  intros Hready Hr C1 E1 T1 C2 E2 T2 C3 O3 cycle events.
  assert (B1 := check_retry_error_output _ _ E1). rewrite T1 in B1.
  assert (B2 := check_retry_error_output _ _ E2). rewrite T2 in B2.
  assert (B3 := check_retry_ok_output _ _ _ O3).
  destruct (execute_body_cycle (final_code py code language) language 0 w sid
              s1 id1 pend1 a1 res1 _ true Hready Hr C1 B1) as (w1 & St1 & Body1).
  apply (steps_then_sleep _ _ _ _ (0 * 10 + 10)) in St1.
  destruct (execute_body_cycle (final_code py code language) language (0 + 1)
              (after_sleep (0 * 10 + 10) w1) sid
              s2 id2 pend2 a2 res2 _ true
              (session_ready_steps _ _ _ _ _ St1 Hready) (proj1 St1) C2 B2)
    as (w2 & St2 & Body2).
  replace (cursor (after_sleep (0 * 10 + 10) w1)) with (cursor w) in St2
    by (symmetry; apply St1).
  assert (St12 := steps_trans _ _ _ _ _ _ _ St1 St2).
  apply (steps_then_sleep _ _ _ _ ((0 + 1) * 10 + 10)) in St12.
  destruct (execute_body_cycle (final_code py code language) language (0 + 1 + 1)
              (after_sleep ((0 + 1) * 10 + 10) w2) sid
              s3 id3 pend3 a3 res3 _ false
              (session_ready_steps _ _ _ _ _ St12 Hready) (proj1 St12) C3 B3)
    as (w3 & St3 & Body3).
  replace (cursor (after_sleep ((0 + 1) * 10 + 10) w2)) with (cursor w) in St3
    by (symmetry; apply St12).
  assert (St := steps_trans _ _ _ _ _ _ _ St12 St3).
  destruct St as (Hrest & Htrace & _ & Hcur).
  rewrite execute_rounds, bind_run, Hr.
  cbn [List.length].
  rewrite while_true_step by lia. rewrite Body1. cbn [andb Z.ltb Z.compare Nat.pred].
  rewrite while_true_step by (rewrite length_app; cbn; lia).
  rewrite Body2. cbn [andb].
  change (0 + 1 <? 5) with true. cbv iota.
  rewrite while_true_step by (rewrite !length_app; cbn; rewrite length_app; cbn; lia).
  rewrite Body3. cbn [andb].
  rewrite (execute_result_ok _ _ _ _ O3).
  eexists. split; [reflexivity|]. cbn [remote trace cursor set_cursor _rows _schema with_rows with_schema].
  split; [exact Hrest|]. split.
  - rewrite Htrace. unfold events, cycle. rewrite <- !app_assoc. reflexivity.
  - split; [|split; reflexivity].
    unfold events. rewrite !submits_app. unfold cycle.
    rewrite !submits_cycle_trace. reflexivity.
Qed.

Lemma execute_retries_transient_error_twice_witness :
  exists w',
    LivyCursor.execute Fixture.py "SELECT 1" "sql" []
      (Fixture.ready [Answer (Fixture.submitted 1 "waiting");
                      Fixture.reply 200 (Fixture.failed Fixture.forbidden);
                      Answer (Fixture.submitted 2 "waiting");
                      Fixture.reply 200 (Fixture.failed Fixture.forbidden);
                      Answer (Fixture.submitted 3 "waiting");
                      Fixture.reply 200 (Fixture.succeeded (JArr [JArr [JNum 1]]) (JArr []))])
    = Ok tt w'
    /\ remote w' = [].
Proof.
  edestruct (execute_retries_transient_error_twice Fixture.py "SELECT 1" "sql"
               (Fixture.ready [Answer (Fixture.submitted 1 "waiting");
                               Fixture.reply 200 (Fixture.failed Fixture.forbidden);
                               Answer (Fixture.submitted 2 "waiting");
                               Fixture.reply 200 (Fixture.failed Fixture.forbidden);
                               Answer (Fixture.submitted 3 "waiting");
                               Fixture.reply 200
                                 (Fixture.succeeded (JArr [JArr [JNum 1]]) (JArr []))])
               "s1"
               (Fixture.submitted 1 "waiting") (Fixture.submitted 2 "waiting")
               (Fixture.submitted 3 "waiting")
               (JNum 1) (JNum 2) (JNum 3) [] [] []
               (Fixture.reply 200 (Fixture.failed Fixture.forbidden))
               (Fixture.reply 200 (Fixture.failed Fixture.forbidden))
               (Fixture.reply 200 (Fixture.succeeded (JArr [JArr [JNum 1]]) (JArr [])))
               (Fixture.failed Fixture.forbidden) (Fixture.failed Fixture.forbidden)
               (Fixture.succeeded (JArr [JArr [JNum 1]]) (JArr []))
               Fixture.forbidden Fixture.forbidden
               (JArr [JArr [JNum 1]]) (JArr []) [])
    as (w' & Hrun & Hrest & _).
  - split; [eexists; split; reflexivity | reflexivity].
  - reflexivity.
  - split; [exists (JStr "waiting"); split; [reflexivity | discriminate]|].
    split; [reflexivity|]. split; [constructor|].
    eexists. split; [reflexivity|]. split; reflexivity.
  - eexists. split; [reflexivity|]. split; reflexivity.
  - reflexivity.
  - split; [exists (JStr "waiting"); split; [reflexivity | discriminate]|].
    split; [reflexivity|]. split; [constructor|].
    eexists. split; [reflexivity|]. split; reflexivity.
  - eexists. split; [reflexivity|]. split; reflexivity.
  - reflexivity.
  - split; [exists (JStr "waiting"); split; [reflexivity | discriminate]|].
    split; [reflexivity|]. split; [constructor|].
    eexists. split; [reflexivity|]. split; reflexivity.
  - do 4 eexists. repeat split; reflexivity.
  - exists w'. split; [exact Hrun | exact Hrest].
Defined.

(** ** Which exceptions come from where *)

Lemma quiet_ret {A} (a : A) : quiet (ret a).
Proof. intros w e w' H. discriminate H. Qed.

Lemma quiet_gets {A} (f : World -> A) : quiet (gets f).
Proof. intros w e w' H. discriminate H. Qed.

Lemma quiet_modify (f : World -> World) : quiet (modify f).
Proof. intros w e w' H. discriminate H. Qed.

Lemma quiet_raise {A} (e : exn) : is_DbtDatabaseError e = false -> quiet (@raise A e).
Proof. intros He w e' w' H. inversion H; subst. exact He. Qed.

Lemma quiet_bind {A B} (m : M A) (k : A -> M B) :
  quiet m -> (forall a, quiet (k a)) -> quiet (bind m k).
Proof.
  intros Hm Hk w e w' H. rewrite bind_run in H.
  destruct (m w) as [a w1 | e1 w1 |] eqn:E.
  - exact (Hk a w1 e w' H).
  - inversion H; subst. exact (Hm w e w' E).
  - discriminate H.
Qed.

Lemma quiet_lift {A} (r : exn + A) : quiet_value r -> quiet (lift r).
Proof.
  intros Hr w e w' H. destruct r as [e1 | a]; [|discriminate H].
  inversion H; subst. apply Hr. reflexivity.
Qed.

Lemma quiet_while_true {S A} (body : S -> M (Ctl S A)) :
  (forall s, quiet (body s)) -> forall fuel s, quiet (while_true fuel body s).
Proof.
  intros Hbody. induction fuel as [|fuel IH]; intros s w e w' H; [discriminate H|].
  cbn [while_true] in H.
  destruct (body s w) as [[s1 | a] w1 | e1 w1 |] eqn:E.
  - exact (IH s1 w1 e w' H).
  - discriminate H.
  - inversion H; subst. exact (Hbody s w e w' E).
  - discriminate H.
Qed.

Lemma quiet_loop {S A} (body : S -> M (Ctl S A)) (s : S) :
  (forall s, quiet (body s)) -> quiet (loop body s).
Proof. intros Hbody w. apply (quiet_while_true body Hbody). Qed.

Lemma quiet_for_each {A} (l : list A) (body : A -> M unit) :
  (forall x, quiet (body x)) -> quiet (for_each l body).
Proof.
  intros Hbody. induction l as [|x l IH]; cbn [for_each].
  - apply quiet_ret.
  - apply quiet_bind; [apply Hbody | intros _; exact IH].
Qed.

Lemma quiet_get_headers credentials tokenPrint : quiet (get_headers credentials tokenPrint).
Proof. intros w e w' H. rewrite get_headers_run in H. discriminate H. Qed.

Lemma quiet_send m url data : quiet (send m url data).
Proof. intros w e w' H. unfold send in H. destruct (remote w); discriminate H. Qed.

Lemma quiet_sleep seconds : quiet (sleep seconds).
Proof. apply quiet_modify. Qed.

Lemma quiet_self_session : quiet self_session.
Proof.
  intros w e w' H. unfold self_session, bind, gets in H.
  destruct (livy_global_session w); inversion H; subst; reflexivity.
Qed.

Lemma quiet_update_session f : quiet (update_session f).
Proof. apply quiet_modify. Qed.

Lemma quiet_update_cursor f : quiet (update_cursor f).
Proof. apply quiet_modify. Qed.

Lemma quiet_value_inr {A} (a : A) : quiet_value (@inr exn A a).
Proof. intros e H. discriminate H. Qed.

Lemma quiet_value_inl {A} (e : exn) : is_DbtDatabaseError e = false -> quiet_value (@inl exn A e).
Proof. intros He e' H. inversion H; subst. exact He. Qed.

Lemma quiet_value_ebind {A B} (r : exn + A) (k : A -> exn + B) :
  quiet_value r -> (forall a, quiet_value (k a)) -> quiet_value (ebind r k).
Proof.
  intros Hr Hk e H. destruct r as [e1 | a]; cbn in H.
  - inversion H; subst. apply Hr. reflexivity.
  - exact (Hk a e H).
Qed.

Lemma quiet_getitem j k : quiet_value (getitem j k).
Proof.
  intros e H. destruct j; cbn in H; try (inversion H; subst; reflexivity).
  destruct (assoc k items); inversion H; subst; reflexivity.
Qed.

Lemma quiet_str_add s j : quiet_value (str_add s j).
Proof. intros e H. destruct j; inversion H; subst; reflexivity. Qed.

Lemma quiet_py_iter j : quiet_value (py_iter j).
Proof. intros e H. destruct j; inversion H; subst; reflexivity. Qed.

Lemma quiet_py_len j : quiet_value (py_len j).
Proof. intros e H. destruct j; inversion H; subst; reflexivity. Qed.

Lemma quiet_py_in p j : quiet_value (py_in p j).
Proof. intros e H. destruct j; inversion H; subst; reflexivity. Qed.

Lemma quiet_response_json r : quiet_value (response_json r).
Proof.
  intros e H. unfold response_json in H.
  destruct (body r); inversion H; subst; reflexivity.
Qed.

Lemma quiet_reply_json r : quiet_value (reply_json r).
Proof.
  destruct r as [e0 | resp]; cbn [reply_json].
  - apply quiet_value_inl. reflexivity.
  - apply quiet_response_json.
Qed.

Lemma quiet_failed_to_connect {B} (msg : string) (k : exn -> M B) :
  quiet (bind (lift (dbt_exceptions_FailedToConnectException msg)) k).
Proof. intros w e w' H. cbn in H. inversion H; subst. reflexivity. Qed.

Create HintDb quiet.

#[local] Hint Resolve quiet_ret quiet_gets quiet_modify quiet_get_headers quiet_send
  quiet_sleep quiet_self_session quiet_update_session quiet_update_cursor
  quiet_value_inr quiet_getitem quiet_str_add quiet_py_iter quiet_py_len quiet_py_in
  quiet_response_json quiet_reply_json : quiet.

#[local] Hint Extern 1 (quiet (raise _)) => (apply quiet_raise; reflexivity) : quiet.
#[local] Hint Extern 1 (quiet_value (inl _)) => (apply quiet_value_inl; reflexivity) : quiet.

Ltac quiet_step :=
  first
    [ solve [ auto with quiet ]
    | apply quiet_failed_to_connect
    | apply quiet_bind; [ | intro ]
    | apply quiet_loop; intro
    | apply quiet_for_each; intro
    | apply quiet_lift
    | apply quiet_value_ebind; [ | intro ]
    | match goal with
      | |- quiet (match ?x with _ => _ end) => destruct x
      | |- quiet_value (match ?x with _ => _ end) => destruct x
      end
    | progress cbv zeta ].

Ltac quiet_all := repeat quiet_step.

Lemma quiet_check_retry_submit res : quiet_value (check_retry_condition_when_submit_code res).
Proof. unfold check_retry_condition_when_submit_code. quiet_all. Qed.

Lemma quiet_any_pattern_in patterns res : quiet_value (any_pattern_in patterns res).
Proof. induction patterns as [|p ps IH]; cbn [any_pattern_in]; quiet_all. Qed.

Lemma quiet_check_retry_execute res : quiet_value (check_retry_condition_when_execute res).
Proof.
  unfold check_retry_condition_when_execute. quiet_all.
Qed.

Lemma quiet_statements_url self : quiet_value (LivyCursor.statements_url self).
Proof. unfold LivyCursor.statements_url. quiet_all. Qed.

#[local] Hint Resolve quiet_check_retry_submit quiet_check_retry_execute
  quiet_statements_url : quiet.

Lemma quiet_create_session data : quiet (LivySession.create_session data).
Proof.
  unfold LivySession.create_session, LivySession.create_session_poll.
  do 3 (apply quiet_bind; [auto with quiet | intro]).
  cbv zeta.
  match goal with |- quiet (match ?x with _ => _ end) => destruct x as [response|] end;
    [|auto with quiet].
  apply quiet_bind; [auto with quiet | intro].
  apply quiet_bind.
  - destruct (response_json response) as [e | j] eqn:E.
    + assert (He := quiet_response_json response e E).
      destruct e; try discriminate He; auto with quiet.
    + quiet_all.
  - intro. quiet_all.
Qed.

Lemma quiet_delete_session : quiet LivySession.delete_session.
Proof. unfold LivySession.delete_session. quiet_all. Qed.

Lemma quiet_is_valid_session : quiet LivySession.is_valid_session.
Proof. unfold LivySession.is_valid_session. quiet_all. Qed.

Lemma quiet_get_exist_session_body name session :
  quiet (LivySession.get_exist_session_body name session).
Proof.
  unfold LivySession.get_exist_session_body, LivySession.get_exist_session_poll. quiet_all.
Qed.

#[local] Hint Resolve quiet_create_session quiet_delete_session quiet_is_valid_session
  quiet_get_exist_session_body : quiet.

Lemma quiet_get_exist_session : quiet LivySession.get_exist_session.
Proof. unfold LivySession.get_exist_session. quiet_all. Qed.

#[local] Hint Resolve quiet_get_exist_session : quiet.

Lemma quiet_get_exist_session_or_create data :
  quiet (LivySession.get_exist_session_or_create data).
Proof. unfold LivySession.get_exist_session_or_create. quiet_all. Qed.

#[local] Hint Resolve quiet_get_exist_session_or_create : quiet.

Lemma quiet_connect credentials : quiet (LivySessionManager.connect credentials).
Proof.
  unfold LivySessionManager.connect, create_shortcuts. quiet_all.
Qed.

#[local] Hint Resolve quiet_connect : quiet.

Lemma quiet_submitLivyCode code language : quiet (LivyCursor._submitLivyCode code language).
Proof.
  unfold LivyCursor._submitLivyCode, LivyCursor._submitLivyCode_body. quiet_all.
Qed.

Lemma quiet_getLivyResult res_obj : quiet (LivyCursor._getLivyResult res_obj).
Proof.
  unfold LivyCursor._getLivyResult, LivyCursor._getLivyResult_body. quiet_all.
Qed.

#[local] Hint Resolve quiet_submitLivyCode quiet_getLivyResult : quiet.

Lemma quiet_execute_body code language retries_time :
  quiet (LivyCursor.execute_body code language retries_time).
Proof. unfold LivyCursor.execute_body. quiet_all. Qed.

(** ** The cursor after a failed statement *)

(** [execute_result] raises the database error from one place only, after
    rows and schema were set to [None]. *)
Lemma execute_result_db_error (res : json) (w w' : World) (msg : string) :
  LivyCursor.execute_result res w = Raise (DbtDatabaseError msg) w' ->
  _rows (cursor w') = JNull /\ _schema (cursor w') = JNull.
Proof.
  unfold LivyCursor.execute_result. intros H.
  rewrite bind_run in H.
  destruct (getitem res "output") as [e | output] eqn:E1; cbn [lift raise ret] in H.
  { inversion H; subst. discriminate (quiet_getitem _ _ _ E1). }
  rewrite bind_run in H.
  destruct (getitem output "status") as [e | status] eqn:E2; cbn [lift raise ret] in H.
  { inversion H; subst. discriminate (quiet_getitem _ _ _ E2). }
  destruct (json_eq_str status "ok").
  - exfalso.
    match type of H with
    | ?m w = _ => assert (Q : quiet m) by quiet_all; discriminate (Q _ _ _ H)
    end.
  - cbv [bind update_cursor modify] in H.
    destruct (getitem output "evalue") as [e | evalue]; cbn [lift raise ret] in H.
    { inversion H; subst. cbn. auto. }
    destruct (str_add "Error while executing query: " evalue) as [e | message];
      cbn [lift raise ret] in H; inversion H; subst; cbn; auto.
Qed.

(** C9: whenever [execute] raises the database error, rows and schema of the
    cursor are [None] in the state it leaves behind: [fetchone] and
    [fetchall] return [None] and [description] is the empty list, whatever an
    earlier statement had put there. *)
Theorem execute_error_clears_cursor (py : PyLib) (code language : string)
    (parameters : list Binding) (w w' : World) (msg : string) :
  LivyCursor.execute py code language parameters w = Raise (DbtDatabaseError msg) w' ->
  _rows (cursor w') = JNull
  /\ _schema (cursor w') = JNull
  /\ LivyCursor.fetchone w' = Ok JNull w'
  /\ LivyCursor.fetchall w' = Ok JNull w'
  /\ LivyCursor.description w' = Ok [] w'.
Proof.
  intros H.
  assert (Hclear : _rows (cursor w') = JNull /\ _schema (cursor w') = JNull).
  { unfold LivyCursor.execute in H. rewrite bind_run in H.
    match type of H with
    | context [match ?m w with _ => _ end] => destruct (m w) as [c w0 | e w0 |] eqn:Hfmt
    end.
    - rewrite bind_run in H.
      match type of H with
      | context [match ?m w0 with _ => _ end] => destruct (m w0) as [res w1 | e w1 |] eqn:Hloop
      end.
      + exact (execute_result_db_error _ _ _ _ H).
      + inversion H; subst.
        assert (Hq := quiet_loop _ 0 (quiet_execute_body _ language) _ _ _ Hloop).
        discriminate Hq.
      + discriminate H.
    - inversion H; subst. exfalso.
      destruct parameters; [discriminate Hfmt|].
      destruct (str_mod py code (b :: parameters)) as [[|] | c]; discriminate Hfmt.
    - discriminate H. }
  destruct Hclear as [Hrows Hschema].
  unfold LivyCursor.fetchone, LivyCursor.fetchall, LivyCursor.description.
  rewrite !bind_run. cbn [gets]. rewrite Hrows, Hschema. auto.
Qed.

Lemma execute_error_clears_cursor_witness :
  exists w',
    LivyCursor.execute Fixture.py "SELECT x" "sql" []
      (Fixture.ready [Answer (Fixture.submitted 3 "waiting");
                      Fixture.reply 200 (Fixture.failed "no such column x")])
    = Raise (DbtDatabaseError "Error while executing query: no such column x") w'
    /\ (_rows (cursor w') = JNull
        /\ _schema (cursor w') = JNull
        /\ LivyCursor.fetchone w' = Ok JNull w'
        /\ LivyCursor.fetchall w' = Ok JNull w'
        /\ LivyCursor.description w' = Ok [] w').
Proof.
  eexists. split.
  - vm_compute. reflexivity.
  - apply (execute_error_clears_cursor Fixture.py "SELECT x" "sql" []
             (Fixture.ready [Answer (Fixture.submitted 3 "waiting");
                             Fixture.reply 200 (Fixture.failed "no such column x")])
             _ "Error while executing query: no such column x").
    vm_compute. reflexivity.
Defined.

(** ** The loops end with the script

    Every round of every [while True] takes a reply, so the bound [loop]
    puts on the rounds is never what ends a loop: any larger bound gives the
    same outcome. *)

Lemma spends_weaken {A} (k k' : nat) (m : M A) : (k' <= k)%nat -> spends k m -> spends k' m.
Proof. intros Hk Hm w a w' H. specialize (Hm w a w' H). lia. Qed.

Lemma spends_ret {A} (a : A) : spends 0 (ret a).
Proof. intros w a' w' H. inversion H; subst. lia. Qed.

Lemma spends_raise {A} (k : nat) (e : exn) : spends k (@raise A e).
Proof. intros w a w' H. discriminate H. Qed.

Lemma spends_gets {A} (f : World -> A) : spends 0 (gets f).
Proof. intros w a w' H. inversion H; subst. lia. Qed.

Lemma spends_modify (f : World -> World) :
  (forall w, remote (f w) = remote w) -> spends 0 (modify f).
Proof. intros Hf w a w' H. inversion H; subst. rewrite Hf. lia. Qed.

Lemma spends_lift {A} (r : exn + A) : spends 0 (lift r).
Proof. destruct r; [apply spends_raise | apply spends_ret]. Qed.

Lemma spends_bind {A B} (k1 k2 : nat) (m : M A) (k : A -> M B) :
  spends k1 m -> (forall a, spends k2 (k a)) -> spends (k1 + k2) (bind m k).
Proof.
  intros Hm Hk w b w' H. rewrite bind_run in H.
  destruct (m w) as [a w1 | e w1 |] eqn:E; try discriminate H.
  specialize (Hm w a w1 E). specialize (Hk a w1 b w' H). lia.
Qed.

Lemma spends_bind_0 {A B} (m : M A) (k : A -> M B) :
  spends 0 m -> (forall a, spends 0 (k a)) -> spends 0 (bind m k).
Proof. apply (spends_bind 0 0). Qed.

Lemma spends_bind_later {A B} (m : M A) (k : A -> M B) :
  spends 0 m -> (forall a, spends 1 (k a)) -> spends 1 (bind m k).
Proof. apply (spends_bind 0 1). Qed.

Lemma spends_bind_now {A B} (m : M A) (k : A -> M B) :
  spends 1 m -> (forall a, spends 0 (k a)) -> spends 1 (bind m k).
Proof. apply (spends_bind 1 0). Qed.

Lemma spends_send m url data : spends 1 (send m url data).
Proof.
  intros w a w' H. unfold send in H. destruct (remote w) as [|r rs] eqn:E; [discriminate H|].
  inversion H; subst. cbn. lia.
Qed.

Lemma spends_get_headers credentials tokenPrint : spends 0 (get_headers credentials tokenPrint).
Proof. intros w a w' H. rewrite get_headers_run in H. inversion H; subst. cbn. lia. Qed.

Lemma spends_sleep seconds : spends 0 (sleep seconds).
Proof. apply spends_modify. reflexivity. Qed.

Lemma spends_self_session : spends 0 self_session.
Proof.
  intros w a w' H. unfold self_session, bind, gets in H.
  destruct (livy_global_session w); inversion H; subst. lia.
Qed.

Lemma spends_update_session f : spends 0 (update_session f).
Proof. apply spends_modify. reflexivity. Qed.

Lemma spends_update_cursor f : spends 0 (update_cursor f).
Proof. apply spends_modify. reflexivity. Qed.

Lemma spends_while_true {S A} (k : nat) (body : S -> M (Ctl S A)) :
  (forall s, spends k (body s)) -> forall fuel s, spends k (while_true fuel body s).
Proof.
  intros Hbody. induction fuel as [|fuel IH]; intros s w a w' H; [discriminate H|].
  cbn [while_true] in H.
  destruct (body s w) as [[s1 | b] w1 | e w1 |] eqn:E; try discriminate H.
  - specialize (Hbody s w _ w1 E). specialize (IH s1 w1 a w' H). lia.
  - inversion H; subst. exact (Hbody s w _ w' E).
Qed.

Lemma spends_loop {S A} (k : nat) (body : S -> M (Ctl S A)) (s : S) :
  (forall s, spends k (body s)) -> spends k (loop body s).
Proof. intros Hbody w. apply (spends_while_true k body Hbody). Qed.

Lemma spends_for_each {A} (l : list A) (body : A -> M unit) :
  (forall x, spends 0 (body x)) -> spends 0 (for_each l body).
Proof.
  intros Hbody. induction l as [|x l IH]; cbn [for_each].
  - apply spends_ret.
  - apply spends_bind_0; [apply Hbody | intros _; exact IH].
Qed.

(** With a body that takes a reply each round, fuel above the number of
    replies left is never used up. *)
Lemma while_true_fuel {S A} (body : S -> M (Ctl S A)) :
  (forall s, spends 1 (body s)) ->
  forall (n m : nat) (s : S) (w : World),
    (List.length (remote w) < n)%nat -> (List.length (remote w) < m)%nat ->
    while_true n body s w = while_true m body s w.
Proof.
  intros Hbody. induction n as [|n IH]; intros m s w Hn Hm; [lia|].
  destruct m as [|m]; [lia|]. cbn [while_true].
  destruct (body s w) as [[s1 | b] w1 | e w1 |] eqn:E; try reflexivity.
  specialize (Hbody s w _ w1 E). apply IH; lia.
Qed.

Create HintDb spends.

#[local] Hint Resolve spends_ret spends_gets spends_lift spends_get_headers spends_sleep
  spends_self_session spends_update_session spends_update_cursor spends_raise : spends.

Ltac spends_step :=
  first
    [ solve [ auto with spends ]
    | apply spends_bind_0; [ | intro ]
    | apply spends_loop; intro
    | apply spends_for_each; intro
    | apply (spends_weaken 1 0); [ lia | solve [ auto with spends ] ]
    | match goal with
      | |- spends _ (match ?x with _ => _ end) => destruct x
      end
    | progress cbv zeta ].

Ltac spends_all := repeat spends_step.

#[local] Hint Resolve spends_send : spends.

Lemma spends_create_session data : spends 0 (LivySession.create_session data).
Proof.
  unfold LivySession.create_session, LivySession.create_session_poll. spends_all.
Qed.

Lemma spends_delete_session : spends 0 LivySession.delete_session.
Proof. unfold LivySession.delete_session. spends_all. Qed.

Lemma spends_is_valid_session : spends 0 LivySession.is_valid_session.
Proof. unfold LivySession.is_valid_session. spends_all. Qed.

Lemma spends_get_exist_session_body name session :
  spends 0 (LivySession.get_exist_session_body name session).
Proof.
  unfold LivySession.get_exist_session_body, LivySession.get_exist_session_poll. spends_all.
Qed.

#[local] Hint Resolve spends_create_session spends_delete_session spends_is_valid_session
  spends_get_exist_session_body : spends.

Lemma spends_connect credentials : spends 0 (LivySessionManager.connect credentials).
Proof.
  unfold LivySessionManager.connect, LivySession.get_exist_session_or_create,
    LivySession.get_exist_session, create_shortcuts.
  spends_all; apply spends_modify; reflexivity.
Qed.

#[local] Hint Resolve spends_connect : spends.

(** The bodies of the five loops take a reply each round. *)
Lemma create_session_poll_spends u : spends 1 (LivySession.create_session_poll u).
Proof.
  unfold LivySession.create_session_poll.
  do 3 (apply spends_bind_later; [auto with spends | intro]).
  apply spends_bind_now; [apply spends_send | intro]. spends_all.
Qed.

Lemma get_exist_session_poll_spends session u :
  spends 1 (LivySession.get_exist_session_poll session u).
Proof.
  unfold LivySession.get_exist_session_poll.
  do 4 (apply spends_bind_later; [auto with spends | intro]).
  apply spends_bind_now; [apply spends_send | intro]. spends_all.
Qed.

Lemma submit_body_spends self data retries_time :
  spends 1 (LivyCursor._submitLivyCode_body self data retries_time).
Proof.
  unfold LivyCursor._submitLivyCode_body.
  do 2 (apply spends_bind_later; [auto with spends | intro]).
  apply spends_bind_now; [apply spends_send | intro]. spends_all.
Qed.

Lemma poll_body_spends self id u : spends 1 (LivyCursor._getLivyResult_body self id u).
Proof.
  unfold LivyCursor._getLivyResult_body.
  apply spends_bind_later; [auto with spends | intro]. cbv zeta.
  apply spends_bind_later; [auto with spends | intro].
  apply spends_bind_now; [apply spends_send | intro]. spends_all.
Qed.

Lemma submitLivyCode_spends code language : spends 1 (LivyCursor._submitLivyCode code language).
Proof.
  unfold LivyCursor._submitLivyCode.
  do 2 (apply spends_bind_later; [auto with spends | intro]).
  apply spends_bind_later; [spends_all; apply spends_update_cursor | intro].
  cbv zeta.
  do 2 (apply spends_bind_later; [auto with spends | intro]).
  apply spends_loop. intro. apply submit_body_spends.
Qed.

Lemma getLivyResult_spends res_obj : spends 1 (LivyCursor._getLivyResult res_obj).
Proof.
  unfold LivyCursor._getLivyResult.
  do 3 (apply spends_bind_later; [auto with spends | intro]).
  apply spends_loop. intro. apply poll_body_spends.
Qed.

Lemma execute_body_spends code language retries_time :
  spends 1 (LivyCursor.execute_body code language retries_time).
Proof.
  unfold LivyCursor.execute_body.
  apply spends_bind_now; [apply submitLivyCode_spends | intro].
  apply spends_bind_0; [apply (spends_weaken 1 0); [lia | apply getLivyResult_spends] | intro].
  spends_all.
Qed.

(** The rounds of [execute], of the submit loop and of the poll loop are
    the same under any bound above the number of replies left. *)
Lemma execute_loop_fuel (code language : string) (w : World) (n : nat) :
  (List.length (remote w) < n)%nat ->
  loop (LivyCursor.execute_body code language) 0 w
  = while_true n (LivyCursor.execute_body code language) 0 w.
Proof.
  intros Hn. unfold loop.
  apply (while_true_fuel _ (execute_body_spends code language)); lia.
Qed.

Lemma submit_loop_fuel self data (w : World) (n : nat) :
  (List.length (remote w) < n)%nat ->
  loop (LivyCursor._submitLivyCode_body self data) 0 w
  = while_true n (LivyCursor._submitLivyCode_body self data) 0 w.
Proof.
  intros Hn. unfold loop.
  apply (while_true_fuel _ (submit_body_spends self data)); lia.
Qed.

Lemma poll_loop_fuel self id (w : World) (n : nat) :
  (List.length (remote w) < n)%nat ->
  loop (LivyCursor._getLivyResult_body self id) tt w
  = while_true n (LivyCursor._getLivyResult_body self id) tt w.
Proof.
  intros Hn. unfold loop.
  apply (while_true_fuel _ (poll_body_spends self id)); lia.
Qed.

(** * Further properties *)

(** ** The cursor's buffer *)

Lemma fetchone_row (w : World) (row : json) (rest : list json) :
  _rows (cursor w) = JArr (row :: rest) ->
  LivyCursor.fetchone w = Ok row (set_cursor (with_rows (JArr rest) (cursor w)) w).
Proof.
  intros H. unfold LivyCursor.fetchone. rewrite bind_run. cbn [gets]. rewrite H. reflexivity.
Qed.

Lemma fetchone_empty (w : World) :
  _rows (cursor w) = JArr [] -> LivyCursor.fetchone w = Ok JNull w.
Proof.
  intros H. unfold LivyCursor.fetchone. rewrite bind_run. cbn [gets]. rewrite H. reflexivity.
Qed.

(** X1: on a cursor holding N rows, N+1 calls of [fetchone] return the rows
    in the order they were buffered and then [None]; the buffer is left
    empty, the schema is untouched and no request is sent. *)
Theorem fetchone_drains_rows_in_order (rows : list json) :
  forall (w : World),
    _rows (cursor w) = JArr rows ->
    exists w',
      fetch_n (Datatypes.S (List.length rows)) w = Ok (rows ++ [JNull])%list w'
      /\ _rows (cursor w') = JArr []
      /\ _schema (cursor w') = _schema (cursor w)
      /\ trace w' = trace w
      /\ remote w' = remote w.
Proof.
  induction rows as [|row rest IH]; intros w H.
  - cbn [List.length fetch_n]. rewrite bind_run, (fetchone_empty w H).
    rewrite bind_run. cbn [ret]. exists w. auto.
  - cbn [List.length]. change (fetch_n (Datatypes.S (Datatypes.S (List.length rest))))
      with (row' <- LivyCursor.fetchone ;;
            rows' <- fetch_n (Datatypes.S (List.length rest)) ;;
            ret (row' :: rows')).
    rewrite bind_run, (fetchone_row w row rest H).
    destruct (IH (set_cursor (with_rows (JArr rest) (cursor w)) w) eq_refl)
      as (w' & Hrun & Hrows & Hschema & Htrace & Hremote).
    rewrite bind_run, Hrun. cbn [ret]. exists w'. auto.
Qed.

Lemma fetchone_drains_rows_in_order_witness :
  exists w',
    fetch_n 2 (Fixture.ready []) = Ok [JArr [JNum 1]; JNull] w'
    /\ _rows (cursor w') = JArr [].
Proof.
  destruct (fetchone_drains_rows_in_order [JArr [JNum 1]] (Fixture.ready []) eq_refl)
    as (w' & Hrun & Hrows & _).
  exists w'. split; [exact Hrun | exact Hrows].
Defined.

Lemma describe_fields (fields : list json) (ds : list Descriptor) :
  Forall2 describes fields ds ->
  mapM (fun field =>
          name <~ getitem field "name" ;;
          type <~ getitem field "type" ;;
          nullable <~ getitem field "nullable" ;;
          inr (name, type, JNull, JNull, JNull, JNull, nullable)) fields
  = inr ds.
Proof.
  induction 1 as [|field d fields ds (name & type & nullable & Hn & Ht & Hl & ->) _ IH].
  - reflexivity.
  - cbn [mapM]. rewrite Hn, Ht, Hl. cbn [ebind]. rewrite IH. reflexivity.
Qed.

(** X2: [description] turns a schema, a list of fields with the keys
    ["name"], ["type"] and ["nullable"], into one 7-tuple
    [(name, type, None, None, None, None, nullable)] per field, in schema
    order, and leaves the process as it was. *)
Theorem description_lists_fields_in_order (w : World) (fields : list json)
    (ds : list Descriptor) :
  _schema (cursor w) = JArr fields ->
  Forall2 describes fields ds ->
  LivyCursor.description w = Ok ds w.
Proof.
  intros Hs Hd. unfold LivyCursor.description. rewrite bind_run. cbn [gets].
  rewrite Hs. cbn [py_iter lift]. rewrite bind_run. cbn [ret].
  rewrite (describe_fields _ _ Hd). reflexivity.
Qed.

Lemma description_lists_fields_in_order_witness :
  LivyCursor.description (Fixture.ready [])
  = Ok [(JStr "a", JStr "int", JNull, JNull, JNull, JNull, JBool true)] (Fixture.ready []).
Proof.
  apply (description_lists_fields_in_order (Fixture.ready [])
           [JObj [("name", JStr "a"); ("type", JStr "int"); ("nullable", JBool true)]]).
  - reflexivity.
  - constructor; [|constructor].
    exists (JStr "a"), (JStr "int"), (JBool true). repeat split.
Defined.

(** X3: one field without one of the three keys makes the whole
    [description] raise the lookup's exception, whatever the fields before
    and after it are like; the cursor is not changed. *)
Theorem description_raises_on_malformed_field (w : World) (good : list json)
    (ds : list Descriptor) (bad : json) (rest : list json) (e : exn) :
  _schema (cursor w) = JArr (good ++ bad :: rest) ->
  Forall2 describes good ds ->
  undescribable bad e ->
  LivyCursor.description w = Raise e w.
Proof.
  intros Hs Hd Hbad. unfold LivyCursor.description. rewrite bind_run. cbn [gets].
  rewrite Hs. cbn [py_iter lift]. rewrite bind_run. cbn [ret].
  match goal with |- lift ?m w = _ => assert (Hm : m = inl e) end.
  { clear Hs. induction Hd as [|field d fields ds' (name & type & nullable & Hn & Ht & Hl & ->) _ IH].
    - cbn [app mapM].
      destruct Hbad as [Hn | [(name & Hn & Ht) | (name & type & Hn & Ht & Hl)]].
      + rewrite Hn. reflexivity.
      + rewrite Hn, Ht. reflexivity.
      + rewrite Hn, Ht, Hl. reflexivity.
    - cbn [app mapM]. rewrite Hn, Ht, Hl. cbn [ebind]. rewrite IH. reflexivity. }
  rewrite Hm. reflexivity.
Qed.

Lemma description_raises_on_malformed_field_witness :
  LivyCursor.description
    (set_cursor (with_schema (JArr [JObj [("name", JStr "a"); ("type", JStr "int")]])
                             (Fixture.a_cursor (JStr "s1")))
                (Fixture.ready []))
  = Raise (KeyError "nullable")
      (set_cursor (with_schema (JArr [JObj [("name", JStr "a"); ("type", JStr "int")]])
                               (Fixture.a_cursor (JStr "s1")))
                  (Fixture.ready [])).
Proof.
  apply (description_raises_on_malformed_field _ [] []
           (JObj [("name", JStr "a"); ("type", JStr "int")]) []).
  - reflexivity.
  - constructor.
  - right. right. exists (JStr "a"), (JStr "int"). repeat split.
Defined.



(** ** Session teardown and reuse *)

Lemma self_session_run (w : World) (s : LivySession) :
  livy_global_session w = Some s -> self_session w = Ok s w.
Proof. intros H. unfold self_session, bind, gets. rewrite H. reflexivity. Qed.

Lemma is_valid_session_run (w : World) (s : LivySession) sid r rest st :
  livy_global_session w = Some s ->
  ls_session_id s = JStr sid ->
  remote w = r :: rest ->
  current_state r st ->
  LivySession.is_valid_session w
  = Ok (negb (json_in_strs st LivySession.invalid_states))
       (after_request (ls_credential s) GET (session_url s sid) None rest w).
Proof.
  intros Hs Hsid Hr (resp & j & info & -> & Hb & Hi & Hc).
  unfold LivySession.is_valid_session.
  rewrite bind_run, (self_session_run _ _ Hs).
  rewrite Hsid. cbn [str_add lift]. rewrite bind_run. cbn [ret].
  rewrite bind_run, get_headers_run.
  rewrite bind_run, (send_run GET _ _ (refreshed _ w) _ _ Hr).
  cbn [reply_json]. unfold response_json. rewrite Hb. cbn [lift].
  rewrite bind_run. cbn [ret]. rewrite Hi. cbn [lift]. rewrite bind_run. cbn [ret].
  rewrite Hc. cbn [lift]. rewrite bind_run. cbn [ret]. reflexivity.
Qed.

Lemma delete_session_run (w : World) (s : LivySession) sid r rest :
  livy_global_session w = Some s ->
  ls_session_id s = JStr sid ->
  remote w = r :: rest ->
  LivySession.delete_session w
  = Ok tt (after_request (ls_credential s) DELETE (session_url s sid) None rest w).
Proof.
  intros Hs Hsid Hr. unfold LivySession.delete_session.
  rewrite bind_run, (self_session_run _ _ Hs).
  rewrite Hsid. cbn [str_add].
  rewrite bind_run, get_headers_run.
  rewrite bind_run, (send_run DELETE _ _ (refreshed _ w) _ _ Hr).
  destruct r as [e | resp]; [reflexivity|].
  destruct (status_code resp =? 200); reflexivity.
Qed.

(** X5: [delete_session] never raises. Whatever comes back for the DELETE,
    a transport failure or a response of any status, it returns after that
    one request; with no session id to build the URL from it returns without
    sending anything; and when the remote does not answer it does not
    return at all. *)
Theorem delete_session_never_raises (w : World) (s : LivySession) :
  livy_global_session w = Some s ->
  (forall sid r rest,
      ls_session_id s = JStr sid -> remote w = r :: rest ->
      exists w', LivySession.delete_session w = Ok tt w'
                 /\ steps w w' rest [Request DELETE (session_url s sid) None])
  /\ ((forall sid, ls_session_id s <> JStr sid) -> LivySession.delete_session w = Ok tt w)
  /\ ((exists w', LivySession.delete_session w = Ok tt w')
      \/ LivySession.delete_session w = Stuck).
Proof.
  intros Hs. split; [|split].
  - intros sid r rest Hsid Hr. rewrite (delete_session_run _ _ _ _ _ Hs Hsid Hr).
    eexists. split; [reflexivity | apply steps_request].
  - intros Hnone. unfold LivySession.delete_session.
    rewrite bind_run, (self_session_run _ _ Hs).
    destruct (ls_session_id s) as [| | | | sid | |]; try reflexivity.
    exfalso. apply (Hnone sid). reflexivity.
  - destruct (ls_session_id s) as [| | | | sid | |] eqn:Hsid;
      try (left; exists w; unfold LivySession.delete_session;
           rewrite bind_run, (self_session_run _ _ Hs), Hsid; reflexivity).
    destruct (remote w) as [|r rest] eqn:Hr.
    + right. unfold LivySession.delete_session.
      rewrite bind_run, (self_session_run _ _ Hs), Hsid. cbn [str_add].
      rewrite bind_run, get_headers_run, bind_run. unfold send. cbn [remote refreshed].
      rewrite Hr. reflexivity.
    + left. rewrite (delete_session_run _ _ _ _ _ Hs Hsid Hr). eexists. reflexivity.
Qed.

Lemma delete_session_never_raises_witness :
  exists w',
    LivySession.delete_session (Fixture.ready [Failure ConnectionError]) = Ok tt w'
    /\ remote w' = [].
Proof.
  destruct (proj1 (delete_session_never_raises (Fixture.ready [Failure ConnectionError])
                     (Fixture.session (JStr "s1") false) eq_refl)
                  "s1" (Failure ConnectionError) [] eq_refl eq_refl)
    as (w' & Hrun & Hsteps).
  exists w'. split; [exact Hrun | apply Hsteps].
Defined.

(** X6: [disconnect] on a session that is configured to be kept, or that the
    remote reports as dead, shutting down or killed, sends the validity GET
    and nothing else: no DELETE goes out and the session object, its
    "new session required" flag included, is as before. *)
Theorem disconnect_keeps_session (w : World) (s : LivySession) (sid : string)
    (r : Reply) (rest : list Reply) (st : json) :
  livy_global_session w = Some s ->
  ls_session_id s = JStr sid ->
  remote w = r :: rest ->
  current_state r st ->
  keep_session (ls_credential s) = true
  \/ json_in_strs st LivySession.invalid_states = true ->
  exists w',
    LivySessionManager.disconnect w = Ok tt w'
    /\ steps w w' rest [Request GET (session_url s sid) None].
Proof.
  intros Hs Hsid Hr Hst Hkeep. unfold LivySessionManager.disconnect.
  rewrite bind_run, (is_valid_session_run _ _ _ _ _ _ Hs Hsid Hr Hst).
  destruct (json_in_strs st LivySession.invalid_states) eqn:Einv; cbn [negb].
  - rewrite bind_run. cbn [ret andb].
    eexists. split; [reflexivity | apply steps_request].
  - destruct Hkeep as [Hkeep | Hinv]; [|discriminate Hinv].
    unfold LivySession.is_keeping_session.
    rewrite bind_run, bind_run, (self_session_run _ s) by (cbn; exact Hs).
    cbn [ret]. rewrite Hkeep. cbn [andb negb].
    eexists. split; [reflexivity | apply steps_request].
Qed.

Lemma disconnect_keeps_session_witness :
  exists w',
    LivySessionManager.disconnect
      (Fixture.ready [Fixture.reply 200 (Fixture.session_state "dead" "dead");
                      Fixture.reply 200 JNull])
    = Ok tt w'
    /\ remote w' = [Fixture.reply 200 JNull].
Proof.
  destruct (disconnect_keeps_session
              (Fixture.ready [Fixture.reply 200 (Fixture.session_state "dead" "dead");
                              Fixture.reply 200 JNull])
              (Fixture.session (JStr "s1") false) "s1"
              (Fixture.reply 200 (Fixture.session_state "dead" "dead"))
              [Fixture.reply 200 JNull] (JStr "dead"))
    as (w' & Hrun & Hsteps).
  - reflexivity.
  - reflexivity.
  - reflexivity.
  - do 3 eexists. repeat split; reflexivity.
  - right. reflexivity.
  - exists w'. split; [exact Hrun | apply Hsteps].
Defined.

(** X7: [disconnect] on a session that is valid and not to be kept sends the
    validity GET and then the DELETE, and sets the "new session required"
    flag whatever the DELETE comes back with, a failure included; the
    session id stays. *)
Theorem disconnect_deletes_and_flags (w : World) (s : LivySession) (sid : string)
    (r d : Reply) (rest : list Reply) (st : json) :
  livy_global_session w = Some s ->
  ls_session_id s = JStr sid ->
  remote w = r :: d :: rest ->
  current_state r st ->
  json_in_strs st LivySession.invalid_states = false ->
  keep_session (ls_credential s) = false ->
  exists w',
    LivySessionManager.disconnect w = Ok tt w'
    /\ remote w' = rest
    /\ trace w' = (trace w ++ [Request GET (session_url s sid) None;
                               Request DELETE (session_url s sid) None])%list
    /\ livy_global_session w' = Some (with_new_session_required true s)
    /\ cursor w' = cursor w.
Proof.
  intros Hs Hsid Hr Hst Hvalid Hkeep. unfold LivySessionManager.disconnect.
  rewrite bind_run, (is_valid_session_run _ _ _ _ _ _ Hs Hsid Hr Hst).
  rewrite Hvalid. cbn [negb].
  unfold LivySession.is_keeping_session.
  rewrite bind_run, bind_run, (self_session_run _ s) by (cbn; exact Hs).
  cbn [ret]. rewrite Hkeep. cbn [andb negb].
  rewrite bind_run.
  rewrite (delete_session_run _ s sid d rest) by (cbn; auto).
  eexists. split; [reflexivity|]. cbn. rewrite Hs, <- app_assoc. auto.
Qed.

Lemma disconnect_deletes_and_flags_witness :
  exists w',
    LivySessionManager.disconnect
      (Fixture.ready [Fixture.reply 200 (Fixture.session_state "idle" "idle");
                      Failure Timeout])
    = Ok tt w'
    /\ livy_global_session w' = Some (Fixture.session (JStr "s1") true).
Proof.
  destruct (disconnect_deletes_and_flags
              (Fixture.ready [Fixture.reply 200 (Fixture.session_state "idle" "idle");
                              Failure Timeout])
              (Fixture.session (JStr "s1") false) "s1"
              (Fixture.reply 200 (Fixture.session_state "idle" "idle"))
              (Failure Timeout) [] (JStr "idle"))
    as (w' & Hrun & _ & _ & Hsess & _).
  - reflexivity.
  - reflexivity.
  - reflexivity.
  - do 3 eexists. repeat split; reflexivity.
  - reflexivity.
  - reflexivity.
  - exists w'. split; [exact Hrun | exact Hsess].
Defined.

(** X8: [connect] with a session that is valid and does not ask for a new one
    reuses it: one validity GET, no POST and no DELETE, the session object
    unchanged, and a connection for that session id with a cursor that
    holds no rows and no schema. *)
Theorem connect_reuses_valid_session (credentials : SparkCredentials) (w : World)
    (s : LivySession) (sid : string) (r : Reply) (rest : list Reply) (st : json) :
  livy_global_session w = Some s ->
  ls_session_id s = JStr sid ->
  is_new_session_required s = false ->
  remote w = r :: rest ->
  current_state r st ->
  json_in_strs st LivySession.invalid_states = false ->
  exists w',
    LivySessionManager.connect credentials w = Ok (LivyConnection__init__ credentials s) w'
    /\ steps w w' rest [Request GET (session_url s sid) None]
    /\ con_session_id (LivyConnection__init__ credentials s) = JStr sid
    /\ _rows (_cursor (LivyConnection__init__ credentials s)) = JNull
    /\ _schema (_cursor (LivyConnection__init__ credentials s)) = JNull.
Proof.
  intros Hs Hsid Hflag Hr Hst Hvalid. unfold LivySessionManager.connect. cbv zeta.
  rewrite bind_run. cbn [gets]. rewrite Hs.
  rewrite bind_run, bind_run, (is_valid_session_run _ _ _ _ _ _ Hs Hsid Hr Hst).
  rewrite Hvalid. cbn [negb].
  rewrite bind_run, (self_session_run _ s) by (cbn; exact Hs).
  rewrite Hflag. cbn [ret].
  rewrite bind_run, (self_session_run _ s) by (cbn; exact Hs).
  eexists. split; [reflexivity|]. split; [apply steps_request|].
  cbn. auto.
Qed.

Lemma connect_reuses_valid_session_witness :
  exists w',
    LivySessionManager.connect Fixture.credentials
      (Fixture.ready [Fixture.reply 200 (Fixture.session_state "idle" "busy")])
    = Ok (LivyConnection__init__ Fixture.credentials (Fixture.session (JStr "s1") false)) w'
    /\ remote w' = [].
Proof.
  destruct (connect_reuses_valid_session Fixture.credentials
              (Fixture.ready [Fixture.reply 200 (Fixture.session_state "idle" "busy")])
              (Fixture.session (JStr "s1") false) "s1"
              (Fixture.reply 200 (Fixture.session_state "idle" "busy")) [] (JStr "busy"))
    as (w' & Hrun & Hsteps & _).
  - reflexivity.
  - reflexivity.
  - reflexivity.
  - reflexivity.
  - do 3 eexists. repeat split; reflexivity.
  - reflexivity.
  - exists w'. split; [exact Hrun | apply Hsteps].
Defined.

(** ** Session creation *)

Lemma state_of_body (resp : Response) (st : json) :
  state_of resp = Some st ->
  exists j, body resp = Some j /\ getitem j "state" = inr st.
Proof.
  unfold state_of. destruct (body resp) as [j|]; [|discriminate].
  destruct (getitem j "state") as [e | st'] eqn:E; [discriminate|].
  intros H. inversion H; subst. eauto.
Qed.

(** How a session poll reads a starting reply and a settled one. *)
Lemma session_starting_read (r : Reply) :
  session_starting r ->
  exists res st, reply_json r = inr res /\ getitem res "state" = inr st
                 /\ json_eq_str st "starting" || json_eq_str st "not_started" = true.
Proof.
  intros (resp & -> & [H | H]); destruct (state_of_body _ _ H) as (j & Hb & Hst);
    exists j; eexists; (split; [cbn; unfold response_json; rewrite Hb; reflexivity|]);
    (split; [exact Hst | reflexivity]).
Qed.

Lemma session_settled_read (r : Reply) (cs : json) :
  session_settled r cs ->
  exists res st livyInfo,
    reply_json r = inr res /\ getitem res "state" = inr st
    /\ json_eq_str st "starting" || json_eq_str st "not_started" = false
    /\ getitem res "livyInfo" = inr livyInfo
    /\ getitem livyInfo "currentState" = inr cs.
Proof.
  intros [(resp & st & -> & Hs & H1 & H2) (resp' & j & info & Heq & Hb & Hi & Hc)].
  inversion Heq; subst resp'.
  destruct (state_of_body _ _ Hs) as (j' & Hb' & Hst).
  rewrite Hb in Hb'. inversion Hb'; subst j'.
  exists j, st, info. cbn [reply_json]. unfold response_json. rewrite Hb.
  rewrite (json_eq_str_false _ _ H1), (json_eq_str_false _ _ H2). auto.
Qed.

Lemma create_session_poll_starting (w : World) (s : LivySession) sid r rest :
  livy_global_session w = Some s ->
  ls_session_id s = JStr sid ->
  remote w = r :: rest ->
  session_starting r ->
  LivySession.create_session_poll tt w
  = Ok (Continue tt)
       (after_sleep 45 (after_request (ls_credential s) GET (session_url s sid) None rest w)).
Proof.
  intros Hs Hsid Hr Hst. destruct (session_starting_read _ Hst) as (res & st & Hj & Hg & Hb).
  unfold LivySession.create_session_poll.
  rewrite bind_run, (self_session_run _ _ Hs).
  rewrite Hsid. cbn [str_add lift]. rewrite bind_run. cbn [ret].
  rewrite bind_run, get_headers_run.
  rewrite bind_run, (send_run GET _ _ (refreshed _ w) _ _ Hr).
  rewrite Hj. cbn [lift]. rewrite bind_run. cbn [ret].
  rewrite Hg. cbn [lift]. rewrite bind_run. cbn [ret].
  rewrite Hb. reflexivity.
Qed.

Lemma create_session_poll_settled (w : World) (s : LivySession) sid r rest cs :
  livy_global_session w = Some s ->
  ls_session_id s = JStr sid ->
  remote w = r :: rest ->
  session_settled r cs ->
  let w1 := after_request (ls_credential s) GET (session_url s sid) None rest w in
  LivySession.create_session_poll tt w
  = if json_eq_str cs "idle"
    then Ok (Break tt) (set_livy_global_session (Some (with_new_session_required false s)) w1)
    else if json_eq_str cs "dead"
         then Raise AttributeError w1
         else Ok (Continue tt) w1.
Proof.
  intros Hs Hsid Hr Hst w1.
  destruct (session_settled_read _ _ Hst) as (res & st & info & Hj & Hg & Hb & Hi & Hc).
  unfold LivySession.create_session_poll.
  rewrite bind_run, (self_session_run _ _ Hs).
  rewrite Hsid. cbn [str_add lift]. rewrite bind_run. cbn [ret].
  rewrite bind_run, get_headers_run.
  rewrite bind_run, (send_run GET _ _ (refreshed _ w) _ _ Hr).
  rewrite Hj. cbn [lift]. rewrite bind_run. cbn [ret].
  rewrite Hg. cbn [lift]. rewrite bind_run. cbn [ret].
  rewrite Hb.
  rewrite Hi. cbn [lift]. rewrite bind_run. cbn [ret].
  rewrite Hc. cbn [lift]. rewrite bind_run. cbn [ret].
  destruct (json_eq_str cs "idle").
  - rewrite bind_run. unfold update_session, modify. cbn [livy_global_session after_request log set_remote refreshed].
    rewrite Hs. reflexivity.
  - destruct (json_eq_str cs "dead"); reflexivity.
Qed.

(** The poll loop of [create_session] goes through the replies that keep it
    polling and ends on [a]. *)
Lemma create_session_poll_loop (s : LivySession) sid (a : Reply) (cs : json) rest
    (pend : list (bool * Reply)) :
  ls_session_id s = JStr sid ->
  session_settled a cs ->
  cs = JStr "idle" \/ cs = JStr "dead" ->
  Forall (polls_again true) pend ->
  forall (fuel : nat) (w : World),
    (List.length pend < fuel)%nat ->
    livy_global_session w = Some s ->
    remote w = (map snd pend ++ a :: rest)%list ->
    exists w1,
      steps w w1 rest (session_poll_trace (session_url s sid) pend)
      /\ while_true fuel LivySession.create_session_poll tt w
         = if json_eq_str cs "idle"
           then Ok tt (set_livy_global_session (Some (with_new_session_required false s)) w1)
           else Raise AttributeError w1.
Proof.
  intros Hsid Ha Hcs Hpend.
  induction Hpend as [|[sleeps r] pend Hr Hpend IH]; intros fuel w Hfuel Hs Hw.
  - rewrite while_true_step by lia.
    rewrite (create_session_poll_settled _ _ _ _ _ _ Hs Hsid Hw Ha).
    eexists. split; [apply steps_request|].
    destruct Hcs as [-> | ->]; reflexivity.
  - cbn [List.length map snd app] in *. rewrite while_true_step by lia.
    destruct sleeps; cbn [polls_again fst snd] in Hr.
    + rewrite (create_session_poll_starting _ _ _ _ _ Hs Hsid Hw Hr).
      destruct (IH (Nat.pred fuel)
                   (after_sleep 45 (after_request (ls_credential s) GET (session_url s sid)
                                      None (map snd pend ++ a :: rest) w)))
        as (w1 & Hsteps & Hrun); [lia | exact Hs | reflexivity |].
      exists w1. split; [|exact Hrun].
      cbn [session_poll_trace].
      change (Request GET (session_url s sid) None :: [Sleep DEFAULT_POLL_WAIT])
        with ([Request GET (session_url s sid) None] ++ [Sleep 45])%list.
      eapply steps_trans; [|exact Hsteps].
      eapply steps_trans; [apply steps_request | apply steps_sleep].
    + destruct Hr as (cs' & Hset & Hni & Hnd).
      rewrite (create_session_poll_settled _ _ _ _ _ _ Hs Hsid Hw Hset).
      rewrite (json_eq_str_false _ _ Hni), (json_eq_str_false _ _ (Hnd eq_refl)).
      destruct (IH (Nat.pred fuel)
                   (after_request (ls_credential s) GET (session_url s sid)
                                  None (map snd pend ++ a :: rest) w))
        as (w1 & Hsteps & Hrun); [lia | exact Hs | reflexivity |].
      exists w1. split; [|exact Hrun].
      cbn [session_poll_trace].
      eapply steps_trans; [apply steps_request | exact Hsteps].
Qed.

(** [create_session] from the answered POST to the end of the poll loop. *)
Lemma create_session_run (data : json) (w : World) (s : LivySession) (r : Response)
    (j id : json) (pend : list (bool * Reply)) (a : Reply) (cs : json) (rest : list Reply) :
  livy_global_session w = Some s ->
  remote w = (Answer r :: map snd pend ++ a :: rest)%list ->
  body r = Some j ->
  getitem j "id" = inr id ->
  Forall (polls_again true) pend ->
  session_settled a cs ->
  cs = JStr "idle" \/ cs = JStr "dead" ->
  let created := with_session_id (JStr (py_str id)) s in
  exists w',
    LivySession.create_session data w
    = (if json_eq_str cs "idle"
       then Ok (JStr (py_str id)) w'
       else Raise AttributeError w')
    /\ remote w' = rest
    /\ trace w' = (trace w ++ Request POST (ls_connect_url s ++ "/sessions") (Some data)
                   :: session_poll_trace (session_url s (py_str id)) pend)%list
    /\ livy_global_session w'
       = Some (if json_eq_str cs "idle" then with_new_session_required false created
               else created)
    /\ cursor w' = cursor w.
Proof.
  intros Hs Hr Hb Hid Hpend Ha Hcs created.
  unfold LivySession.create_session.
  rewrite bind_run, (self_session_run _ _ Hs).
  rewrite bind_run, get_headers_run.
  rewrite bind_run, (send_run POST _ _ (refreshed _ w) _ _ Hr).
  cbv zeta.
  assert (Hresp : match raise_for_status r with Some _ => Some r | None => Some r end = Some r)
    by (destruct (raise_for_status r); reflexivity).
  rewrite Hresp.
  rewrite bind_run. unfold update_session at 1. cbn [modify].
  unfold response_json. rewrite Hb, Hid. cbn [lift].
  rewrite bind_run. cbn [ret].
  rewrite bind_run. unfold update_session at 1. cbn [modify].
  cbn [livy_global_session set_livy_global_session log set_remote refreshed option_map].
  rewrite Hs. cbn [option_map].
  match goal with
  | |- context [bind (loop _ tt) _ ?w0] =>
      destruct (create_session_poll_loop created (py_str id) a cs rest pend
                  eq_refl Ha Hcs Hpend
                  (Datatypes.S (List.length (remote w0))) w0)
        as (w1 & (Hr1 & Ht1 & Hs1 & Hc1) & Hloop);
      [cbn [remote set_livy_global_session log set_remote]; rewrite length_app, length_map; lia
      | reflexivity | reflexivity |]
  end.
  rewrite bind_run. unfold loop. rewrite Hloop.
  destruct Hcs as [-> | ->]; cbn [json_eq_str String.eqb Ascii.eqb Bool.eqb].
  - rewrite bind_run. unfold self_session at 1. rewrite bind_run. cbn [gets livy_global_session set_livy_global_session ret].
    eexists. split; [reflexivity|]. cbn [remote trace livy_global_session cursor set_livy_global_session].
    rewrite Hr1, Ht1, Hc1. cbn. rewrite <- app_assoc. auto.
  - eexists. split; [reflexivity|].
    rewrite Hr1, Ht1, Hs1, Hc1. cbn. rewrite <- app_assoc. auto.
Qed.

(** X9: [create_session] whose POST is answered with a JSON body carrying an
    id keeps the text of that id as session id and polls the new session:
    it sleeps 45 seconds after every reply that shows the session starting,
    asks again at once after a reply that is neither idle nor dead, and on
    the idle reply returns the id and clears the "new session required"
    flag. *)
Theorem create_session_waits_for_idle (data : json) (w : World) (s : LivySession)
    (r : Response) (j id : json) (pend : list (bool * Reply)) (a : Reply)
    (rest : list Reply) :
  livy_global_session w = Some s ->
  remote w = (Answer r :: map snd pend ++ a :: rest)%list ->
  body r = Some j ->
  getitem j "id" = inr id ->
  Forall (polls_again true) pend ->
  session_settled a (JStr "idle") ->
  exists w',
    LivySession.create_session data w = Ok (JStr (py_str id)) w'
    /\ remote w' = rest
    /\ trace w' = (trace w ++ Request POST (ls_connect_url s ++ "/sessions") (Some data)
                   :: session_poll_trace (session_url s (py_str id)) pend)%list
    /\ livy_global_session w'
       = Some (mkLivySession (ls_credential s) (ls_connect_url s) (JStr (py_str id)) false)
    /\ cursor w' = cursor w.
Proof.
  intros Hs Hr Hb Hid Hpend Ha.
  destruct (create_session_run data w s r j id pend a (JStr "idle") rest
              Hs Hr Hb Hid Hpend Ha (or_introl eq_refl)) as (w' & Hrun & H).
  exists w'. split; [exact Hrun | exact H].
Qed.

Lemma create_session_waits_for_idle_witness :
  exists w',
    LivySession.create_session (JObj [])
      (Fixture.fresh [Fixture.reply 200 (JObj [("id", JNum 7)]);
                      Fixture.reply 200 (Fixture.session_state "starting" "starting");
                      Fixture.reply 200 (Fixture.session_state "busy" "busy");
                      Fixture.reply 200 (Fixture.session_state "idle" "idle")])
    = Ok (JStr "7") w'
    /\ trace w' = [Request POST "https://fabric/livy/sessions" (Some (JObj []));
                   Request GET "https://fabric/livy/sessions/7" None; Sleep 45;
                   Request GET "https://fabric/livy/sessions/7" None;
                   Request GET "https://fabric/livy/sessions/7" None].
Proof.
  destruct (create_session_waits_for_idle (JObj [])
              (Fixture.fresh [Fixture.reply 200 (JObj [("id", JNum 7)]);
                              Fixture.reply 200 (Fixture.session_state "starting" "starting");
                              Fixture.reply 200 (Fixture.session_state "busy" "busy");
                              Fixture.reply 200 (Fixture.session_state "idle" "idle")])
              (Fixture.session JNull true)
              (mkResponse 200 (Some (JObj [("id", JNum 7)]))) (JObj [("id", JNum 7)]) (JNum 7)
              [(true, Fixture.reply 200 (Fixture.session_state "starting" "starting"));
               (false, Fixture.reply 200 (Fixture.session_state "busy" "busy"))]
              (Fixture.reply 200 (Fixture.session_state "idle" "idle")) [])
    as (w' & Hrun & _ & Htrace & _).
  - reflexivity.
  - reflexivity.
  - reflexivity.
  - reflexivity.
  - constructor; [|constructor; [|constructor]].
    + eexists. split; [reflexivity | left; reflexivity].
    + exists (JStr "busy"). split; [|split; [discriminate | intros _; discriminate]].
      split; [do 2 eexists; split; [reflexivity|]; split; [reflexivity|]; split; discriminate|].
      do 3 eexists. repeat split; reflexivity.
  - split; [do 2 eexists; split; [reflexivity|]; split; [reflexivity|]; split; discriminate|].
    do 3 eexists. repeat split; reflexivity.
  - exists w'. split; [exact Hrun | exact Htrace].
Defined.

(** X10: when a poll of the new session shows it dead, [create_session]
    raises at that reply, without reading any further one; the session
    object keeps the dead session's id and its "new session required" flag
    is not cleared. The exception is [AttributeError]: the code means to
    raise [dbt.exceptions.FailedToConnectException], a name [dbt.exceptions]
    does not have. *)
Theorem create_session_fails_on_dead (data : json) (w : World) (s : LivySession)
    (r : Response) (j id : json) (pend : list (bool * Reply)) (a : Reply)
    (rest : list Reply) :
  livy_global_session w = Some s ->
  remote w = (Answer r :: map snd pend ++ a :: rest)%list ->
  body r = Some j ->
  getitem j "id" = inr id ->
  Forall (polls_again true) pend ->
  session_settled a (JStr "dead") ->
  exists w',
    LivySession.create_session data w
    = Raise AttributeError w'
    /\ remote w' = rest
    /\ trace w' = (trace w ++ Request POST (ls_connect_url s ++ "/sessions") (Some data)
                   :: session_poll_trace (session_url s (py_str id)) pend)%list
    /\ livy_global_session w'
       = Some (mkLivySession (ls_credential s) (ls_connect_url s) (JStr (py_str id))
                             (is_new_session_required s)).
Proof.
  intros Hs Hr Hb Hid Hpend Ha.
  destruct (create_session_run data w s r j id pend a (JStr "dead") rest
              Hs Hr Hb Hid Hpend Ha (or_intror eq_refl)) as (w' & Hrun & Hrest & Ht & Hsess & _).
  exists w'. auto.
Qed.

Lemma create_session_fails_on_dead_witness :
  exists w',
    LivySession.create_session (JObj [])
      (Fixture.fresh [Fixture.reply 200 (JObj [("id", JStr "n1")]);
                      Fixture.reply 200 (Fixture.session_state "dead" "dead");
                      Fixture.reply 200 (Fixture.session_state "idle" "idle")])
    = Raise AttributeError w'
    /\ remote w' = [Fixture.reply 200 (Fixture.session_state "idle" "idle")].
Proof.
  destruct (create_session_fails_on_dead (JObj [])
              (Fixture.fresh [Fixture.reply 200 (JObj [("id", JStr "n1")]);
                              Fixture.reply 200 (Fixture.session_state "dead" "dead");
                              Fixture.reply 200 (Fixture.session_state "idle" "idle")])
              (Fixture.session JNull true)
              (mkResponse 200 (Some (JObj [("id", JStr "n1")]))) (JObj [("id", JStr "n1")])
              (JStr "n1") []
              (Fixture.reply 200 (Fixture.session_state "dead" "dead"))
              [Fixture.reply 200 (Fixture.session_state "idle" "idle")])
    as (w' & Hrun & Hrest & _).
  - reflexivity.
  - reflexivity.
  - reflexivity.
  - reflexivity.
  - constructor.
  - split; [do 2 eexists; split; [reflexivity|]; split; [reflexivity|]; split; discriminate|].
    do 3 eexists. repeat split; reflexivity.
  - exists w'. split; [exact Hrun | exact Hrest].
Defined.

(** X11: when the answer to the POST has no usable session id,
    [create_session] raises right after the POST, before any poll, and
    leaves [session_id] reset to [None]: the exception of the ["id"] lookup
    for a JSON body without it, and "Json decode error to get session_id"
    for a body that is not JSON. *)
Theorem create_session_without_id (data : json) (w : World) (s : LivySession)
    (r : Response) (rest : list Reply) (e : exn) :
  livy_global_session w = Some s ->
  remote w = Answer r :: rest ->
  no_session_id r e ->
  exists w',
    LivySession.create_session data w = Raise e w'
    /\ remote w' = rest
    /\ trace w' = (trace w ++ [Request POST (ls_connect_url s ++ "/sessions") (Some data)])%list
    /\ livy_global_session w' = Some (with_session_id JNull s).
Proof.
  intros Hs Hr He.
  unfold LivySession.create_session.
  rewrite bind_run, (self_session_run _ _ Hs).
  rewrite bind_run, get_headers_run.
  rewrite bind_run, (send_run POST _ _ (refreshed _ w) _ _ Hr).
  cbv zeta.
  assert (Hresp : match raise_for_status r with Some _ => Some r | None => Some r end = Some r)
    by (destruct (raise_for_status r); reflexivity).
  rewrite Hresp.
  rewrite bind_run. unfold update_session at 1. cbn [modify].
  unfold response_json.
  destruct He as [[Hb ->] | (j & Hb & Hid)]; rewrite Hb.
  - rewrite bind_run.
    eexists. split; [reflexivity|]. cbn. rewrite Hs. auto.
  - rewrite Hid. cbn [lift]. rewrite bind_run.
    eexists. split; [reflexivity|]. cbn. rewrite Hs. auto.
Qed.

Lemma create_session_without_id_witness :
  exists w',
    LivySession.create_session (JObj [])
      (Fixture.fresh [Fixture.reply 401 (JObj [("message", JStr "unauthorized")])])
    = Raise (KeyError "id") w'
    /\ remote w' = [].
Proof.
  destruct (create_session_without_id (JObj [])
              (Fixture.fresh [Fixture.reply 401 (JObj [("message", JStr "unauthorized")])])
              (Fixture.session JNull true)
              (mkResponse 401 (Some (JObj [("message", JStr "unauthorized")]))) []
              (KeyError "id"))
    as (w' & Hrun & Hrest & _).
  - reflexivity.
  - reflexivity.
  - right. eexists. split; reflexivity.
  - exists w'. split; [exact Hrun | exact Hrest].
Defined.

(** ** Session discovery *)

Lemma get_exist_session_poll_starting (session : json) (w : World) (s : LivySession)
    mid r rest :
  livy_global_session w = Some s ->
  getitem session "id" = inr (JStr mid) ->
  remote w = r :: rest ->
  session_starting r ->
  LivySession.get_exist_session_poll session tt w
  = Ok (Continue tt)
       (after_sleep 45 (after_request (ls_credential s) GET (session_url s mid) None rest w)).
Proof.
  intros Hs Hid Hr Hst. destruct (session_starting_read _ Hst) as (res & st & Hj & Hg & Hb).
  unfold LivySession.get_exist_session_poll.
  rewrite bind_run, (self_session_run _ _ Hs).
  rewrite Hid. cbn [lift]. rewrite bind_run. cbn [ret str_add lift].
  rewrite bind_run. cbn [ret].
  rewrite bind_run, get_headers_run.
  rewrite bind_run, (send_run GET _ _ (refreshed _ w) _ _ Hr).
  rewrite Hj. cbn [lift]. rewrite bind_run. cbn [ret].
  rewrite Hg. cbn [lift]. rewrite bind_run. cbn [ret].
  rewrite Hb. reflexivity.
Qed.

Lemma get_exist_session_poll_settled (session : json) (w : World) (s : LivySession)
    mid r rest cs :
  livy_global_session w = Some s ->
  getitem session "id" = inr (JStr mid) ->
  remote w = r :: rest ->
  session_settled r cs ->
  let w1 := after_request (ls_credential s) GET (session_url s mid) None rest w in
  LivySession.get_exist_session_poll session tt w
  = if json_eq_str cs "idle"
    then Ok (Break tt) (set_livy_global_session (Some (with_session_id (JStr mid) s)) w1)
    else Ok (Continue tt) w1.
Proof.
  intros Hs Hid Hr Hst w1.
  destruct (session_settled_read _ _ Hst) as (res & st & info & Hj & Hg & Hb & Hi & Hc).
  unfold LivySession.get_exist_session_poll.
  rewrite bind_run, (self_session_run _ _ Hs).
  rewrite Hid. cbn [lift]. rewrite bind_run. cbn [ret str_add lift].
  rewrite bind_run. cbn [ret].
  rewrite bind_run, get_headers_run.
  rewrite bind_run, (send_run GET _ _ (refreshed _ w) _ _ Hr).
  rewrite Hj. cbn [lift]. rewrite bind_run. cbn [ret].
  rewrite Hg. cbn [lift]. rewrite bind_run. cbn [ret].
  rewrite Hb.
  rewrite Hi. cbn [lift]. rewrite bind_run. cbn [ret].
  rewrite Hc. cbn [lift]. rewrite bind_run. cbn [ret].
  destruct (json_eq_str cs "idle"); [|reflexivity].
  rewrite bind_run. cbn [ret]. rewrite bind_run. unfold update_session, modify.
  cbn [livy_global_session after_request log set_remote refreshed].
  rewrite Hs. reflexivity.
Qed.

Lemma get_exist_session_poll_loop (session : json) (s : LivySession) mid (a : Reply) rest
    (pend : list (bool * Reply)) :
  getitem session "id" = inr (JStr mid) ->
  session_settled a (JStr "idle") ->
  Forall (polls_again false) pend ->
  forall (fuel : nat) (w : World),
    (List.length pend < fuel)%nat ->
    livy_global_session w = Some s ->
    remote w = (map snd pend ++ a :: rest)%list ->
    exists w1,
      steps w w1 rest (session_poll_trace (session_url s mid) pend)
      /\ while_true fuel (LivySession.get_exist_session_poll session) tt w
         = Ok tt (set_livy_global_session (Some (with_session_id (JStr mid) s)) w1).
Proof.
  intros Hid Ha Hpend.
  induction Hpend as [|[sleeps r] pend Hr Hpend IH]; intros fuel w Hfuel Hs Hw.
  - rewrite while_true_step by lia.
    rewrite (get_exist_session_poll_settled _ _ _ _ _ _ _ Hs Hid Hw Ha).
    eexists. split; [apply steps_request | reflexivity].
  - cbn [List.length map snd app] in *. rewrite while_true_step by lia.
    destruct sleeps; cbn [polls_again fst snd] in Hr.
    + rewrite (get_exist_session_poll_starting _ _ _ _ _ _ Hs Hid Hw Hr).
      destruct (IH (Nat.pred fuel)
                   (after_sleep 45 (after_request (ls_credential s) GET (session_url s mid)
                                      None (map snd pend ++ a :: rest) w)))
        as (w1 & Hsteps & Hrun); [lia | exact Hs | reflexivity |].
      exists w1. split; [|exact Hrun].
      cbn [session_poll_trace].
      change (Request GET (session_url s mid) None :: [Sleep DEFAULT_POLL_WAIT])
        with ([Request GET (session_url s mid) None] ++ [Sleep 45])%list.
      eapply steps_trans; [|exact Hsteps].
      eapply steps_trans; [apply steps_request | apply steps_sleep].
    + destruct Hr as (cs' & Hset & Hni & _).
      rewrite (get_exist_session_poll_settled _ _ _ _ _ _ _ Hs Hid Hw Hset).
      rewrite (json_eq_str_false _ _ Hni).
      destruct (IH (Nat.pred fuel)
                   (after_request (ls_credential s) GET (session_url s mid)
                                  None (map snd pend ++ a :: rest) w))
        as (w1 & Hsteps & Hrun); [lia | exact Hs | reflexivity |].
      exists w1. split; [|exact Hrun].
      cbn [session_poll_trace].
      eapply steps_trans; [apply steps_request | exact Hsteps].
Qed.

Lemma get_exist_session_body_skipped (name : string) (session : json) (w : World) :
  skipped name session ->
  LivySession.get_exist_session_body name session w = Ok tt w.
Proof.
  intros [(n & Hn & Hne) | (Hn & ls & Hl & Hinv)]; unfold LivySession.get_exist_session_body.
  - rewrite Hn. cbn [lift]. rewrite bind_run. cbn [ret].
    rewrite (json_eq_str_false _ _ Hne). reflexivity.
  - exact (get_exist_session_skips_invalid name session ls w Hn Hl Hinv).
Qed.

Lemma for_each_skipped (name : string) (sessions : list json) (w : World) :
  Forall (skipped name) sessions ->
  for_each sessions (LivySession.get_exist_session_body name) w = Ok tt w.
Proof.
  induction 1 as [|session sessions Hsk _ IH]; [reflexivity|].
  cbn [for_each]. rewrite bind_run, (get_exist_session_body_skipped _ _ _ Hsk). exact IH.
Qed.

Lemma get_exist_session_listing (w : World) (s : LivySession) (name : string)
    (r : Reply) (rest : list Reply) (sessions : list json) :
  livy_global_session w = Some s ->
  livy_session_name (ls_credential s) = Some name ->
  remote w = r :: rest ->
  listing r sessions ->
  LivySession.get_exist_session w
  = bind (for_each sessions (LivySession.get_exist_session_body name))
         (fun _ => self <- self_session ;; ret (ls_session_id self))
         (after_request (ls_credential s) GET (ls_connect_url s ++ "/sessions") None rest w).
Proof.
  intros Hs Hname Hr (resp & j & -> & Hb & Hitems).
  unfold LivySession.get_exist_session.
  rewrite bind_run, (self_session_run _ _ Hs). rewrite Hname.
  rewrite bind_run, get_headers_run.
  rewrite bind_run, (send_run GET _ _ (refreshed _ w) _ _ Hr).
  cbn [reply_json]. unfold response_json. rewrite Hb. cbn [lift].
  rewrite bind_run. cbn [ret]. rewrite Hitems. cbn [lift].
  rewrite bind_run. cbn [ret py_iter lift]. rewrite bind_run. cbn [ret].
  reflexivity.
Qed.

(** X12: when no listed session is a live match, each one having another
    name or being dead, shutting down or killed, [get_exist_session] sends
    the listing request and no other, and returns the session id the object
    had before, [None] on a new one. *)
Theorem get_exist_session_without_live_match (w : World) (s : LivySession) (name : string)
    (r : Reply) (rest : list Reply) (sessions : list json) :
  livy_global_session w = Some s ->
  livy_session_name (ls_credential s) = Some name ->
  remote w = r :: rest ->
  listing r sessions ->
  Forall (skipped name) sessions ->
  exists w',
    LivySession.get_exist_session w = Ok (ls_session_id s) w'
    /\ steps w w' rest [Request GET (ls_connect_url s ++ "/sessions") None].
Proof.
  intros Hs Hname Hr Hl Hsk.
  rewrite (get_exist_session_listing _ _ _ _ _ _ Hs Hname Hr Hl).
  rewrite bind_run, (for_each_skipped _ _ _ Hsk).
  rewrite bind_run, (self_session_run _ s) by (cbn; exact Hs).
  eexists. split; [reflexivity | apply steps_request].
Qed.

Lemma get_exist_session_without_live_match_witness :
  exists w',
    LivySession.get_exist_session
      (Fixture.fresh [Fixture.reply 200
                        (JObj [("items", JArr [Fixture.listed "A" "other" "idle";
                                               Fixture.listed "B" "dbt" "dead"])])])
    = Ok JNull w'
    /\ remote w' = [].
Proof.
  destruct (get_exist_session_without_live_match
              (Fixture.fresh [Fixture.reply 200
                                (JObj [("items", JArr [Fixture.listed "A" "other" "idle";
                                                       Fixture.listed "B" "dbt" "dead"])])])
              (Fixture.session JNull true) "dbt"
              (Fixture.reply 200
                 (JObj [("items", JArr [Fixture.listed "A" "other" "idle";
                                        Fixture.listed "B" "dbt" "dead"])]))
              []
              [Fixture.listed "A" "other" "idle"; Fixture.listed "B" "dbt" "dead"])
    as (w' & Hrun & Hsteps).
  - reflexivity.
  - reflexivity.
  - reflexivity.
  - do 2 eexists. repeat split; reflexivity.
  - constructor; [|constructor; [|constructor]].
    + left. exists (JStr "other"). split; [reflexivity | discriminate].
    + right. split; [reflexivity|]. exists (JStr "dead"). split; reflexivity.
  - exists w'. split; [exact Hrun | apply Hsteps].
Defined.

(** X13: when exactly one listed session is a live match and the others are
    passed over, [get_exist_session] polls that session only, sleeping 45
    seconds after each reply that shows it starting and asking again at once
    after any other reply that is not idle (a dead one included), and on the
    idle reply stores and returns its id. The "new session required" flag is
    left as it was. *)
Theorem get_exist_session_finds_live_match (w : World) (s : LivySession) (name : string)
    (r : Reply) (before after : list json) (session : json) (mid : string)
    (pend : list (bool * Reply)) (a : Reply) (rest : list Reply) :
  livy_global_session w = Some s ->
  livy_session_name (ls_credential s) = Some name ->
  remote w = (r :: map snd pend ++ a :: rest)%list ->
  listing r (before ++ session :: after) ->
  Forall (skipped name) before ->
  Forall (skipped name) after ->
  live_match name session ->
  getitem session "id" = inr (JStr mid) ->
  Forall (polls_again false) pend ->
  session_settled a (JStr "idle") ->
  exists w',
    LivySession.get_exist_session w = Ok (JStr mid) w'
    /\ remote w' = rest
    /\ trace w' = (trace w ++ Request GET (ls_connect_url s ++ "/sessions") None
                   :: session_poll_trace (session_url s mid) pend)%list
    /\ livy_global_session w' = Some (with_session_id (JStr mid) s)
    /\ cursor w' = cursor w.
Proof.
  intros Hs Hname Hr Hl Hbefore Hafter (Hn & ls & Hls & Hlive) Hid Hpend Ha.
  rewrite (get_exist_session_listing _ _ _ _ _ _ Hs Hname Hr Hl).
  set (w0 := after_request (ls_credential s) GET (ls_connect_url s ++ "/sessions") None
               (map snd pend ++ a :: rest) w).
  assert (Hfor : forall l1 l2 w1 (k : unit -> M json),
             Forall (skipped name) l1 ->
             bind (for_each (l1 ++ l2) (LivySession.get_exist_session_body name)) k w1
             = bind (for_each l2 (LivySession.get_exist_session_body name)) k w1).
  { intros l1 l2 w1 k H. induction H as [|x l Hx _ IH]; [reflexivity|].
    cbn [app for_each]. rewrite bind_run, bind_run.
    rewrite (get_exist_session_body_skipped _ _ _ Hx).
    rewrite bind_run in IH. exact IH. }
  rewrite (Hfor _ _ _ _ Hbefore). cbn [for_each].
  rewrite bind_run, bind_run.
  destruct (get_exist_session_poll_loop session s mid a rest pend Hid Ha Hpend
              (Datatypes.S (List.length (remote w0))) w0)
    as (w1 & (Hr1 & Ht1 & Hs1 & Hc1) & Hloop);
    [cbn; rewrite length_app, length_map; lia | exact Hs | reflexivity |].
  unfold LivySession.get_exist_session_body at 1.
  rewrite Hn. cbn [lift]. rewrite bind_run. cbn [ret json_eq_str].
  rewrite String.eqb_refl.
  rewrite Hls. cbn [lift]. rewrite bind_run. cbn [ret]. rewrite Hlive.
  unfold loop. rewrite Hloop.
  rewrite (for_each_skipped _ _ _ Hafter).
  rewrite bind_run, (self_session_run _ (with_session_id (JStr mid) s)) by reflexivity.
  eexists. split; [reflexivity|].
  cbn [remote trace livy_global_session cursor set_livy_global_session].
  rewrite Hr1, Ht1, Hc1. cbn. rewrite <- app_assoc. auto.
Qed.

Lemma get_exist_session_finds_live_match_witness :
  exists w',
    LivySession.get_exist_session
      (Fixture.fresh [Fixture.reply 200
                        (JObj [("items", JArr [Fixture.listed "A" "dbt" "killed";
                                               Fixture.listed "B" "dbt" "busy"])]);
                      Fixture.reply 200 (Fixture.session_state "busy" "busy");
                      Fixture.reply 200 (Fixture.session_state "idle" "idle")])
    = Ok (JStr "B") w'
    /\ trace w' = [Request GET "https://fabric/livy/sessions" None;
                   Request GET "https://fabric/livy/sessions/B" None;
                   Request GET "https://fabric/livy/sessions/B" None].
Proof.
  destruct (get_exist_session_finds_live_match
              (Fixture.fresh [Fixture.reply 200
                                (JObj [("items", JArr [Fixture.listed "A" "dbt" "killed";
                                                       Fixture.listed "B" "dbt" "busy"])]);
                              Fixture.reply 200 (Fixture.session_state "busy" "busy");
                              Fixture.reply 200 (Fixture.session_state "idle" "idle")])
              (Fixture.session JNull true) "dbt"
              (Fixture.reply 200
                 (JObj [("items", JArr [Fixture.listed "A" "dbt" "killed";
                                        Fixture.listed "B" "dbt" "busy"])]))
              [Fixture.listed "A" "dbt" "killed"] [] (Fixture.listed "B" "dbt" "busy") "B"
              [(false, Fixture.reply 200 (Fixture.session_state "busy" "busy"))]
              (Fixture.reply 200 (Fixture.session_state "idle" "idle")) [])
    as (w' & Hrun & _ & Htrace & _).
  - reflexivity.
  - reflexivity.
  - reflexivity.
  - do 2 eexists. repeat split; reflexivity.
  - constructor; [|constructor].
    right. split; [reflexivity|]. exists (JStr "killed"). split; reflexivity.
  - constructor.
  - split; [reflexivity|]. exists (JStr "busy"). split; reflexivity.
  - reflexivity.
  - constructor; [|constructor].
    exists (JStr "busy"). split; [|split; [discriminate | intros H; discriminate H]].
    split; [do 2 eexists; split; [reflexivity|]; split; [reflexivity|]; split; discriminate|].
    do 3 eexists. repeat split; reflexivity.
  - split; [do 2 eexists; split; [reflexivity|]; split; [reflexivity|]; split; discriminate|].
    do 3 eexists. repeat split; reflexivity.
  - exists w'. split; [exact Hrun | exact Htrace].
Defined.

Lemma holds_ret P {A} (a : A) : holds P (ret a).
Proof. intros w a' w' HP H. inversion H; subst. exact HP. Qed.

Lemma holds_raise P {A} (e : exn) : holds P (@raise A e).
Proof. intros w a w' HP H. discriminate H. Qed.

Lemma holds_lift P {A} (r : exn + A) : holds P (lift r).
Proof. destruct r; [apply holds_raise | apply holds_ret]. Qed.

Lemma holds_bind P {A B} (m : M A) (k : A -> M B) :
  holds P m -> (forall a, holds P (k a)) -> holds P (bind m k).
Proof.
  intros Hm Hk w b w' HP H. rewrite bind_run in H.
  destruct (m w) as [a w1 | e w1 |] eqn:E; try discriminate H.
  exact (Hk a w1 b w' (Hm w a w1 HP E) H).
Qed.

Lemma holds_while_true P {S A} (body : S -> M (Ctl S A)) :
  (forall s, holds P (body s)) -> forall fuel s, holds P (while_true fuel body s).
Proof.
  intros Hbody. induction fuel as [|fuel IH]; intros s w a w' HP H; [discriminate H|].
  cbn [while_true] in H.
  destruct (body s w) as [[s1 | b] w1 | e w1 |] eqn:E; try discriminate H.
  - exact (IH s1 w1 a w' (Hbody s w _ w1 HP E) H).
  - inversion H; subst. exact (Hbody s w _ w' HP E).
Qed.

Lemma holds_self_session P : holds P self_session.
Proof.
  intros w a w' HP H. unfold self_session, bind, gets in H.
  destruct (livy_global_session w) eqn:E; inversion H; subst. rewrite E. exact HP.
Qed.

Lemma holds_get_headers P credentials tokenPrint : holds P (get_headers credentials tokenPrint).
Proof. intros w a w' HP H. rewrite get_headers_run in H. inversion H; subst. exact HP. Qed.

Lemma holds_send P m url data : holds P (send m url data).
Proof.
  intros w a w' HP H. unfold send in H. destruct (remote w); [discriminate H|].
  inversion H; subst. exact HP.
Qed.

Lemma holds_sleep P seconds : holds P (sleep seconds).
Proof. intros w a w' HP H. inversion H; subst. exact HP. Qed.

(** A poll round on a live match keeps the session id the prior one or that
    of a live match. *)
Lemma get_exist_session_poll_holds (name : string) (sessions : list json) (id0 session : json) u :
  In session sessions ->
  live_match name session ->
  holds (prior_or_live_match name sessions id0) (LivySession.get_exist_session_poll session u).
Proof.
  intros Hin Hlive. unfold LivySession.get_exist_session_poll.
  apply holds_bind; [apply holds_self_session | intros self].
  apply holds_bind; [apply holds_lift | intros id].
  apply holds_bind; [apply holds_lift | intros url].
  apply holds_bind; [apply holds_get_headers | intros h].
  apply holds_bind; [apply holds_send | intros reply].
  apply holds_bind; [apply holds_lift | intros res].
  apply holds_bind; [apply holds_lift | intros state].
  destruct (json_eq_str state "starting" || json_eq_str state "not_started").
  - apply holds_bind; [apply holds_sleep | intros _; apply holds_ret].
  - apply holds_bind; [apply holds_lift | intros livyInfo].
    apply holds_bind; [apply holds_lift | intros currentState].
    destruct (json_eq_str currentState "idle"); [|apply holds_ret].
    intros w a w' (s & Hs & _) H.
    rewrite bind_run in H.
    destruct (getitem session "id") as [e | id'] eqn:Hid; [discriminate H|].
    cbn [lift ret] in H. rewrite bind_run in H. inversion H; subst.
    cbn [livy_global_session set_livy_global_session]. rewrite Hs. cbn [option_map].
    eexists. split; [reflexivity|]. right. exists session. auto.
Qed.

Lemma json_eq_str_inv (n : json) (s : string) : json_eq_str n s = true -> n = JStr s.
Proof.
  destruct n; try discriminate. cbn. intros H. apply String.eqb_eq in H. subst. reflexivity.
Qed.

Lemma get_exist_session_body_holds (name : string) (sessions : list json) (id0 session : json) :
  In session sessions ->
  holds (prior_or_live_match name sessions id0)
        (LivySession.get_exist_session_body name session).
Proof.
  intros Hin. unfold LivySession.get_exist_session_body.
  intros w a w' HP H. rewrite bind_run in H.
  destruct (getitem session "name") as [e | n] eqn:Hn; [discriminate H|].
  cbn [lift ret] in H.
  destruct (json_eq_str n name) eqn:En; [|inversion H; subst; exact HP].
  apply json_eq_str_inv in En. subst n.
  rewrite bind_run in H.
  destruct (getitem session "livyState") as [e | ls] eqn:Hls; [discriminate H|].
  cbn [lift ret] in H.
  destruct (json_in_strs ls ["dead"; "shutting_down"; "killed"]) eqn:Einv;
    [inversion H; subst; exact HP|].
  unfold loop in H.
  refine (holds_while_true _ _ _ _ tt w a w' HP H).
  intros u. apply get_exist_session_poll_holds; [exact Hin|].
  split; [exact Hn|]. exists ls. auto.
Qed.

Lemma for_each_holds (name : string) (sessions : list json) (id0 : json) (l : list json) :
  incl l sessions ->
  holds (prior_or_live_match name sessions id0)
        (for_each l (LivySession.get_exist_session_body name)).
Proof.
  induction l as [|x l IH]; intros Hincl; cbn [for_each].
  - apply holds_ret.
  - apply holds_bind.
    + apply get_exist_session_body_holds. apply Hincl. left. reflexivity.
    + intros _. apply IH. intros y Hy. apply Hincl. right. exact Hy.
Qed.

(** X14: whatever the polls come back with, an id [get_exist_session]
    returns is either the session id the object had before the call or the
    ["id"] of a listed session that carries the configured name and whose
    [livyState] in the listing is none of dead, shutting_down and killed. *)
Theorem get_exist_session_returns_prior_or_live_match (w w' : World) (s : LivySession)
    (name : string) (r : Reply) (rest : list Reply) (sessions : list json) (id : json) :
  livy_global_session w = Some s ->
  livy_session_name (ls_credential s) = Some name ->
  remote w = r :: rest ->
  listing r sessions ->
  LivySession.get_exist_session w = Ok id w' ->
  id = ls_session_id s
  \/ exists session, In session sessions /\ live_match name session
                     /\ getitem session "id" = inr id.
Proof.
  intros Hs Hname Hr Hl Hrun.
  rewrite (get_exist_session_listing _ _ _ _ _ _ Hs Hname Hr Hl) in Hrun.
  rewrite bind_run in Hrun.
  match type of Hrun with
  | context [for_each sessions ?body ?w0] =>
      destruct (for_each sessions body w0) as [[] w1 | e w1 |] eqn:Hfor;
        try discriminate Hrun;
        assert (HP : prior_or_live_match name sessions (ls_session_id s)
                       (livy_global_session w1))
  end.
  { refine (for_each_holds name sessions (ls_session_id s) sessions (incl_refl _) _ _ _ _ Hfor).
    exists s. split; [exact Hs | left; reflexivity]. }
  destruct HP as (s1 & Hs1 & Hid).
  rewrite bind_run, (self_session_run _ _ Hs1) in Hrun. inversion Hrun; subst.
  destruct Hid as [Hid | Hid]; [left; exact Hid | right; exact Hid].
Qed.

Lemma get_exist_session_returns_prior_or_live_match_witness :
  JStr "B" = JNull
  \/ exists session,
       In session [Fixture.listed "A" "dbt" "killed"; Fixture.listed "B" "dbt" "busy"]
       /\ live_match "dbt" session /\ getitem session "id" = inr (JStr "B").
Proof.
  eapply (get_exist_session_returns_prior_or_live_match
            (Fixture.fresh [Fixture.reply 200
                              (JObj [("items", JArr [Fixture.listed "A" "dbt" "killed";
                                                     Fixture.listed "B" "dbt" "busy"])]);
                            Fixture.reply 200 (Fixture.session_state "idle" "idle")])
            _ (Fixture.session JNull true) "dbt").
  - reflexivity.
  - reflexivity.
  - reflexivity.
  - do 2 eexists. repeat split; reflexivity.
  - vm_compute. reflexivity.
Defined.

(** ** Connecting *)

(** X15: [connect] with a session the remote reports as dead, shutting down
    or killed deletes it and creates a new one: the validity GET, the DELETE
    (whatever it comes back with), the POST with the configuration of the
    credentials given to [connect], then the polls of the new session. The
    session object ends with the new id and the flag cleared, and the
    connection returned carries the new id. *)
Theorem connect_replaces_invalid_session (credentials : SparkCredentials) (w : World)
    (s : LivySession) (sid : string) (v d : Reply) (st : json)
    (r : Response) (j id : json) (pend : list (bool * Reply)) (a : Reply)
    (rest : list Reply) :
  livy_global_session w = Some s ->
  ls_session_id s = JStr sid ->
  remote w = (v :: d :: Answer r :: map snd pend ++ a :: rest)%list ->
  current_state v st ->
  json_in_strs st LivySession.invalid_states = true ->
  body r = Some j ->
  getitem j "id" = inr id ->
  Forall (polls_again true) pend ->
  session_settled a (JStr "idle") ->
  let created :=
    mkLivySession (ls_credential s) (ls_connect_url s) (JStr (py_str id)) false in
  exists w',
    LivySessionManager.connect credentials w
    = Ok (LivyConnection__init__ credentials created) w'
    /\ remote w' = rest
    /\ trace w' = (trace w
                   ++ [Request GET (session_url s sid) None;
                       Request DELETE (session_url s sid) None;
                       Request POST (ls_connect_url s ++ "/sessions")
                               (Some (session_data credentials))]
                   ++ session_poll_trace (session_url s (py_str id)) pend)%list
    /\ livy_global_session w' = Some created
    /\ con_session_id (LivyConnection__init__ credentials created) = JStr (py_str id).
Proof.
  intros Hs Hsid Hr Hv Hinv Hb Hid Hpend Ha created.
  unfold LivySessionManager.connect. cbv zeta.
  rewrite bind_run. cbn [gets]. rewrite Hs.
  rewrite bind_run, bind_run, (is_valid_session_run _ _ _ _ _ _ Hs Hsid Hr Hv).
  rewrite Hinv. cbn [negb].
  rewrite bind_run.
  erewrite delete_session_run; [ | cbn; exact Hs | exact Hsid | reflexivity ].
  match goal with
  | |- context [bind (LivySession.create_session ?data) _ ?w0] =>
      destruct (create_session_run data w0 s r j id pend a (JStr "idle") rest
                  Hs eq_refl Hb Hid Hpend Ha (or_introl eq_refl))
        as (w1 & Hrun & Hr1 & Ht1 & Hs1 & Hc1)
  end.
  cbn [json_eq_str String.eqb Ascii.eqb Bool.eqb] in Hrun, Hs1.
  rewrite bind_run, Hrun.
  unfold update_session, modify. rewrite Hs1. cbn [option_map].
  rewrite bind_run, (self_session_run _ created) by reflexivity.
  eexists. split; [reflexivity|].
  cbn [remote trace livy_global_session set_livy_global_session].
  rewrite Hr1, Ht1. cbn. rewrite <- !app_assoc. cbn. auto.
Qed.

Lemma connect_replaces_invalid_session_witness :
  exists w',
    LivySessionManager.connect Fixture.credentials
      (Fixture.ready [Fixture.reply 200 (Fixture.session_state "dead" "dead");
                      Fixture.reply 404 JNull;
                      Fixture.reply 200 (JObj [("id", JStr "s2")]);
                      Fixture.reply 200 (Fixture.session_state "idle" "idle")])
    = Ok (LivyConnection__init__ Fixture.credentials (Fixture.session (JStr "s2") false)) w'
    /\ remote w' = [].
Proof.
  destruct (connect_replaces_invalid_session Fixture.credentials
              (Fixture.ready [Fixture.reply 200 (Fixture.session_state "dead" "dead");
                              Fixture.reply 404 JNull;
                              Fixture.reply 200 (JObj [("id", JStr "s2")]);
                              Fixture.reply 200 (Fixture.session_state "idle" "idle")])
              (Fixture.session (JStr "s1") false) "s1"
              (Fixture.reply 200 (Fixture.session_state "dead" "dead"))
              (Fixture.reply 404 JNull) (JStr "dead")
              (mkResponse 200 (Some (JObj [("id", JStr "s2")]))) (JObj [("id", JStr "s2")])
              (JStr "s2") []
              (Fixture.reply 200 (Fixture.session_state "idle" "idle")) [])
    as (w' & Hrun & Hrest & _).
  - reflexivity.
  - reflexivity.
  - reflexivity.
  - do 3 eexists. repeat split; reflexivity.
  - reflexivity.
  - reflexivity.
  - reflexivity.
  - constructor.
  - split; [do 2 eexists; split; [reflexivity|]; split; [reflexivity|]; split; discriminate|].
    do 3 eexists. repeat split; reflexivity.
  - exists w'. split; [exact Hrun | exact Hrest].
Defined.

(** X16: the first [connect] of a process whose credentials name no session
    sends no listing request: it goes straight to the POST, polls the new
    session and leaves a session object for the endpoint of the credentials
    with the new id and the flag cleared. With no shortcuts path configured
    these are all the events. *)
Theorem connect_first_without_session_name (credentials : SparkCredentials) (w : World)
    (r : Response) (j id : json) (pend : list (bool * Reply)) (a : Reply)
    (rest : list Reply) :
  livy_global_session w = None ->
  livy_session_name credentials = None ->
  shortcuts_json_path credentials = None ->
  remote w = (Answer r :: map snd pend ++ a :: rest)%list ->
  body r = Some j ->
  getitem j "id" = inr id ->
  Forall (polls_again true) pend ->
  session_settled a (JStr "idle") ->
  let created :=
    mkLivySession credentials (lakehouse_endpoint credentials) (JStr (py_str id)) false in
  exists w',
    LivySessionManager.connect credentials w
    = Ok (LivyConnection__init__ credentials created) w'
    /\ remote w' = rest
    /\ trace w' = (trace w
                   ++ Request POST (lakehouse_endpoint credentials ++ "/sessions")
                              (Some (session_data credentials))
                   :: session_poll_trace (session_url created (py_str id)) pend)%list
    /\ livy_global_session w' = Some created.
Proof.
  intros Hnone Hname Hpath Hr Hb Hid Hpend Ha created.
  unfold LivySessionManager.connect. cbv zeta.
  rewrite bind_run. cbn [gets]. rewrite Hnone.
  rewrite bind_run, bind_run. cbn [modify].
  assert (Hs0 : livy_global_session
                  (set_livy_global_session (Some (LivySession.__init__ credentials)) w)
                = Some (LivySession.__init__ credentials)) by reflexivity.
  unfold LivySession.get_exist_session_or_create, LivySession.get_exist_session.
  rewrite bind_run, bind_run, bind_run, (self_session_run _ _ Hs0).
  cbn [LivySession.__init__ ls_credential]. rewrite Hname. cbn [ret].
  match goal with
  | |- context [LivySession.create_session ?data ?w0] =>
      destruct (create_session_run data w0 (LivySession.__init__ credentials) r j id pend a
                  (JStr "idle") rest Hs0 Hr Hb Hid Hpend Ha (or_introl eq_refl))
        as (w1 & Hrun & Hr1 & Ht1 & Hs1 & Hc1)
  end.
  cbn [json_eq_str String.eqb Ascii.eqb Bool.eqb] in Hrun, Hs1.
  rewrite Hrun.
  rewrite bind_run. unfold update_session at 1. cbn [modify]. rewrite Hs1. cbn [option_map].
  rewrite Hpath. cbn [ret].
  rewrite bind_run, (self_session_run _ created) by reflexivity.
  eexists. split; [reflexivity|].
  cbn [remote trace livy_global_session set_livy_global_session].
  rewrite Hr1, Ht1. unfold session_data. rewrite Hname. cbn. auto.
Qed.

Lemma connect_first_without_session_name_witness :
  exists w',
    LivySessionManager.connect
      (mkSparkCredentials None (Some "t") (Some "c") (Some "k") "https://fabric/livy"
                          None (JObj []) false None "ws" "lh")
      (mkWorld [Fixture.reply 200 (JObj [("id", JNum 12)]);
                Fixture.reply 200 (Fixture.session_state "idle" "idle")]
               Fixture.issue Fixture.utc 1000 [] None [] None (Fixture.a_cursor JNull))
    = Ok (LivyConnection__init__
            (mkSparkCredentials None (Some "t") (Some "c") (Some "k") "https://fabric/livy"
                                None (JObj []) false None "ws" "lh")
            (mkLivySession
               (mkSparkCredentials None (Some "t") (Some "c") (Some "k") "https://fabric/livy"
                                   None (JObj []) false None "ws" "lh")
               "https://fabric/livy" (JStr "12") false)) w'
    /\ remote w' = [].
Proof.
  destruct (connect_first_without_session_name
              (mkSparkCredentials None (Some "t") (Some "c") (Some "k") "https://fabric/livy"
                                  None (JObj []) false None "ws" "lh")
              (mkWorld [Fixture.reply 200 (JObj [("id", JNum 12)]);
                        Fixture.reply 200 (Fixture.session_state "idle" "idle")]
                       Fixture.issue Fixture.utc 1000 [] None [] None (Fixture.a_cursor JNull))
              (mkResponse 200 (Some (JObj [("id", JNum 12)]))) (JObj [("id", JNum 12)])
              (JNum 12) []
              (Fixture.reply 200 (Fixture.session_state "idle" "idle")) [])
    as (w' & Hrun & Hrest & _).
  - reflexivity.
  - reflexivity.
  - reflexivity.
  - reflexivity.
  - reflexivity.
  - reflexivity.
  - constructor.
  - split; [do 2 eexists; split; [reflexivity|]; split; [reflexivity|]; split; discriminate|].
    do 3 eexists. repeat split; reflexivity.
  - exists w'. split; [exact Hrun | exact Hrest].
Defined.

(** X17: a cursor whose session is flagged as needing a new one reconnects
    before it submits. With the old session still valid, [_submitLivyCode]
    sends the validity GET, creates a session with the cursor's credentials
    without deleting the old one, polls it, takes over the new id and posts
    the statement to the new session. *)
Theorem submit_reconnects_flagged_session (code language : string) (w : World)
    (s : LivySession) (sid : string) (v : Reply) (st : json)
    (r : Response) (j id : json) (pend : list (bool * Reply)) (a : Reply)
    (sub : Response) (rest : list Reply) :
  livy_global_session w = Some s ->
  ls_session_id s = JStr sid ->
  is_new_session_required s = true ->
  remote w = (v :: Answer r :: map snd pend ++ a :: Answer sub :: rest)%list ->
  current_state v st ->
  json_in_strs st LivySession.invalid_states = false ->
  body r = Some j ->
  getitem j "id" = inr id ->
  Forall (polls_again true) pend ->
  session_settled a (JStr "idle") ->
  submit_accepted sub ->
  exists w',
    LivyCursor._submitLivyCode code language w = Ok sub w'
    /\ remote w' = rest
    /\ trace w' = (trace w
                   ++ [Request GET (session_url s sid) None;
                       Request POST (ls_connect_url s ++ "/sessions")
                               (Some (session_data (cur_credential (cursor w))))]
                   ++ session_poll_trace (session_url s (py_str id)) pend
                   ++ [Request POST (submit_url (cursor w) (py_str id))
                               (Some (statement code language))])%list
    /\ cur_session_id (cursor w') = JStr (py_str id)
    /\ livy_global_session w'
       = Some (mkLivySession (ls_credential s) (ls_connect_url s) (JStr (py_str id)) false).
Proof.
  intros Hs Hsid Hflag Hr Hv Hvalid Hb Hid Hpend Ha Hsub.
  unfold LivyCursor._submitLivyCode.
  rewrite bind_run. cbn [gets].
  rewrite bind_run, (self_session_run _ _ Hs). rewrite Hflag. cbv beta iota.
  rewrite bind_run, bind_run.
  unfold LivySessionManager.connect. cbv zeta.
  rewrite bind_run. cbn [gets]. rewrite Hs.
  rewrite bind_run, bind_run, (is_valid_session_run _ _ _ _ _ _ Hs Hsid Hr Hv).
  rewrite Hvalid. cbn [negb].
  rewrite bind_run, (self_session_run _ s) by (cbn; exact Hs).
  rewrite Hflag.
  match goal with
  | |- context [bind (LivySession.create_session ?data) _ ?w0] =>
      destruct (create_session_run data w0 s r j id pend a (JStr "idle") (Answer sub :: rest)
                  Hs eq_refl Hb Hid Hpend Ha (or_introl eq_refl))
        as (w1 & Hrun & Hr1 & Ht1 & Hs1 & Hc1)
  end.
  cbn [json_eq_str String.eqb Ascii.eqb Bool.eqb] in Hrun, Hs1.
  rewrite bind_run, Hrun.
  unfold update_session at 1. cbn [modify]. rewrite Hs1. cbn [option_map].
  set (created := with_new_session_required false
                    (with_new_session_required false (with_session_id (JStr (py_str id)) s))).
  set (w2 := set_livy_global_session (Some created) w1).
  rewrite bind_run, (self_session_run w2 created) by reflexivity.
  cbn [ret].
  rewrite bind_run, (self_session_run w2 created) by reflexivity.
  unfold update_cursor at 1. cbn [modify].
  set (w3 := set_cursor (with_cur_session_id (ls_session_id created) (cursor w2)) w2).
  rewrite bind_run. cbn [gets].
  unfold LivyCursor.statements_url at 1.
  cbn [cursor w3 set_cursor with_cur_session_id cur_session_id cur_connect_url created
       ls_session_id with_new_session_required with_session_id str_add ebind lift].
  rewrite bind_run. cbn [ret].
  unfold loop. rewrite while_true_step by lia.
  erewrite (submit_body_accepted _ _ _ w3 (py_str id) sub rest);
    [ | reflexivity | cbn; exact Hr1 | exact Hsub ].
  eexists. split; [reflexivity|].
  cbn [remote trace cursor livy_global_session after_request log set_remote refreshed
       cur_session_id cur_connect_url cur_credential with_cur_session_id w3 w2
       set_cursor set_livy_global_session].
  rewrite Ht1, Hc1. cbn. rewrite <- !app_assoc. cbn.
  split; [reflexivity|]. split; [|split; reflexivity].
  unfold submit_url. cbn. reflexivity.
Qed.

Lemma submit_reconnects_flagged_session_witness :
  exists w',
    LivyCursor._submitLivyCode "SELECT 1" "sql"
      (mkWorld [Fixture.reply 200 (Fixture.session_state "idle" "idle");
                Fixture.reply 200 (JObj [("id", JStr "s2")]);
                Fixture.reply 200 (Fixture.session_state "idle" "idle");
                Answer (Fixture.submitted 0 "waiting")]
               Fixture.issue Fixture.utc 1000 [] None []
               (Some (Fixture.session (JStr "s1") true)) (Fixture.a_cursor (JStr "s1")))
    = Ok (Fixture.submitted 0 "waiting") w'
    /\ cur_session_id (cursor w') = JStr "s2".
Proof.
  destruct (submit_reconnects_flagged_session "SELECT 1" "sql"
              (mkWorld [Fixture.reply 200 (Fixture.session_state "idle" "idle");
                        Fixture.reply 200 (JObj [("id", JStr "s2")]);
                        Fixture.reply 200 (Fixture.session_state "idle" "idle");
                        Answer (Fixture.submitted 0 "waiting")]
                       Fixture.issue Fixture.utc 1000 [] None []
                       (Some (Fixture.session (JStr "s1") true)) (Fixture.a_cursor (JStr "s1")))
              (Fixture.session (JStr "s1") true) "s1"
              (Fixture.reply 200 (Fixture.session_state "idle" "idle")) (JStr "idle")
              (mkResponse 200 (Some (JObj [("id", JStr "s2")]))) (JObj [("id", JStr "s2")])
              (JStr "s2") []
              (Fixture.reply 200 (Fixture.session_state "idle" "idle"))
              (Fixture.submitted 0 "waiting") [])
    as (w' & Hrun & _ & _ & Hcur & _).
  - reflexivity.
  - reflexivity.
  - reflexivity.
  - reflexivity.
  - do 3 eexists. repeat split; reflexivity.
  - reflexivity.
  - reflexivity.
  - reflexivity.
  - constructor.
  - split; [do 2 eexists; split; [reflexivity|]; split; [reflexivity|]; split; discriminate|].
    do 3 eexists. repeat split; reflexivity.
  - exists (JStr "waiting"). split; [reflexivity | discriminate].
  - exists w'. split; [exact Hrun | exact Hcur].
Defined.

(** ** Retries of [execute] *)

Lemma steps_refl (w : World) : steps w w (remote w) [].
Proof. unfold steps. rewrite app_nil_r. auto. Qed.

Lemma submits_retried_trace self sid code language (cs : list Cycle) :
  forall r, submits (retried_trace self sid code language r cs) = List.length cs.
Proof.
  induction cs as [|c cs IH]; intros r; [reflexivity|].
  cbn [retried_trace List.length]. rewrite submits_app, submits_cycle_trace.
  change (submits (?x :: ?l)) with (submits ([x] ++ l)).
  rewrite submits_app, IH. reflexivity.
Qed.

(** The execute loop goes through transient cycles while retries are left:
    after them it stands at the next round with the retry count raised by
    their number. *)
Lemma execute_retried_rounds (code language : string) (sid : string) (rest : list Reply)
    (cs : list Cycle) :
  Forall transient_cycle cs ->
  forall (retries_time : Z) (w : World) (fuel : nat),
    retries_time + Z.of_nat (List.length cs) <= 5 ->
    session_ready w sid ->
    remote w = (flat_map cycle_replies cs ++ rest)%list ->
    (List.length (remote w) < fuel)%nat ->
    exists w',
      steps w w' rest (retried_trace (cursor w) sid code language retries_time cs)
      /\ while_true fuel (LivyCursor.execute_body code language) retries_time w
         = while_true (Datatypes.S (List.length rest))
             (LivyCursor.execute_body code language)
             (retries_time + Z.of_nat (List.length cs)) w'.
Proof.
  induction 1 as [|c cs (Hc & ev & Hout & Htr) _ IH]; intros r w fuel Hle Hready Hr Hfuel.
  - exists w. cbn [flat_map app List.length Z.of_nat retried_trace] in *.
    rewrite Z.add_0_r. rewrite <- Hr. split; [apply steps_refl|].
    apply (while_true_fuel _ (execute_body_spends code language)); lia.
  - cbn [flat_map List.length retried_trace] in *.
    unfold cycle_replies in Hr. cbn [app] in Hr.
    rewrite <- !app_assoc in Hr. cbn [app] in Hr.
    assert (Hb := check_retry_error_output _ _ Hout). rewrite Htr in Hb.
    destruct (execute_body_cycle code language r w sid (cy_submit c) (cy_id c) (cy_polls c)
                (cy_last c) (cy_result c) _ true Hready Hr Hc Hb) as (w1 & St1 & Body).
    replace (r <? 5) with true in Body by (symmetry; apply Z.ltb_lt; lia).
    cbn [andb] in Body.
    apply (steps_then_sleep _ _ _ _ (r * 10 + 10)) in St1.
    destruct (IH (r + 1) (after_sleep (r * 10 + 10) w1) (Nat.pred fuel)) as (w' & St2 & Hloop).
    + lia.
    + exact (session_ready_steps _ _ _ _ _ St1 Hready).
    + apply St1.
    + destruct St1 as (Hr1 & _). rewrite Hr1. rewrite Hr in Hfuel. cbn [List.length] in Hfuel.
      rewrite !length_app in Hfuel. cbn [List.length] in Hfuel.
      rewrite ?length_app in Hfuel. rewrite length_app. lia.
    + replace (cursor (after_sleep (r * 10 + 10) w1)) with (cursor w) in St2
        by (symmetry; apply St1).
      exists w'. split.
      * replace (cycle_trace (cursor w) sid code language (cy_id c) (List.length (cy_polls c))
                 ++ Sleep (r * 10 + 10)
                 :: retried_trace (cursor w) sid code language (r + 1) cs)%list
          with ((cycle_trace (cursor w) sid code language (cy_id c) (List.length (cy_polls c))
                 ++ [Sleep (r * 10 + 10)])
                ++ retried_trace (cursor w) sid code language (r + 1) cs)%list
          by (rewrite <- app_assoc; reflexivity).
        exact (steps_trans _ _ _ _ _ _ _ St1 St2).
      * rewrite while_true_step by lia. rewrite Body, Hloop.
        f_equal. lia.
Qed.

(** X18: for any number of transient cycles up to five followed by a cycle
    with an ok result, [execute] runs all of them, sleeping
    10, 20, ... seconds after the first, second, ... failed cycle, submits
    once per cycle and returns with the rows and the schema fields of the
    last result. *)
Theorem execute_succeeds_after_transient_cycles (py : PyLib) (code language : string)
    (w : World) (sid : string) (cs : list Cycle) (final : Cycle) (rows fields : json)
    (rest : list Reply) :
  session_ready w sid ->
  Forall transient_cycle cs ->
  (List.length cs <= 5)%nat ->
  cycle_runs final ->
  ok_output (cy_result final) rows fields ->
  remote w = (flat_map cycle_replies cs ++ cycle_replies final ++ rest)%list ->
  let events :=
    (retried_trace (cursor w) sid (final_code py code language) language 0 cs
     ++ cycle_trace (cursor w) sid (final_code py code language) language
          (cy_id final) (List.length (cy_polls final)))%list in
  exists w',
    LivyCursor.execute py code language [] w = Ok tt w'
    /\ remote w' = rest
    /\ trace w' = (trace w ++ events)%list
    /\ submits events = Datatypes.S (List.length cs)
    /\ _rows (cursor w') = rows
    /\ _schema (cursor w') = fields.
Proof.
  intros Hready Hcs Hlen Hfinal Hok Hr events.
  destruct (execute_retried_rounds (final_code py code language) language sid
              (cycle_replies final ++ rest) cs Hcs 0 w
              (Datatypes.S (List.length (remote w))))
    as (w1 & St1 & Hloop); [lia | exact Hready | exact Hr | lia |].
  assert (Hready1 := session_ready_steps _ _ _ _ _ St1 Hready).
  assert (Hr1 : remote w1 = Answer (cy_submit final)
                            :: (cy_polls final ++ cy_last final :: rest)%list).
  { destruct St1 as (Hr1 & _). rewrite Hr1. unfold cycle_replies. cbn [app].
    rewrite <- app_assoc. reflexivity. }
  destruct (execute_body_cycle (final_code py code language) language
              (0 + Z.of_nat (List.length cs)) w1 sid _ _ _ _ _ _ false
              Hready1 Hr1 Hfinal (check_retry_ok_output _ _ _ Hok))
    as (w2 & St2 & Body).
  replace (cursor w1) with (cursor w) in St2 by (symmetry; apply St1).
  destruct (steps_trans _ _ _ _ _ _ _ St1 St2) as (Hrest & Htrace & _ & Hcur).
  rewrite execute_rounds, bind_run, Hloop.
  cbn [while_true]. rewrite Body. cbn [andb].
  rewrite (execute_result_ok _ _ _ _ Hok).
  eexists. split; [reflexivity|].
  cbn [remote trace cursor set_cursor _rows _schema with_rows with_schema].
  split; [exact Hrest|]. split; [exact Htrace|]. split; [|split; reflexivity].
  unfold events. rewrite submits_app, submits_retried_trace, submits_cycle_trace. lia.
Qed.

Lemma execute_succeeds_after_transient_cycles_witness :
  exists w',
    LivyCursor.execute Fixture.py "SELECT 1" "sql" []
      (Fixture.ready [Answer (Fixture.submitted 1 "waiting");
                      Fixture.reply 200 (Fixture.failed Fixture.forbidden);
                      Answer (Fixture.submitted 2 "waiting");
                      Fixture.reply 200 (Fixture.succeeded (JArr [JArr [JNum 1]]) (JArr []))])
    = Ok tt w'
    /\ trace w' = [Request POST "https://fabric/livy/sessions/s1/statements"
                     (Some (statement "SELECT 1" "sql"));
                   Request GET "https://fabric/livy/sessions/s1/statements/1" None;
                   Sleep 10;
                   Request POST "https://fabric/livy/sessions/s1/statements"
                     (Some (statement "SELECT 1" "sql"));
                   Request GET "https://fabric/livy/sessions/s1/statements/2" None].
Proof.
  destruct (execute_succeeds_after_transient_cycles Fixture.py "SELECT 1" "sql"
              (Fixture.ready [Answer (Fixture.submitted 1 "waiting");
                              Fixture.reply 200 (Fixture.failed Fixture.forbidden);
                              Answer (Fixture.submitted 2 "waiting");
                              Fixture.reply 200
                                (Fixture.succeeded (JArr [JArr [JNum 1]]) (JArr []))])
              "s1"
              [mkCycle (Fixture.submitted 1 "waiting") (JNum 1) []
                       (Fixture.reply 200 (Fixture.failed Fixture.forbidden))
                       (Fixture.failed Fixture.forbidden)]
              (mkCycle (Fixture.submitted 2 "waiting") (JNum 2) []
                       (Fixture.reply 200 (Fixture.succeeded (JArr [JArr [JNum 1]]) (JArr [])))
                       (Fixture.succeeded (JArr [JArr [JNum 1]]) (JArr [])))
              (JArr [JArr [JNum 1]]) (JArr []) [])
    as (w' & Hrun & _ & Htrace & _).
  - split; [eexists; split; reflexivity | reflexivity].
  - constructor; [|constructor]. split.
    + split; [exists (JStr "waiting"); split; [reflexivity | discriminate]|].
      split; [reflexivity|]. split; [constructor|].
      eexists. split; [reflexivity|]. split; reflexivity.
    + exists Fixture.forbidden. split; [|reflexivity].
      eexists. split; [reflexivity|]. split; reflexivity.
  - cbn. lia.
  - split; [exists (JStr "waiting"); split; [reflexivity | discriminate]|].
    split; [reflexivity|]. split; [constructor|].
    eexists. split; [reflexivity|]. split; reflexivity.
  - do 4 eexists. repeat split; reflexivity.
  - reflexivity.
  - exists w'. split; [exact Hrun | exact Htrace].
Defined.

(** X19: when six cycles in a row end on a transient error, [execute] gives
    up after the sixth: it has slept 10, 20, 30, 40 and 50 seconds, submitted
    six times, and raises the database error with the error text of the
    sixth result, leaving rows and schema [None]. *)
Theorem execute_gives_up_after_five_retries (py : PyLib) (code language : string)
    (w : World) (sid : string) (cs : list Cycle) (final : Cycle) (evalue : string)
    (rest : list Reply) :
  session_ready w sid ->
  Forall transient_cycle cs ->
  List.length cs = 5%nat ->
  cycle_runs final ->
  error_output (cy_result final) evalue ->
  transient evalue = true ->
  remote w = (flat_map cycle_replies cs ++ cycle_replies final ++ rest)%list ->
  let events :=
    (retried_trace (cursor w) sid (final_code py code language) language 0 cs
     ++ cycle_trace (cursor w) sid (final_code py code language) language
          (cy_id final) (List.length (cy_polls final)))%list in
  exists w',
    LivyCursor.execute py code language [] w
    = Raise (DbtDatabaseError ("Error while executing query: " ++ evalue)) w'
    /\ remote w' = rest
    /\ trace w' = (trace w ++ events)%list
    /\ submits events = 6%nat
    /\ _rows (cursor w') = JNull
    /\ _schema (cursor w') = JNull.
Proof.
  intros Hready Hcs Hlen Hfinal Hout Htr Hr events.
  destruct (execute_retried_rounds (final_code py code language) language sid
              (cycle_replies final ++ rest) cs Hcs 0 w
              (Datatypes.S (List.length (remote w))))
    as (w1 & St1 & Hloop); [lia | exact Hready | exact Hr | lia |].
  assert (Hready1 := session_ready_steps _ _ _ _ _ St1 Hready).
  assert (Hr1 : remote w1 = Answer (cy_submit final)
                            :: (cy_polls final ++ cy_last final :: rest)%list).
  { destruct St1 as (Hr1 & _). rewrite Hr1. unfold cycle_replies. cbn [app].
    rewrite <- app_assoc. reflexivity. }
  assert (Hb := check_retry_error_output _ _ Hout). rewrite Htr in Hb.
  destruct (execute_body_cycle (final_code py code language) language
              (0 + Z.of_nat (List.length cs)) w1 sid _ _ _ _ _ _ true
              Hready1 Hr1 Hfinal Hb)
    as (w2 & St2 & Body).
  rewrite Hlen in Body. change (0 + Z.of_nat 5 <? 5) with false in Body. cbn [andb] in Body.
  replace (cursor w1) with (cursor w) in St2 by (symmetry; apply St1).
  destruct (steps_trans _ _ _ _ _ _ _ St1 St2) as (Hrest & Htrace & _ & Hcur).
  rewrite execute_rounds, bind_run, Hloop.
  cbn [while_true]. rewrite Hlen, Body.
  rewrite (execute_result_error _ _ _ Hout).
  eexists. split; [reflexivity|].
  cbn [remote trace cursor set_cursor _rows _schema with_rows with_schema].
  split; [exact Hrest|]. split; [exact Htrace|]. split; [|split; reflexivity].
  unfold events. rewrite submits_app, submits_retried_trace, submits_cycle_trace. lia.
Qed.

Lemma execute_gives_up_after_five_retries_witness :
  let failing (n : Z) :=
    mkCycle (Fixture.submitted n "waiting") (JNum n) []
            (Fixture.reply 200 (Fixture.failed Fixture.forbidden))
            (Fixture.failed Fixture.forbidden) in
  exists w',
    LivyCursor.execute Fixture.py "SELECT 1" "sql" []
      (Fixture.ready (flat_map cycle_replies (map failing [1; 2; 3; 4; 5; 6])))
    = Raise (DbtDatabaseError ("Error while executing query: " ++ Fixture.forbidden)) w'
    /\ remote w' = [].
Proof.
  intros failing.
  assert (Hcycle : forall n, transient_cycle (failing n)).
  { intros n. split.
    - split; [exists (JStr "waiting"); split; [reflexivity | discriminate]|].
      split; [reflexivity|]. split; [constructor|].
      eexists. split; [reflexivity|]. split; reflexivity.
    - exists Fixture.forbidden. split; [|reflexivity].
      eexists. split; [reflexivity|]. split; reflexivity. }
  destruct (execute_gives_up_after_five_retries Fixture.py "SELECT 1" "sql"
              (Fixture.ready (flat_map cycle_replies (map failing [1; 2; 3; 4; 5; 6])))
              "s1" (map failing [1; 2; 3; 4; 5]) (failing 6) Fixture.forbidden [])
    as (w' & Hrun & Hrest & _).
  - split; [eexists; split; reflexivity | reflexivity].
  - repeat constructor; apply Hcycle.
  - reflexivity.
  - apply Hcycle.
  - eexists. split; [reflexivity|]. split; reflexivity.
  - reflexivity.
  - reflexivity.
  - exists w'. split; [exact Hrun | exact Hrest].
Defined.

(** ** What [execute] makes of the result *)

(** A cycle whose result asks for no retry leaves [execute] with that result. *)
Lemma execute_single_cycle (py : PyLib) (code language : string) (w : World) (sid : string)
    (c : Cycle) (rest : list Reply) :
  session_ready w sid ->
  remote w = (cycle_replies c ++ rest)%list ->
  cycle_runs c ->
  check_retry_condition_when_execute (cy_result c) = inr false ->
  exists w1,
    steps w w1 rest (cycle_trace (cursor w) sid (final_code py code language) language
                       (cy_id c) (List.length (cy_polls c)))
    /\ LivyCursor.execute py code language [] w = LivyCursor.execute_result (cy_result c) w1.
Proof.
  intros Hready Hr Hc Hb.
  assert (Hr' : remote w = Answer (cy_submit c) :: (cy_polls c ++ cy_last c :: rest)%list).
  { rewrite Hr. unfold cycle_replies. cbn [app]. rewrite <- app_assoc. reflexivity. }
  destruct (execute_body_cycle (final_code py code language) language 0 w sid _ _ _ _ _ _ false
              Hready Hr' Hc Hb) as (w1 & St & Body).
  exists w1. split; [exact St|].
  rewrite execute_rounds, bind_run, while_true_step by lia.
  rewrite Body. reflexivity.
Qed.

Lemma check_retry_not_error (res output status : json) :
  output_status res output status ->
  status <> JStr "error" ->
  check_retry_condition_when_execute res = inr false.
Proof.
  intros [Ho Hs] Hne. unfold check_retry_condition_when_execute.
  rewrite Ho. cbn [ebind]. rewrite Hs. cbn [ebind].
  rewrite (json_eq_str_false _ _ Hne). reflexivity.
Qed.

(** X20: a result with output status ok whose ["application/json"] value is
    empty leaves the cursor with an empty row list and an empty schema:
    [fetchone] returns [None] and [description] is the empty list. *)
Theorem execute_with_empty_result (py : PyLib) (code language : string) (w : World)
    (sid : string) (c : Cycle) (values : json) (rest : list Reply) :
  session_ready w sid ->
  remote w = (cycle_replies c ++ rest)%list ->
  cycle_runs c ->
  ok_values (cy_result c) values ->
  py_len values = inr 0%nat ->
  exists w',
    LivyCursor.execute py code language [] w = Ok tt w'
    /\ remote w' = rest
    /\ _rows (cursor w') = JArr []
    /\ _schema (cursor w') = JArr []
    /\ LivyCursor.fetchone w' = Ok JNull w'
    /\ LivyCursor.description w' = Ok [] w'.
Proof.
  intros Hready Hr Hc (output & data & Ho & Hs & Hd & Hv) Hlen.
  destruct (execute_single_cycle py code language w sid c rest Hready Hr Hc) as (w1 & St & Hex).
  { apply (check_retry_not_error _ output (JStr "ok")); [split; assumption | discriminate]. }
  rewrite Hex. unfold LivyCursor.execute_result.
  rewrite Ho. cbn [lift]. rewrite bind_run. cbn [ret].
  rewrite Hs. cbn [lift]. rewrite bind_run. cbn [ret json_eq_str String.eqb Ascii.eqb Bool.eqb].
  rewrite Hd. cbn [lift]. rewrite bind_run. cbn [ret].
  rewrite Hv. cbn [lift]. rewrite bind_run. cbn [ret].
  rewrite Hlen. cbn [lift]. rewrite bind_run. cbn [ret Nat.leb].
  eexists. split; [reflexivity|]. split; [apply St|]. repeat split.
Qed.

Lemma execute_with_empty_result_witness :
  exists w',
    LivyCursor.execute Fixture.py "CREATE TABLE t (a int)" "sql" []
      (Fixture.ready
         [Answer (Fixture.submitted 1 "waiting");
          Fixture.reply 200
            (JObj [("state", JStr "available");
                   ("output", JObj [("status", JStr "ok");
                                    ("data", JObj [("application/json", JObj [])])])])])
    = Ok tt w'
    /\ _rows (cursor w') = JArr [].
Proof.
  destruct (execute_with_empty_result Fixture.py "CREATE TABLE t (a int)" "sql"
              (Fixture.ready
                 [Answer (Fixture.submitted 1 "waiting");
                  Fixture.reply 200
                    (JObj [("state", JStr "available");
                           ("output", JObj [("status", JStr "ok");
                                            ("data", JObj [("application/json", JObj [])])])])])
              "s1"
              (mkCycle (Fixture.submitted 1 "waiting") (JNum 1) []
                 (Fixture.reply 200
                    (JObj [("state", JStr "available");
                           ("output", JObj [("status", JStr "ok");
                                            ("data", JObj [("application/json", JObj [])])])]))
                 (JObj [("state", JStr "available");
                        ("output", JObj [("status", JStr "ok");
                                         ("data", JObj [("application/json", JObj [])])])]))
              (JObj []) [])
    as (w' & Hrun & _ & Hrows & _).
  - split; [eexists; split; reflexivity | reflexivity].
  - reflexivity.
  - split; [exists (JStr "waiting"); split; [reflexivity | discriminate]|].
    split; [reflexivity|]. split; [constructor|].
    eexists. split; [reflexivity|]. split; reflexivity.
  - do 2 eexists. repeat split; reflexivity.
  - reflexivity.
  - exists w'. split; [exact Hrun | exact Hrows].
Defined.

(** X21: a result with output status ok that has rows but no schema fields
    makes [execute] raise the lookup's exception after the rows were stored:
    the cursor then holds the new rows together with the schema of the
    statement before. *)
Theorem execute_keeps_old_schema_when_schema_missing (py : PyLib) (code language : string)
    (w : World) (sid : string) (c : Cycle) (values rows : json) (e : exn)
    (rest : list Reply) :
  session_ready w sid ->
  remote w = (cycle_replies c ++ rest)%list ->
  cycle_runs c ->
  ok_values (cy_result c) values ->
  schema_missing values rows e ->
  exists w',
    LivyCursor.execute py code language [] w = Raise e w'
    /\ remote w' = rest
    /\ _rows (cursor w') = rows
    /\ _schema (cursor w') = _schema (cursor w).
Proof.
  intros Hready Hr Hc (output & data & Ho & Hs & Hd & Hv) [Hrows Hsch].
  destruct (execute_single_cycle py code language w sid c rest Hready Hr Hc)
    as (w1 & (Hr1 & _ & _ & Hc1) & Hex).
  { apply (check_retry_not_error _ output (JStr "ok")); [split; assumption | discriminate]. }
  destruct (getitem_nonempty _ _ _ Hrows) as (n & Hn).
  rewrite Hex. unfold LivyCursor.execute_result.
  rewrite Ho. cbn [lift]. rewrite bind_run. cbn [ret].
  rewrite Hs. cbn [lift]. rewrite bind_run. cbn [ret json_eq_str String.eqb Ascii.eqb Bool.eqb].
  rewrite Hd. cbn [lift]. rewrite bind_run. cbn [ret].
  rewrite Hv. cbn [lift]. rewrite bind_run. cbn [ret].
  rewrite Hn. cbn [lift]. rewrite bind_run. cbn [ret Nat.leb].
  rewrite Hrows. cbn [lift]. rewrite bind_run. cbn [ret].
  rewrite bind_run. cbn [update_cursor modify].
  destruct Hsch as [Hsch | (schema & Hsch & Hf)]; rewrite Hsch; cbn [lift].
  - rewrite bind_run.
    eexists. split; [reflexivity|]. cbn. rewrite Hc1. auto.
  - rewrite bind_run. cbn [ret]. rewrite Hf. cbn [lift]. rewrite bind_run.
    eexists. split; [reflexivity|]. cbn. rewrite Hc1. auto.
Qed.

Lemma execute_keeps_old_schema_when_schema_missing_witness :
  exists w',
    LivyCursor.execute Fixture.py "SELECT b" "sql" []
      (Fixture.ready
         [Answer (Fixture.submitted 1 "waiting");
          Fixture.reply 200
            (JObj [("state", JStr "available");
                   ("output",
                    JObj [("status", JStr "ok");
                          ("data", JObj [("application/json",
                                          JObj [("data", JArr [JArr [JStr "x"]])])])])])])
    = Raise (KeyError "schema") w'
    /\ _rows (cursor w') = JArr [JArr [JStr "x"]].
Proof.
  destruct (execute_keeps_old_schema_when_schema_missing Fixture.py "SELECT b" "sql"
              (Fixture.ready
                 [Answer (Fixture.submitted 1 "waiting");
                  Fixture.reply 200
                    (JObj [("state", JStr "available");
                           ("output",
                            JObj [("status", JStr "ok");
                                  ("data", JObj [("application/json",
                                                  JObj [("data", JArr [JArr [JStr "x"]])])])])])])
              "s1"
              (mkCycle (Fixture.submitted 1 "waiting") (JNum 1) []
                 (Fixture.reply 200
                    (JObj [("state", JStr "available");
                           ("output",
                            JObj [("status", JStr "ok");
                                  ("data", JObj [("application/json",
                                                  JObj [("data", JArr [JArr [JStr "x"]])])])])]))
                 (JObj [("state", JStr "available");
                        ("output",
                         JObj [("status", JStr "ok");
                               ("data", JObj [("application/json",
                                               JObj [("data", JArr [JArr [JStr "x"]])])])])]))
              (JObj [("data", JArr [JArr [JStr "x"]])]) (JArr [JArr [JStr "x"]])
              (KeyError "schema") [])
    as (w' & Hrun & _ & Hrows & _).
  - split; [eexists; split; reflexivity | reflexivity].
  - reflexivity.
  - split; [exists (JStr "waiting"); split; [reflexivity | discriminate]|].
    split; [reflexivity|]. split; [constructor|].
    eexists. split; [reflexivity|]. split; reflexivity.
  - do 2 eexists. repeat split; reflexivity.
  - split; [reflexivity | left; reflexivity].
  - exists w'. split; [exact Hrun | exact Hrows].
Defined.

(** X22: an output status that is neither ok nor error is handled like an
    error that is not retried: after the one cycle [execute] raises, with
    rows and schema set to [None]; the exception is the database error with
    the error text when the output has one, as a string. *)
Theorem execute_treats_other_status_as_error (py : PyLib) (code language : string)
    (w : World) (sid : string) (c : Cycle) (output status : json) (rest : list Reply) :
  session_ready w sid ->
  remote w = (cycle_replies c ++ rest)%list ->
  cycle_runs c ->
  output_status (cy_result c) output status ->
  status <> JStr "ok" ->
  status <> JStr "error" ->
  exists e w',
    LivyCursor.execute py code language [] w = Raise e w'
    /\ remote w' = rest
    /\ _rows (cursor w') = JNull
    /\ _schema (cursor w') = JNull
    /\ (forall evalue, getitem output "evalue" = inr (JStr evalue) ->
                       e = DbtDatabaseError ("Error while executing query: " ++ evalue)).
Proof.
  intros Hready Hr Hc [Ho Hs] Hnok Hnerr.
  destruct (execute_single_cycle py code language w sid c rest Hready Hr Hc)
    as (w1 & (Hr1 & _) & Hex).
  { apply (check_retry_not_error _ output status); [split; assumption | exact Hnerr]. }
  rewrite Hex. unfold LivyCursor.execute_result.
  rewrite Ho. cbn [lift]. rewrite bind_run. cbn [ret].
  rewrite Hs. cbn [lift]. rewrite bind_run. cbn [ret].
  rewrite (json_eq_str_false _ _ Hnok).
  cbv [bind update_cursor modify].
  destruct (getitem output "evalue") as [e | ev]; cbn [lift raise ret].
  - eexists. eexists. split; [reflexivity|]. cbn. repeat split; auto.
    intros evalue H. discriminate H.
  - destruct (str_add "Error while executing query: " ev) as [e | message] eqn:E;
      cbn [lift raise ret].
    + eexists. eexists. split; [reflexivity|]. cbn. repeat split; auto.
      intros evalue H. inversion H; subst. discriminate E.
    + eexists. eexists. split; [reflexivity|]. cbn. repeat split; auto.
      intros evalue H. inversion H; subst. cbn in E. inversion E. reflexivity.
Qed.

Lemma execute_treats_other_status_as_error_witness :
  exists e w',
    LivyCursor.execute Fixture.py "SELECT 1" "sql" []
      (Fixture.ready
         [Answer (Fixture.submitted 1 "waiting");
          Fixture.reply 200
            (JObj [("state", JStr "available");
                   ("output", JObj [("status", JStr "cancelled")])])])
    = Raise e w'
    /\ _rows (cursor w') = JNull.
Proof.
  destruct (execute_treats_other_status_as_error Fixture.py "SELECT 1" "sql"
              (Fixture.ready
                 [Answer (Fixture.submitted 1 "waiting");
                  Fixture.reply 200
                    (JObj [("state", JStr "available");
                           ("output", JObj [("status", JStr "cancelled")])])])
              "s1"
              (mkCycle (Fixture.submitted 1 "waiting") (JNum 1) []
                 (Fixture.reply 200
                    (JObj [("state", JStr "available");
                           ("output", JObj [("status", JStr "cancelled")])]))
                 (JObj [("state", JStr "available");
                        ("output", JObj [("status", JStr "cancelled")])]))
              (JObj [("status", JStr "cancelled")]) (JStr "cancelled") [])
    as (e & w' & Hrun & _ & Hrows & _).
  - split; [eexists; split; reflexivity | reflexivity].
  - reflexivity.
  - split; [exists (JStr "waiting"); split; [reflexivity | discriminate]|].
    split; [reflexivity|]. split; [constructor|].
    eexists. split; [reflexivity|]. split; reflexivity.
  - split; reflexivity.
  - discriminate.
  - discriminate.
  - exists e, w'. split; [exact Hrun | exact Hrows].
Defined.

(** One round of the execute loop in which the retry check itself raises. *)
Lemma execute_body_check_raises (code language : string) (retries_time : Z) (w : World)
    (sid : string) (c : Cycle) (rest : list Reply) (e : exn) :
  session_ready w sid ->
  remote w = (cycle_replies c ++ rest)%list ->
  cycle_runs c ->
  check_retry_condition_when_execute (cy_result c) = inl e ->
  exists w1,
    steps w w1 rest (cycle_trace (cursor w) sid code language (cy_id c)
                       (List.length (cy_polls c)))
    /\ LivyCursor.execute_body code language retries_time w = Raise e w1.
Proof.
  intros Hready Hr (Hs & Hid & Hpend & Ha) Hb.
  assert (Hr' : remote w = Answer (cy_submit c) :: (cy_polls c ++ cy_last c :: rest)%list).
  { rewrite Hr. unfold cycle_replies. cbn [app]. rewrite <- app_assoc. reflexivity. }
  destruct (submit_one_accepted code language w sid _ _ Hready Hr' Hs) as (w0 & Hsub & St0).
  assert (Hc : cursor w0 = cursor w) by apply St0.
  destruct (getLivyResult_run (cy_submit c) (cy_id c) w0 sid (cy_last c) (cy_result c) rest
              (cy_polls c)) as (w1 & Hpoll & St1);
    [rewrite Hc; apply Hready | exact Hid | apply St0 | exact Hpend | exact Ha |].
  rewrite Hc in St1.
  exists w1. split; [exact (steps_trans _ _ _ _ _ _ _ St0 St1)|].
  unfold LivyCursor.execute_body.
  rewrite (bind_Ok _ _ _ _ _ Hsub), (bind_Ok _ _ _ _ _ Hpoll).
  destruct Ha as (resp & _ & _ & Hst). rewrite Hst. cbn [lift].
  rewrite bind_run. cbn [ret json_eq_str String.eqb Ascii.eqb Bool.eqb].
  rewrite Hb. reflexivity.
Qed.

(** X23: a result with output status error but no error text makes the retry
    check raise the lookup's exception. [execute] passes it on after the one
    cycle, before rows and schema are touched: the cursor still holds what
    the statement before left. *)
Theorem execute_error_without_text_keeps_cursor (py : PyLib) (code language : string)
    (w : World) (sid : string) (c : Cycle) (output : json) (e : exn) (rest : list Reply) :
  session_ready w sid ->
  remote w = (cycle_replies c ++ rest)%list ->
  cycle_runs c ->
  output_status (cy_result c) output (JStr "error") ->
  getitem output "evalue" = inl e ->
  exists w',
    LivyCursor.execute py code language [] w = Raise e w'
    /\ steps w w' rest (cycle_trace (cursor w) sid (final_code py code language) language
                          (cy_id c) (List.length (cy_polls c))).
Proof.
  intros Hready Hr Hc [Ho Hs] He.
  destruct (execute_body_check_raises (final_code py code language) language 0 w sid c rest e
              Hready Hr Hc) as (w1 & St & Body).
  { unfold check_retry_condition_when_execute, EXECUTE_RETRIES_PATTERNS.
    rewrite Ho. cbn [ebind]. rewrite Hs. cbn [ebind json_eq_str String.eqb Ascii.eqb Bool.eqb].
    cbn [any_pattern_in]. rewrite Ho. cbn [ebind]. rewrite He. reflexivity. }
  exists w1. split; [|exact St].
  rewrite execute_rounds, bind_run, while_true_step by lia.
  rewrite Body. reflexivity.
Qed.

Lemma execute_error_without_text_keeps_cursor_witness :
  exists w',
    LivyCursor.execute Fixture.py "SELECT 1" "sql" []
      (Fixture.ready
         [Answer (Fixture.submitted 1 "waiting");
          Fixture.reply 200
            (JObj [("state", JStr "available");
                   ("output", JObj [("status", JStr "error")])])])
    = Raise (KeyError "evalue") w'
    /\ cursor w' = Fixture.a_cursor (JStr "s1").
Proof.
  destruct (execute_error_without_text_keeps_cursor Fixture.py "SELECT 1" "sql"
              (Fixture.ready
                 [Answer (Fixture.submitted 1 "waiting");
                  Fixture.reply 200
                    (JObj [("state", JStr "available");
                           ("output", JObj [("status", JStr "error")])])])
              "s1"
              (mkCycle (Fixture.submitted 1 "waiting") (JNum 1) []
                 (Fixture.reply 200
                    (JObj [("state", JStr "available");
                           ("output", JObj [("status", JStr "error")])]))
                 (JObj [("state", JStr "available");
                        ("output", JObj [("status", JStr "error")])]))
              (JObj [("status", JStr "error")]) (KeyError "evalue") [])
    as (w' & Hrun & Hsteps).
  - split; [eexists; split; reflexivity | reflexivity].
  - reflexivity.
  - split; [exists (JStr "waiting"); split; [reflexivity | discriminate]|].
    split; [reflexivity|]. split; [constructor|].
    eexists. split; [reflexivity|]. split; reflexivity.
  - split; reflexivity.
  - reflexivity.
  - exists w'. split; [exact Hrun | apply Hsteps].
Defined.

(** ** The retry condition *)

Lemma prefix_app (p s : string) : String.prefix p (p ++ s) = true.
Proof.
  induction p as [|c p IH]; cbn.
  - destruct s; reflexivity.
  - destruct (ascii_dec c c); [exact IH | congruence].
Qed.

Lemma contains_app (p before after : string) : contains p (before ++ p ++ after) = true.
Proof.
  induction before as [|c before IH]; cbn [append].
  - destruct (p ++ after) eqn:E; cbn [contains]; rewrite <- E, prefix_app; reflexivity.
  - cbn [contains]. rewrite IH. apply orb_true_r.
Qed.

(** X24: the retry condition of [execute] holds for an error output whose
    error text has the transient pattern anywhere in it, and only for an
    output whose status is error: with any other status it is false, whatever
    the error text, and even when there is none. *)
Theorem check_retry_matches_pattern_anywhere (res output : json) :
  getitem res "output" = inr output ->
  (forall pattern before after,
      In pattern EXECUTE_RETRIES_PATTERNS ->
      getitem output "status" = inr (JStr "error") ->
      getitem output "evalue" = inr (JStr (before ++ pattern ++ after)) ->
      check_retry_condition_when_execute res = inr true)
  /\ (forall status,
         getitem output "status" = inr status ->
         status <> JStr "error" ->
         check_retry_condition_when_execute res = inr false).
Proof.
  intros Ho. split.
  - intros pattern before after [<- | []] Hs He.
    rewrite (check_retry_error_output res _ (ex_intro _ output (conj Ho (conj Hs He)))).
    unfold transient, EXECUTE_RETRIES_PATTERNS. cbn [existsb].
    rewrite contains_app. reflexivity.
  - intros status Hs Hne. exact (check_retry_not_error res output status (conj Ho Hs) Hne).
Qed.

Lemma check_retry_matches_pattern_anywhere_witness :
  check_retry_condition_when_execute
    (Fixture.failed ("Py4JJavaError: " ++ Fixture.forbidden))
  = inr true.
Proof.
  apply (proj1 (check_retry_matches_pattern_anywhere
                  (Fixture.failed ("Py4JJavaError: " ++ Fixture.forbidden))
                  (JObj [("status", JStr "error");
                         ("evalue", JStr ("Py4JJavaError: " ++ Fixture.forbidden))])
                  eq_refl)
               "Request failed: HTTP/1.1 403 Forbidden ClientRequestId"
               "Py4JJavaError: " " 42").
  - left. reflexivity.
  - reflexivity.
  - reflexivity.
Defined.

(** ** SQL without comments *)

Lemma contains_tail (p : string) (c : ascii) (r : string) :
  contains p (String c r) = false -> contains p r = false.
Proof. cbn [contains]. intros H. apply orb_false_iff in H. apply H. Qed.

Lemma contains_prefix (p s : string) : contains p s = false -> String.prefix p s = false.
Proof.
  destruct s; cbn [contains]; intros H; apply orb_false_iff in H; apply H.
Qed.

Lemma contains_suffix (p q s : string) :
  contains p (q ++ s) = false -> contains p s = false.
Proof.
  induction q as [|c q IH]; cbn [String.append]; intros H; [exact H|].
  apply IH. exact (contains_tail _ _ _ H).
Qed.

Lemma contains_lstrip (p s : string) : contains p s = false -> contains p (lstrip s) = false.
Proof.
  destruct (lstrip_suffix s) as [q Hq]. intros H. rewrite Hq in H.
  exact (contains_suffix _ _ _ H).
Qed.

Lemma match_comment_without_opener (s : string) :
  contains "/*" s = false -> match_comment s = None.
Proof.
  intros H. apply contains_lstrip, contains_prefix in H. unfold match_comment.
  destruct (lstrip s) as [|c1 t]; [reflexivity|].
  destruct c1 as [[] [] [] [] [] [] [] []]; try reflexivity.
  destruct t as [|c2 r]; [reflexivity|].
  destruct c2 as [[] [] [] [] [] [] [] []]; try reflexivity.
  destruct r; cbn in H; discriminate H.
Qed.

Lemma re_sub_loop_without_opener (repl : string) (fuel : nat) :
  forall (limit : option nat) (s : string),
    contains "/*" s = false -> re_sub_loop fuel repl limit s = s.
Proof.
  induction fuel as [|fuel IH]; intros limit s H; [reflexivity|].
  cbn [re_sub_loop]. rewrite (match_comment_without_opener s H).
  destruct limit as [[|k]|]; try reflexivity;
    destruct s as [|c r]; try reflexivity;
    rewrite (IH _ r (contains_tail _ _ _ H)); reflexivity.
Qed.

(** X25: SQL that contains no [/*] comes out of [_getLivySQL] with its outer
    white space stripped, ASCII or not, and nothing else changed. *)
Theorem getLivySQL_without_comment_only_strips (sql : string) :
  contains "/*" sql = false ->
  LivyCursor._getLivySQL sql = strip sql.
Proof.
  intros H. unfold LivyCursor._getLivySQL, re_sub_comment.
  rewrite (re_sub_loop_without_opener _ _ _ _ H). reflexivity.
Qed.

Lemma getLivySQL_without_comment_only_strips_witness :
  LivyCursor._getLivySQL
    (Fixture.nbsp ++ " SELECT a * 2 / b" ++ Fixture.nbsp ++ "FROM t " ++ Fixture.em_space)
  = "SELECT a * 2 / b" ++ Fixture.nbsp ++ "FROM t".
Proof.
  rewrite (getLivySQL_without_comment_only_strips
             (Fixture.nbsp ++ " SELECT a * 2 / b" ++ Fixture.nbsp ++ "FROM t "
              ++ Fixture.em_space)).
  - reflexivity.
  - reflexivity.
Defined.

(** ** Failures while a statement runs *)

Lemma submit_body_broken (self : LivyCursor) (data : json) (retries_time : Z)
    (w : World) sid r rest e :
  cur_session_id self = JStr sid ->
  remote w = r :: rest ->
  submit_broken r e ->
  LivyCursor._submitLivyCode_body self data retries_time w
  = Raise e (after_request (cur_credential self) POST (submit_url self sid) (Some data) rest w).
Proof.
  intros Hsid Hr He.
  unfold LivyCursor._submitLivyCode_body, LivyCursor.statements_url.
  rewrite Hsid. cbn [str_add ebind lift].
  rewrite bind_run. cbn [ret].
  rewrite bind_run, get_headers_run.
  rewrite bind_run, (send_run POST _ _ (refreshed _ w) _ _ Hr).
  destruct r as [k | resp]; cbn [submit_broken] in He.
  - subst e. reflexivity.
  - unfold response_json. destruct (body resp) as [j|].
    + cbn [lift]. rewrite bind_run. cbn [ret].
      unfold check_retry_condition_when_submit_code. rewrite He. reflexivity.
    + subst e. reflexivity.
Qed.

(** X26: only a response with top-level state error is retried. When the
    submission fails in transport, or its answer is not JSON or has no
    ["state"], [execute] raises that exception after the one POST, without a
    sleep or a second attempt, and leaves the cursor as it was. *)
Theorem execute_does_not_retry_broken_submit (py : PyLib) (code language : string)
    (w : World) (sid : string) (r : Reply) (e : exn) (rest : list Reply) :
  session_ready w sid ->
  remote w = r :: rest ->
  submit_broken r e ->
  exists w',
    LivyCursor.execute py code language [] w = Raise e w'
    /\ steps w w' rest
         [Request POST (submit_url (cursor w) sid)
                  (Some (statement (final_code py code language) language))].
Proof.
  intros Hready Hr He.
  rewrite execute_rounds, bind_run, while_true_step by lia.
  unfold LivyCursor.execute_body. rewrite bind_run.
  rewrite (submit_on_ready_session _ _ _ _ Hready).
  unfold loop. rewrite while_true_step by lia.
  rewrite (submit_body_broken _ _ _ _ _ _ _ _ (proj2 Hready) Hr He).
  eexists. split; [reflexivity | apply steps_request].
Qed.

Lemma execute_does_not_retry_broken_submit_witness :
  exists w',
    LivyCursor.execute Fixture.py "SELECT 1" "sql" []
      (Fixture.ready [Failure Timeout; Answer (Fixture.submitted 1 "waiting")])
    = Raise (Requests Timeout) w'
    /\ remote w' = [Answer (Fixture.submitted 1 "waiting")].
Proof.
  destruct (execute_does_not_retry_broken_submit Fixture.py "SELECT 1" "sql"
              (Fixture.ready [Failure Timeout; Answer (Fixture.submitted 1 "waiting")])
              "s1" (Failure Timeout) (Requests Timeout)
              [Answer (Fixture.submitted 1 "waiting")])
    as (w' & Hrun & Hsteps).
  - split; [eexists; split; reflexivity | reflexivity].
  - reflexivity.
  - reflexivity.
  - exists w'. split; [exact Hrun | apply Hsteps].
Defined.

Lemma poll_body_broken (self : LivyCursor) (id : json) (w : World) sid r rest e :
  cur_session_id self = JStr sid ->
  remote w = r :: rest ->
  poll_broken r e ->
  LivyCursor._getLivyResult_body self id tt w
  = Raise e (after_request (cur_credential self) GET (poll_url self sid id) None rest w).
Proof.
  intros Hsid Hr He.
  unfold LivyCursor._getLivyResult_body. rewrite Hsid. cbn [str_add lift].
  rewrite bind_run. cbn [ret].
  rewrite bind_run, get_headers_run.
  rewrite bind_run, (send_run GET _ _ (refreshed _ w) _ _ Hr).
  destruct r as [k | resp]; cbn [poll_broken submit_broken reply_json] in *.
  - subst e. reflexivity.
  - unfold response_json. destruct (body resp) as [j|].
    + cbn [lift]. rewrite bind_run. cbn [ret]. rewrite He. reflexivity.
    + subst e. reflexivity.
Qed.

Lemma poll_loop_broken (self : LivyCursor) (id : json) sid bad e rest (pend : list Reply) :
  cur_session_id self = JStr sid ->
  poll_broken bad e ->
  Forall pending pend ->
  forall (fuel : nat) (w : World),
    (List.length pend < fuel)%nat ->
    remote w = (pend ++ bad :: rest)%list ->
    exists w',
      while_true fuel (LivyCursor._getLivyResult_body self id) tt w = Raise e w'
      /\ steps w w' rest (poll_trace (poll_url self sid id) (List.length pend)).
Proof.
  intros Hsid Hbad Hpend. induction Hpend as [|r pend Hr Hpend IH]; intros fuel w Hfuel Hw.
  - rewrite while_true_step by lia.
    rewrite (poll_body_broken _ _ _ _ _ _ _ Hsid Hw Hbad).
    eexists. split; [reflexivity | apply steps_request].
  - cbn [List.length] in Hfuel. rewrite while_true_step by lia.
    rewrite (poll_body_pending _ _ _ _ _ _ Hsid Hw Hr).
    destruct (IH (Nat.pred fuel)
                 (after_sleep 5 (after_request (cur_credential self) GET
                                   (poll_url self sid id) None (pend ++ bad :: rest) w)))
      as (w' & Hrun & Hsteps); [lia | reflexivity |].
    exists w'. split; [exact Hrun|].
    cbn [List.length poll_trace].
    change (Request GET (poll_url self sid id) None
            :: Sleep DEFAULT_POLL_STATEMENT_WAIT
            :: poll_trace (poll_url self sid id) (List.length pend))
      with (([Request GET (poll_url self sid id) None] ++ [Sleep 5])
            ++ poll_trace (poll_url self sid id) (List.length pend))%list.
    eapply steps_trans; [|exact Hsteps].
    eapply steps_trans; [apply steps_request | apply steps_sleep].
Qed.

(** X27: a poll that fails in transport, or whose answer is not JSON or has
    no ["state"], ends [execute] with that exception at once: the statement
    is not submitted again, no further reply is read, and the cursor is as
    it was. *)
Theorem execute_does_not_retry_broken_poll (py : PyLib) (code language : string)
    (w : World) (sid : string) (s : Response) (id : json) (pend : list Reply)
    (bad : Reply) (e : exn) (rest : list Reply) :
  session_ready w sid ->
  remote w = Answer s :: (pend ++ bad :: rest)%list ->
  submit_accepted s ->
  statement_id s = Some id ->
  Forall pending pend ->
  poll_broken bad e ->
  exists w',
    LivyCursor.execute py code language [] w = Raise e w'
    /\ steps w w' rest
         (cycle_trace (cursor w) sid (final_code py code language) language id
                      (List.length pend)).
Proof.
  intros Hready Hr Hs Hid Hpend Hbad.
  destruct (submit_one_accepted (final_code py code language) language w sid s _ Hready Hr Hs)
    as (w0 & Hsub & St0).
  assert (Hc : cursor w0 = cursor w) by apply St0.
  destruct (statement_id_inv _ _ Hid) as (j & Hj & Hjid).
  destruct (poll_loop_broken (cursor w0) id sid bad e rest pend
              ltac:(rewrite Hc; apply Hready) Hbad Hpend
              (Datatypes.S (List.length (remote w0))) w0)
    as (w1 & Hloop & St1).
  { destruct St0 as (Hr0 & _). rewrite Hr0, length_app. cbn. lia. }
  { apply St0. }
  rewrite Hc in St1.
  exists w1. split; [|exact (steps_trans _ _ _ _ _ _ _ St0 St1)].
  rewrite execute_rounds, bind_run, while_true_step by lia.
  unfold LivyCursor.execute_body.
  rewrite (bind_Ok _ _ _ _ _ Hsub).
  unfold LivyCursor._getLivyResult at 1.
  rewrite bind_run, bind_run. cbn [gets].
  rewrite Hj. cbn [lift]. rewrite bind_run. cbn [ret].
  rewrite Hjid. cbn [lift]. rewrite bind_run. cbn [ret].
  unfold loop. rewrite Hloop. reflexivity.
Qed.

Lemma execute_does_not_retry_broken_poll_witness :
  exists w',
    LivyCursor.execute Fixture.py "SELECT 1" "sql" []
      (Fixture.ready [Answer (Fixture.submitted 1 "waiting");
                      Answer (mkResponse 502 None)])
    = Raise JSONDecodeError w'
    /\ remote w' = [].
Proof.
  destruct (execute_does_not_retry_broken_poll Fixture.py "SELECT 1" "sql"
              (Fixture.ready [Answer (Fixture.submitted 1 "waiting");
                              Answer (mkResponse 502 None)])
              "s1" (Fixture.submitted 1 "waiting") (JNum 1) []
              (Answer (mkResponse 502 None)) JSONDecodeError [])
    as (w' & Hrun & Hsteps).
  - split; [eexists; split; reflexivity | reflexivity].
  - reflexivity.
  - exists (JStr "waiting"). split; [reflexivity | discriminate].
  - reflexivity.
  - constructor.
  - reflexivity.
  - exists w'. split; [exact Hrun | apply Hsteps].
Defined.

(** ** The token cache across calls *)

(** X28: as long as the token the credential issues now can be converted
    and is at least 300 seconds from its expiry on the local wall clock,
    asking for the headers twice in a row is the same as asking once: the
    second call fetches nothing, changes nothing and gives the headers of
    the first. *)
Theorem get_headers_twice_fetches_once (credentials : SparkCredentials)
    (tokenPrint tokenPrint' : bool) (w : World) :
  convertible w (get_token w (credential_for credentials) (now w)) ->
  300 <= wall_clock_left w (get_token w (credential_for credentials) (now w)) ->
  bind (get_headers credentials tokenPrint)
       (fun _ => get_headers credentials tokenPrint') w
  = get_headers credentials tokenPrint w.
Proof.
  intros _ Hlong. rewrite bind_run, !get_headers_run.
  assert (Hfresh : (wall_clock_left w (token_after credentials w) <? 300) = false).
  { unfold token_after. destruct (accessToken w) as [t|].
    - destruct (wall_clock_left w t <? 300) eqn:E; [apply Z.ltb_ge; exact Hlong | exact E].
    - apply Z.ltb_ge. exact Hlong. }
  assert (Htok : token_after credentials (refreshed credentials w)
                 = token_after credentials w).
  { unfold token_after at 1. cbn [accessToken refreshed].
    change (wall_clock_left (refreshed credentials w) (token_after credentials w))
      with (wall_clock_left w (token_after credentials w)).
    rewrite Hfresh. reflexivity. }
  assert (Hstale : stale (refreshed credentials w) = false).
  { unfold stale at 1. cbn [accessToken refreshed]. exact Hfresh. }
  rewrite Htok. f_equal.
  unfold refreshed at 1. rewrite Htok, Hstale. reflexivity.
Qed.

Lemma get_headers_twice_fetches_once_witness :
  bind (get_headers Fixture.credentials false)
       (fun _ => get_headers Fixture.credentials true) (Fixture.fresh [])
  = Ok (bearer (mkAccessToken "fresh" 4600))
       (fetched AzureCliCredential (Fixture.fresh [])).
Proof.
  rewrite (get_headers_twice_fetches_once Fixture.credentials false true (Fixture.fresh [])).
  - reflexivity.
  - split; reflexivity.
  - vm_compute. discriminate.
Defined.

(** ** Bindings that cannot be converted *)



